(** * legalserver-mcp: the document text-retrieval pipeline of [index.js]

    A shallow embedding of the request handler of the LegalServer MCP server
    (helper functions, the four tools and the catch-all dispatcher), and the
    properties of its chunk/access engine.

    Modelling conventions.
    - A JavaScript string is the list of its UTF-16 code units; [length],
      [slice], [startsWith], ... count code units, as the engine does.
    - A JavaScript number is modelled by an integer ([Z]).  The tool's input
      schema declares [chunk_index] and [max_chars] as integers, and every
      integer the handler computes with is exactly representable as a double;
      numbers with a fractional part are outside the model.
    - JSON objects are association lists in source order.
    - What the handler obtains from its environment (the HTTP fetch, the
      UTF-8 decoder, pdf-parse, mammoth, the case mapping of
      [String.prototype.toLowerCase], the regular-expression engine, the text
      of engine-raised [TypeError]s) is a field of the record [Runtime];
      every theorem holds for every runtime. *)

From Stdlib Require Import ZArith QArith Qround Qabs String Ascii Lia DecimalString.
From stdpp Require Import base option list.

Set Warnings "-register-all".
Local Open Scope string_scope.
Local Open Scope list_scope.
Local Open Scope Z_scope.

(* ===================================================================== *)
(** * JavaScript strings *)
(* ===================================================================== *)

Module JS.

(** A UTF-16 code unit. *)
Definition codeunit : Type := N.

(** A string value: its code units in order. *)
Definition jsstring : Type := list codeunit.

(** An ASCII literal of the source text as a string value. *)
Definition lit (s : string) : jsstring :=
  N_of_ascii <$> list_ascii_of_string s.

(** [s.length] *)
Definition len (s : jsstring) : Z := Z.of_nat (length s).

(** Relative index clamping of [String.prototype.slice]: a negative index
    counts from the end, and the result is clamped to [0 .. len]. *)
Definition clamp_index (size k : Z) : Z :=
  if k <? 0 then Z.max (size + k) 0 else Z.min k size.

(** [s.slice(start, end)] for integer [start] and [end]. *)
Definition slice (s : jsstring) (start stop : Z) : jsstring :=
  let from := clamp_index (len s) start in
  let to := clamp_index (len s) stop in
  take (Z.to_nat (to - from)) (drop (Z.to_nat from) s).

Definition codeunit_eqb (a b : codeunit) : bool := N.eqb a b.

Fixpoint eqb (s t : jsstring) : bool :=
  match s, t with
  | [], [] => true
  | a :: s', b :: t' => codeunit_eqb a b && eqb s' t'
  | _, _ => false
  end.

(** [s.startsWith(p)] *)
Fixpoint startsWith (s p : jsstring) : bool :=
  match p, s with
  | [], _ => true
  | b :: p', a :: s' => codeunit_eqb a b && startsWith s' p'
  | _ :: _, [] => false
  end.

(** [s.endsWith(p)] *)
Definition endsWith (s p : jsstring) : bool :=
  startsWith (reverse s) (reverse p).

(** [s.includes(p)] *)
Fixpoint includes (s p : jsstring) : bool :=
  startsWith s p ||
  match s with
  | [] => false
  | _ :: s' => includes s' p
  end.

(** WhiteSpace and LineTerminator code points, the ones [trim] strips. *)
Definition is_space (c : codeunit) : bool :=
  let n := Z.of_N c in
  ((9 <=? n) && (n <=? 13)) || (n =? 32) || (n =? 160) || (n =? 5760)
  || ((8192 <=? n) && (n <=? 8202)) || (n =? 8232) || (n =? 8233)
  || (n =? 8239) || (n =? 8287) || (n =? 12288) || (n =? 65279).

Fixpoint trimStart (s : jsstring) : jsstring :=
  match s with
  | c :: s' => if is_space c then trimStart s' else s
  | [] => []
  end.

(** [s.trim()] *)
Definition trim (s : jsstring) : jsstring :=
  reverse (trimStart (reverse (trimStart s))).

(** [parts.join(sep)] on an array of strings. *)
Fixpoint join (sep : jsstring) (parts : list jsstring) : jsstring :=
  match parts with
  | [] => []
  | [p] => p
  | p :: rest => p ++ sep ++ join sep rest
  end.

Definition LF : codeunit := 10%N.

(** [s.split(/\n{2,}/)], as a scan that carries the piece being built and
    the number of line feeds seen since its last other code unit: a
    maximal run of two or more line feeds ends the piece, a single line
    feed belongs to it. *)
Fixpoint split_blank_lines (piece : jsstring) (pending : nat) (s : jsstring)
  : list jsstring :=
  match s with
  | [] =>
      match pending with
      | O => [piece]
      | S O => [piece ++ [LF]]
      | _ => [piece; []]
      end
  | c :: s' =>
      if codeunit_eqb c LF then split_blank_lines piece (S pending) s'
      else
        match pending with
        | O => split_blank_lines (piece ++ [c]) 0 s'
        | S O => split_blank_lines (piece ++ [LF; c]) 0 s'
        | _ => piece :: split_blank_lines [c] 0 s'
        end
  end.

Definition split_paragraphs (s : jsstring) : list jsstring :=
  split_blank_lines [] 0 s.

(** The decimal text of an integer, as template literals print it (below
    10^21 in magnitude, where JavaScript uses no exponent). *)
Definition number_toString (n : Z) : jsstring :=
  lit (NilZero.string_of_int (Z.to_int n)).

(** [Math.round]: the nearest integer, a tie going up. *)
Definition Math_round (x : Q) : Z := Qfloor (x + (1 # 2)).

End JS.

Import JS.

(* ===================================================================== *)
(** * Helper functions of the source *)
(* ===================================================================== *)

(** [chunkText]'s loop: [i] is the loop variable, [chunks] the array built
    so far.  [None] stands for a loop that is still running when the fuel
    is spent. *)
Fixpoint chunkText_loop (fuel : nat) (text : jsstring) (maxChars i : Z)
    (chunks : list jsstring) : option (list jsstring) :=
  match fuel with
  | O => None
  | S fuel' =>
      if i <? len text
      then chunkText_loop fuel' text maxChars (i + maxChars)
             (chunks ++ [slice text i (i + maxChars)])
      else Some chunks
  end.

(** [chunkText(text, maxChars)].  With a positive budget the loop runs at
    most [text.length] times, which the fuel covers. *)
Definition chunkText (text : jsstring) (maxChars : Z) : option (list jsstring) :=
  chunkText_loop (S (length text)) text maxChars 0 [].

(* ===================================================================== *)
(** * JSON values and the dynamic operations the handler applies to them *)
(* ===================================================================== *)

(** A JavaScript value as it reaches the handler from JSON, or as the
    handler puts it into a payload.  [JUndefined] is the value of an absent
    property; [JSON.stringify] leaves a property holding it out.

    Numbers are the integers, the type the tool schema declares for
    [chunk_index] and [max_chars] and the one byte counts have.  A number
    with a fractional part is outside this type: what the handler does with
    one ([chunks[1.5]], a budget of 2.5) is not expressed here, and every
    statement below about a number is a statement about an integer. *)
Inductive Json : Type :=
| JUndefined
| JNull
| JBool (b : bool)
| JNum (n : Z)
| JStr (s : jsstring)
| JArr (items : list Json)
| JObj (fields : list (string * Json)).

(** The fields of an object literal, in source order. *)
Definition Fields : Type := list (string * Json).

(** ToBoolean *)
Definition truthy (v : Json) : bool :=
  match v with
  | JUndefined | JNull => false
  | JBool b => b
  | JNum n => negb (n =? 0)
  | JStr s => match s with [] => false | _ => true end
  | JArr _ | JObj _ => true
  end.

(** [a || b] *)
Definition js_or (a b : Json) : Json := if truthy a then a else b.

(** Own-property lookup in an object literal. *)
Fixpoint field (fs : Fields) (k : string) : Json :=
  match fs with
  | [] => JUndefined
  | (k', v) :: rest => if String.eqb k' k then v else field rest k
  end.

(** [v === 'text'] for a string literal of the source. *)
Definition is_string (v : Json) (s : jsstring) : bool :=
  match v with JStr t => JS.eqb t s | _ => false end.

(** [v !== false] *)
Definition is_not_false (v : Json) : bool :=
  match v with JBool false => false | _ => true end.

(** ToString, as a template literal applies it. *)
Fixpoint ToString (v : Json) : jsstring :=
  match v with
  | JUndefined => lit "undefined"
  | JNull => lit "null"
  | JBool true => lit "true"
  | JBool false => lit "false"
  | JNum n => number_toString n
  | JStr s => s
  | JArr items =>
      join (lit ",")
        ((fix each (l : list Json) : list jsstring :=
            match l with
            | [] => []
            | JUndefined :: l' | JNull :: l' => [] :: each l'
            | x :: l' => ToString x :: each l'
            end) items)
  | JObj _ => lit "[object Object]"
  end.

Definition quote : jsstring := [34%N].

(** The payload properties that survive [JSON.stringify]. *)
Definition carries (payload : Json) (k : string) : Prop :=
  match payload with
  | JObj fs => field fs k <> JUndefined
  | _ => False
  end.

(** The value a serialised payload shows under a key. *)
Definition shown (payload : Json) (k : string) : Json :=
  match payload with
  | JObj fs => field fs k
  | _ => JUndefined
  end.

(* ===================================================================== *)
(** * Outcomes of a computation, module state, and the handler's monad *)
(* ===================================================================== *)

(** A thrown [Error]; handlers read its [message]. *)
Record Exn : Type := Error { message : jsstring }.

(** How a piece of the handler ends: it returns, it throws, or it never
    ends (a loop that outruns its fuel, a fetch that never answers). *)
Inductive Result (A : Type) : Type :=
| Return (a : A)
| Throw (e : Exn)
| Diverge.
Arguments Return {A} a.
Arguments Throw {A} e.
Arguments Diverge {A}.

(** The value held by the module-level variable [PDFParseClass]. *)
Inductive PdfSlot : Type :=
| PdfNull                       (* the initial [null] *)
| PdfFunction                   (* the class exported by pdf-parse *)
| PdfOther (is_truthy : bool).  (* an export that is not a function *)

(** The mutable state of the module that outlives a request. *)
Record ModuleState : Type := { PDFParseClass : PdfSlot }.

(** A handler step: it reads and writes the module state and ends in a
    [Result].  A write made before a throw stays made. *)
Definition M (A : Type) : Type := ModuleState -> Result A * ModuleState.

Definition ret {A} (a : A) : M A := fun s => (Return a, s).
Definition throw {A} (e : Exn) : M A := fun s => (Throw e, s).
Definition lift {A} (r : Result A) : M A := fun s => (r, s).

Definition bind {A B} (c : M A) (k : A -> M B) : M B :=
  fun s =>
    match c s with
    | (Return a, s') => k a s'
    | (Throw e, s') => (Throw e, s')
    | (Diverge, s') => (Diverge, s')
    end.

(** [try { c } catch (e) { h e }] *)
Definition try_catch {A} (c : M A) (h : Exn -> M A) : M A :=
  fun s =>
    match c s with
    | (Throw e, s') => h e s'
    | other => other
    end.

Declare Scope js_scope.
Delimit Scope js_scope with js.
Notation "'do' x <- c ; k" := (bind c (fun x => k))
  (at level 10, x name, c at level 100, k at level 200) : js_scope.
Local Open Scope js_scope.

(** The body of an HTTP download, as [callLegalserverAPI] returns it with
    [returnBinary]: [headers.get] yields a string or [null]. *)
Record Download : Type := {
  content : list Byte.byte;
  mimeType : option jsstring;
  contentDisposition : option jsstring
}.

(** What the handler takes from its environment. *)
Record Runtime : Type := {
  (** [String.prototype.toLowerCase] *)
  toLowerCase : jsstring -> jsstring;
  (** the message of the [TypeError] that JavaScript raises at a source
      expression *)
  TypeError_message : string -> jsstring;
  (** [callLegalserverAPI(endpoint, queryParams)] *)
  callLegalserverAPI : jsstring -> Fields -> Result Json;
  (** [callLegalserverAPI(endpoint, queryParams, true)] *)
  callLegalserverAPI_binary : jsstring -> Fields -> Result Download;
  (** the capture [match[1] || match[2]] of the content-disposition pattern,
      [None] when the pattern does not match *)
  disposition_filename : jsstring -> option jsstring;
  (** [decodeURIComponent] *)
  decodeURIComponent : jsstring -> Result jsstring;
  (** [buffer.toString('utf-8')] *)
  utf8_toString : list Byte.byte -> jsstring;
  (** [require('pdf-parse')] followed by [mod.PDFParse || mod.default || mod] *)
  require_pdf_parse : Result PdfSlot;
  (** [new PDFParse({ data })] followed by [parser.getText()] *)
  pdf_getText : list Byte.byte -> Result Json;
  (** [mammoth.extractRawText({ buffer })] followed by [result.value] *)
  mammoth_extractRawText : list Byte.byte -> Result jsstring;
  (** [Math.round(v / 4)] for an operand that is not a number *)
  coerced_round_quarter : Json -> Json;
  (** [(v / 1024).toFixed(2)] for an operand that is not a number *)
  coerced_kilobytes : Json -> jsstring;
  (** Number::toString for a number of at least 10^21, which JavaScript
      prints with an exponent *)
  exponent_toString : Q -> jsstring
}.

(** An [Error] with a literal message, and the [TypeError] of the language. *)
Definition new_Error (msg : jsstring) : Exn := Error msg.
Definition TypeError (rt : Runtime) (site : string) : Exn :=
  Error (TypeError_message rt site).

(* ===================================================================== *)
(** * Helper functions of the source, continued *)
(* ===================================================================== *)

(** [extractFilenameFromDisposition(disposition)]; the result is a string
    or [undefined]. *)
Definition extractFilenameFromDisposition (rt : Runtime)
    (disposition : option jsstring) : Result Json :=
  match disposition with
  | None | Some [] => Return JUndefined
  | Some d =>
      match disposition_filename rt d with
      | None => Return JUndefined
      | Some capture =>
          match decodeURIComponent rt capture with
          | Return name => Return (JStr name)
          | Throw e => Throw e
          | Diverge => Diverge
          end
      end
  end.

(** [guessMimeTypeFromName(name)]; [name.toLowerCase] exists for strings
    only. *)
Definition guessMimeTypeFromName (rt : Runtime) (name : Json) : Result Json :=
  if negb (truthy name) then Return JUndefined
  else
    match name with
    | JStr n =>
        let lower := toLowerCase rt n in
        if endsWith lower (lit ".pdf") then Return (JStr (lit "application/pdf"))
        else if endsWith lower (lit ".docx") then
          Return (JStr (lit "application/vnd.openxmlformats-officedocument.wordprocessingml.document"))
        else if endsWith lower (lit ".doc") then Return (JStr (lit "application/msword"))
        else if endsWith lower (lit ".txt") then Return (JStr (lit "text/plain"))
        else if endsWith lower (lit ".rtf") then Return (JStr (lit "application/rtf"))
        else Return JUndefined
    | _ => Throw (TypeError rt "name.toLowerCase is not a function")
    end.

Definition get_PDFParseClass : M PdfSlot :=
  fun s => (Return (PDFParseClass s), s).

Definition set_PDFParseClass (v : PdfSlot) : M unit :=
  fun _ => (Return tt, {| PDFParseClass := v |}).

Definition slot_truthy (v : PdfSlot) : bool :=
  match v with
  | PdfNull => false
  | PdfFunction => true
  | PdfOther b => b
  end.

(** [getPdfParseClass()]: the lazy loader, which caches what it loaded in
    the module variable before it checks that it is a function. *)
Definition getPdfParseClass (rt : Runtime) : M PdfSlot :=
  do cached <- get_PDFParseClass;
  if slot_truthy cached then ret cached
  else
    do loaded <- lift (require_pdf_parse rt);
    do _ <- set_PDFParseClass loaded;
    match loaded with
    | PdfFunction => ret loaded
    | _ => throw (new_Error
             (lit "pdf-parse did not expose a PDFParse class/function as expected"))
    end.

(* ===================================================================== *)
(** * The result envelope *)
(* ===================================================================== *)

(** What a tool call answers: [{ content: [{ type: 'text', text:
    JSON.stringify(payload, null, 2) }], isError }].  The model keeps the
    payload object itself. *)
Record Response : Type := {
  payload : Json;
  isError : bool
}.

(** [return { content: [...] }] of a tool body. *)
Definition respond (fs : Fields) : Response :=
  {| payload := JObj fs; isError := false |}.

(* ===================================================================== *)
(** * The chunk/access engine: [get_document], lines 657-841 *)
(* ===================================================================== *)

(** [!s] for a string *)
Definition empty (s : jsstring) : bool :=
  match s with [] => true | _ => false end.

(** [!fullText || !fullText.trim()] *)
Definition blank (fullText : jsstring) : bool :=
  empty fullText || empty (trim fullText).

(** [typeof args.max_chars === 'number' && args.max_chars > 0
     ? args.max_chars : 8000] *)
Definition effective_maxChars (args : Fields) : Z :=
  match field args "max_chars" with
  | JNum n => if 0 <? n then n else 8000
  | _ => 8000
  end.

(** [args.mode || 'preview'] *)
Definition effective_mode (args : Fields) : Json :=
  js_or (field args "mode") (JStr (lit "preview")).

(** [typeof args.chunk_index === 'number' ? args.chunk_index : 0] *)
Definition effective_chunk_index (args : Fields) : Z :=
  match field args "chunk_index" with
  | JNum n => n
  | _ => 0
  end.

(** [Math.round(totalLength / 4)] *)
Definition estimated_tokens (totalLength : Z) : Z :=
  Math_round (inject_Z totalLength / inject_Z 4).

Definition MAX_FULL_TOKENS : Z := 40000.

(** [chunks[i]] *)
Definition chunk_at (chunks : list jsstring) (i : Z) : Json :=
  if i <? 0 then JUndefined
  else match chunks !! Z.to_nat i with
       | Some c => JStr c
       | None => JUndefined
       end.

(** The state of the search loops: the array [matches] and the string
    [accumulated]. *)
Definition SearchState : Type := (list jsstring * jsstring)%type.

(** [for (const p of context) { ... }]: the first paragraph that does not
    fit ends this loop. *)
Fixpoint search_context (maxChars : Z) (context : list jsstring)
    (st : SearchState) : SearchState :=
  match context with
  | [] => st
  | p :: rest =>
      let '(matches, accumulated) := st in
      if maxChars <? len accumulated + len p + 2 then st
      else search_context maxChars rest
             (matches ++ [p], accumulated ++ p ++ [LF; LF])
  end.

(** The [context] array of paragraph [i]: its predecessor, itself, its
    successor. *)
Definition context_of (paragraphs : list jsstring) (i : nat) : list jsstring :=
  (if (0 <? i)%nat then [paragraphs !!! (i - 1)%nat] else [])
  ++ [paragraphs !!! i]
  ++ (if (i <? length paragraphs - 1)%nat then [paragraphs !!! (i + 1)%nat] else []).

(** [for (let i = 0; i < paragraphs.length; i++) { ... }], with [todo] the
    number of indices left; every array read is within bounds. *)
Fixpoint search_scan (rt : Runtime) (q : jsstring) (maxChars : Z)
    (paragraphs : list jsstring) (todo i : nat) (st : SearchState)
    : SearchState :=
  match todo with
  | O => st
  | S todo' =>
      let st' :=
        if includes (toLowerCase rt (paragraphs !!! i)) q
        then search_context maxChars (context_of paragraphs i) st
        else st in
      if maxChars <=? len (snd st') then st'
      else search_scan rt q maxChars paragraphs todo' (S i) st'
  end.

(** The accumulation of search mode, lines 769-791. *)
Definition search_matches (rt : Runtime) (q : jsstring) (maxChars : Z)
    (fullText : jsstring) : list jsstring :=
  let paragraphs := split_paragraphs fullText in
  fst (search_scan rt q maxChars paragraphs (length paragraphs) 0 ([], [])).

(** The payloads of the engine, one per [return] of lines 662-841. *)

Definition no_text_failure (identifier mode : Json) : Response :=
  respond
    [("success", JBool false);
     ("document_identifier", identifier);
     ("mode", mode);
     ("error", JStr (lit "No text content could be extracted from this document."))].

Definition too_large_failure (identifier : Json) (ESTIMATED_TOKENS : Z) : Response :=
  respond
    [("success", JBool false);
     ("document_identifier", identifier);
     ("mode", JStr (lit "full"));
     ("error", JStr (lit "Document too large for full retrieval in a single call."));
     ("estimated_tokens", JNum ESTIMATED_TOKENS);
     ("suggestion", JStr (lit "Call get_document with mode=" ++ quote ++ lit "preview"
        ++ quote ++ lit ", " ++ quote ++ lit "chunk" ++ quote ++ lit ", or "
        ++ quote ++ lit "search" ++ quote ++ lit " instead."))].

Definition preview_success (identifier : Json) (totalLength ESTIMATED_TOKENS : Z)
    (chunks : list jsstring) : Response :=
  respond
    [("success", JBool true);
     ("document_identifier", identifier);
     ("mode", JStr (lit "preview"));
     ("total_length", JNum totalLength);
     ("estimated_tokens", JNum ESTIMATED_TOKENS);
     ("approx_chunks", JNum (Z.of_nat (length chunks)));
     ("chunk_index", JNum 0);
     ("text", chunk_at chunks 0);
     ("note", JStr (lit "To retrieve more content, call get_document with mode="
        ++ quote ++ lit "chunk" ++ quote
        ++ lit " and a chunk_index between 0 and approx_chunks - 1."))].

Definition chunk_range_failure (identifier : Json) (idx totalLength : Z)
    (chunks : list jsstring) : Response :=
  respond
    [("success", JBool false);
     ("document_identifier", identifier);
     ("mode", JStr (lit "chunk"));
     ("error", JStr (lit "chunk_index " ++ number_toString idx
        ++ lit " out of range (0-"
        ++ number_toString (Z.of_nat (length chunks) - 1) ++ lit ")"));
     ("total_length", JNum totalLength);
     ("approx_chunks", JNum (Z.of_nat (length chunks)))].

Definition chunk_success (identifier : Json) (idx totalLength ESTIMATED_TOKENS : Z)
    (chunks : list jsstring) : Response :=
  respond
    [("success", JBool true);
     ("document_identifier", identifier);
     ("mode", JStr (lit "chunk"));
     ("total_length", JNum totalLength);
     ("estimated_tokens", JNum ESTIMATED_TOKENS);
     ("approx_chunks", JNum (Z.of_nat (length chunks)));
     ("chunk_index", JNum idx);
     ("text", chunk_at chunks idx)].

Definition query_required_failure (identifier : Json) : Response :=
  respond
    [("success", JBool false);
     ("document_identifier", identifier);
     ("mode", JStr (lit "search"));
     ("error", JStr (lit "search_query is required when mode is "
        ++ quote ++ lit "search" ++ quote ++ lit "."))].

Definition search_success (identifier : Json) (q : jsstring)
    (totalLength ESTIMATED_TOKENS : Z) (matches : list jsstring) : Response :=
  respond
    [("success", JBool true);
     ("document_identifier", identifier);
     ("mode", JStr (lit "search"));
     ("query", JStr q);
     ("total_length", JNum totalLength);
     ("estimated_tokens", JNum ESTIMATED_TOKENS);
     ("snippet_count", JNum (Z.of_nat (length matches)));
     ("text", JStr (join [LF; LF] matches))].

Definition full_success (identifier : Json) (totalLength ESTIMATED_TOKENS : Z)
    (truncated : bool) (textToReturn : jsstring) : Response :=
  respond
    [("success", JBool true);
     ("document_identifier", identifier);
     ("mode", JStr (lit "full"));
     ("total_length", JNum totalLength);
     ("estimated_tokens", JNum ESTIMATED_TOKENS);
     ("truncated", JBool truncated);
     ("text", JStr textToReturn)].

Definition unknown_mode_failure (identifier mode : Json) : Response :=
  respond
    [("success", JBool false);
     ("document_identifier", identifier);
     ("mode", mode);
     ("error", JStr (lit "Unsupported mode " ++ quote ++ ToString mode ++ quote
        ++ lit ". Use " ++ quote ++ lit "preview" ++ quote ++ lit ", "
        ++ quote ++ lit "chunk" ++ quote ++ lit ", " ++ quote ++ lit "search"
        ++ quote ++ lit ", or " ++ quote ++ lit "full" ++ quote ++ lit "."))].

(** [(args.search_query || '').trim().toLowerCase()]; [trim] exists for
    strings only. *)
Definition search_query_of (rt : Runtime) (args : Fields) : Result jsstring :=
  match js_or (field args "search_query") (JStr []) with
  | JStr raw => Return (toLowerCase rt (trim raw))
  | _ => Throw (TypeError rt "(args.search_query || '').trim is not a function")
  end.

(** The engine, from the defaulting of [mode] and [maxChars] (line 657) to
    the fallback for an unknown mode (line 841). *)
Definition access_engine (rt : Runtime) (identifier : Json) (args : Fields)
    (fullText : jsstring) : Result Response :=
  let mode := effective_mode args in
  let maxChars := effective_maxChars args in
  if blank fullText then
    Return (no_text_failure identifier mode)
  else
    let totalLength := len fullText in
    match chunkText fullText maxChars with
    | None => Diverge
    | Some chunks =>
        let ESTIMATED_TOKENS := estimated_tokens totalLength in
        if is_string mode (lit "full") && (MAX_FULL_TOKENS <? ESTIMATED_TOKENS) then
          Return (too_large_failure identifier ESTIMATED_TOKENS)
        else if is_string mode (lit "preview") then
          Return (preview_success identifier totalLength ESTIMATED_TOKENS chunks)
        else if is_string mode (lit "chunk") then
          let idx := effective_chunk_index args in
          if (idx <? 0) || (Z.of_nat (length chunks) <=? idx) then
            Return (chunk_range_failure identifier idx totalLength chunks)
          else
            Return (chunk_success identifier idx totalLength ESTIMATED_TOKENS chunks)
        else if is_string mode (lit "search") then
          match search_query_of rt args with
          | Return q =>
              if empty q then Return (query_required_failure identifier)
              else
                Return (search_success identifier q totalLength ESTIMATED_TOKENS
                          (search_matches rt q maxChars fullText))
          | Throw e => Throw e
          | Diverge => Diverge
          end
        else if is_string mode (lit "full") then
          let textToReturn :=
            if maxChars <? totalLength then slice fullText 0 maxChars
            else fullText in
          Return (full_success identifier totalLength ESTIMATED_TOKENS
                    (maxChars <? totalLength) textToReturn)
        else
          Return (unknown_mode_failure identifier mode)
    end.

(* ===================================================================== *)
(** * Tool 4, [get_document]: fetch, format dispatch, extraction *)
(* ===================================================================== *)

(** [mimeType === 'application/pdf' ||
     identifier.toLowerCase().endsWith('.pdf') || mimeType.includes('pdf')],
    evaluated left to right; [toLowerCase] exists for strings only. *)
Definition is_pdf (rt : Runtime) (mimeType : jsstring) (identifier : Json)
    : Result bool :=
  if JS.eqb mimeType (lit "application/pdf") then Return true
  else
    match identifier with
    | JStr ident =>
        Return (endsWith (toLowerCase rt ident) (lit ".pdf")
                || includes mimeType (lit "pdf"))
    | _ => Throw (TypeError rt "identifier.toLowerCase is not a function")
    end.

(** [result && typeof result.text === 'string' ? result.text : ''] *)
Definition text_of_pdf_result (result : Json) : jsstring :=
  if truthy result then
    match shown result "text" with
    | JStr t => t
    | _ => []
    end
  else [].

(** CASE 3, lines 619-633: the PDF strategy, with its own [try]/[catch]
    that rethrows under a prefixed message. *)
Definition extract_pdf (rt : Runtime) (data : list Byte.byte) : M jsstring :=
  try_catch
    (do PDFParse <- getPdfParseClass rt;
     match PDFParse with
     | PdfFunction =>
         do result <- lift (pdf_getText rt data);
         ret (text_of_pdf_result result)
     | _ => throw (TypeError rt "PDFParse is not a constructor")
     end)
    (fun err =>
       throw (new_Error (lit "Failed to extract PDF text: " ++ message err))).

(** CASE 4, lines 635-637: the word-processor strategy. *)
Definition extract_word (rt : Runtime) (data : list Byte.byte) : M jsstring :=
  lift (mammoth_extractRawText rt data).

(** CASE 1, lines 592-608. *)
Definition image_failure (identifier : Json) (mimeType : jsstring)
    (documentData : Download) : Response :=
  respond
    [("success", JBool false);
     ("document_identifier", identifier);
     ("mime_type", JStr mimeType);
     ("error", JStr (lit "Image document - OCR not available"));
     ("suggestion", JStr (lit "This is an image file. To read text from images, OCR (Optical Character Recognition) would be needed. Please ask the user to describe the image content or provide it in text format."));
     ("size_bytes", JNum (Z.of_nat (length (content documentData))))].

(** CASE 5, lines 639-654. *)
Definition unsupported_failure (identifier : Json) (mimeType : jsstring)
    (documentData : Download) : Response :=
  respond
    [("success", JBool false);
     ("document_identifier", identifier);
     ("mime_type", JStr mimeType);
     ("error", JStr (lit "Unsupported document format for text extraction"));
     ("suggestion", JStr (lit "This document type (" ++ mimeType
        ++ lit ") cannot be read directly. Supported formats: PDF, plain text. Please ask the user if they can provide the document in a supported format."));
     ("size_bytes", JNum (Z.of_nat (length (content documentData))))].

(** The handler of the inner [catch (extractionError)], lines 843-859. *)
Definition extraction_failure (identifier : Json) (mimeType : jsstring)
    (extractionError : Exn) : Response :=
  respond
    [("success", JBool false);
     ("document_identifier", identifier);
     ("mime_type", JStr mimeType);
     ("error", JStr (lit "Failed to extract text: " ++ message extractionError));
     ("suggestion", JStr (lit "The document could not be processed. It may be corrupted or in an unsupported format."))].

(** Lines 591-655: the format dispatch.  It either returns early with a
    failure ([inl]) or leaves the extracted text in [fullText] ([inr]). *)
Definition extract_text (rt : Runtime) (identifier : Json) (mimeType : jsstring)
    (documentData : Download) : M (Response + jsstring) :=
  if startsWith mimeType (lit "image/") then
    ret (inl (image_failure identifier mimeType documentData))
  else if startsWith mimeType (lit "text/") || includes mimeType (lit "plain") then
    ret (inr (utf8_toString rt (content documentData)))
  else
    do pdf <- lift (is_pdf rt mimeType identifier);
    if pdf then
      do fullText <- extract_pdf rt (content documentData);
      ret (inr fullText)
    else if includes mimeType (lit "word") || includes mimeType (lit "officedocument") then
      do fullText <- extract_word rt (content documentData);
      ret (inr fullText)
    else
      ret (inl (unsupported_failure identifier mimeType documentData)).

(** Lines 588-859: the inner [try] with the format dispatch followed by the
    engine, and its [catch]. *)
Definition get_document_content (rt : Runtime) (args : Fields)
    (identifier : Json) (mimeType : jsstring) (documentData : Download)
    : M Response :=
  try_catch
    (do extracted <- extract_text rt identifier mimeType documentData;
     match extracted with
     | inl early => ret early
     | inr fullText => lift (access_engine rt identifier args fullText)
     end)
    (fun extractionError =>
       ret (extraction_failure identifier mimeType extractionError)).

(** [documentData.mimeType || guessMimeTypeFromName(filename || identifier)
     || 'application/octet-stream'] *)
Definition resolve_mimeType (rt : Runtime) (documentData : Download)
    (filename identifier : Json) : Result jsstring :=
  match mimeType documentData with
  | Some (c :: m) => Return (c :: m)
  | _ =>
      match guessMimeTypeFromName rt (js_or filename identifier) with
      | Return (JStr (c :: m)) => Return (c :: m)
      | Return _ => Return (lit "application/octet-stream")
      | Throw e => Throw e
      | Diverge => Diverge
      end
  end.

(** The body of [get_document] once the download is there, lines 583-859. *)
Definition get_document_body (rt : Runtime) (args : Fields)
    (documentData : Download) : M Response :=
  let document_id := field args "document_id" in
  let document_uuid := field args "document_uuid" in
  do filename <- lift (extractFilenameFromDisposition rt
                         (contentDisposition documentData));
  let identifier := js_or (js_or filename document_id) document_uuid in
  do mimeType <- lift (resolve_mimeType rt documentData filename identifier);
  get_document_content rt args identifier mimeType documentData.

(** [request.params]: the tool's name and its optional arguments object. *)
Record Request : Type := {
  name : jsstring;
  arguments : option Fields
}.

(** The arguments object, or the [TypeError] of destructuring [undefined]. *)
Definition destructure (rt : Runtime) (args : option Fields) : M Fields :=
  match args with
  | Some fs => ret fs
  | None => throw (TypeError rt "Cannot destructure 'args' as it is undefined.")
  end.

(** Tool 4, lines 559-860. *)
Definition get_document (rt : Runtime) (arguments : option Fields) : M Response :=
  do args <- destructure rt arguments;
  let document_id := field args "document_id" in
  let document_uuid := field args "document_uuid" in
  if negb (truthy document_id) && negb (truthy document_uuid) then
    throw (new_Error (lit "Either document_id or document_uuid is required"))
  else
    let queryParams :=
      (if truthy document_id then [("id", document_id)] else [])
      ++ (if truthy document_uuid then [("unique_id", document_uuid)] else []) in
    do documentData <- lift (callLegalserverAPI_binary rt
                               (lit "/modules/document/download.php") queryParams);
    get_document_body rt args documentData.

(* ===================================================================== *)
(** * Tools 1-3: the pass-through tools *)
(* ===================================================================== *)

Definition nullish (v : Json) : bool :=
  match v with JUndefined | JNull => true | _ => false end.

(** [v.k]: reading a property of [undefined] or [null] throws; of the
    values JSON can carry, only objects have named properties, and arrays
    and strings a [length]. *)
Definition member (rt : Runtime) (v : Json) (k : string) : M Json :=
  match v with
  | JUndefined | JNull =>
      throw (TypeError rt ("Cannot read properties of undefined or null: " ++ k))
  | JObj fs => ret (field fs k)
  | JArr items =>
      ret (if String.eqb k "length" then JNum (Z.of_nat (length items)) else JUndefined)
  | JStr s => ret (if String.eqb k "length" then JNum (len s) else JUndefined)
  | JBool _ | JNum _ => ret JUndefined
  end.

(** [v[0]] *)
Definition first_element (rt : Runtime) (v : Json) : M Json :=
  match v with
  | JUndefined | JNull =>
      throw (TypeError rt "Cannot read properties of undefined or null: 0")
  | JObj fs => ret (field fs "0")
  | JArr items => ret (default JUndefined (head items))
  | JStr s => ret (match s with c :: _ => JStr [c] | [] => JUndefined end)
  | JBool _ | JNum _ => ret JUndefined
  end.

(** An object literal whose properties are reads [source.from] under the
    names [to], evaluated in order. *)
Fixpoint pick (rt : Runtime) (source : Json) (keys : list (string * string))
    : M Fields :=
  match keys with
  | [] => ret []
  | (to, from) :: rest =>
      do v <- member rt source from;
      do fs <- pick rt source rest;
      ret ((to, v) :: fs)
  end.

(** Tool 1, lines 307-365. *)
Definition search_case_by_number (rt : Runtime) (arguments : option Fields)
    : M Response :=
  do args <- destructure rt arguments;
  let case_number := field args "case_number" in
  if negb (truthy case_number) then
    throw (new_Error (lit "case_number is required"))
  else
    do response <- lift (callLegalserverAPI rt (lit "/api/v1/matters")
                           [("case_number", case_number);
                            ("results", JStr (lit "full"));
                            ("page_size", JStr (lit "1"))]);
    do data <- member rt response "data";
    do count <- (if truthy data then member rt data "length" else ret JUndefined);
    if negb (truthy data) || match count with JNum 0 => true | _ => false end then
      ret (respond
        [("success", JBool false);
         ("error", JStr (lit "No case found with case number: " ++ ToString case_number));
         ("suggestion", JStr (lit "Please verify the case number and try again."))])
    else
      do caseData <- first_element rt data;
      do found <- pick rt caseData
                    [("matter_uuid", "matter_uuid"); ("case_id", "case_id");
                     ("case_number", "case_number");
                     ("client_name", "client_full_name");
                     ("case_disposition", "case_disposition");
                     ("date_opened", "date_opened");
                     ("legal_problem_code", "legal_problem_code");
                     ("case_profile_url", "case_profile_url")];
      ret (respond
        ([("success", JBool true); ("case_found", JBool true)] ++ found
         ++ [("note", JStr (lit "Use the matter_uuid to retrieve documents with list_case_documents"))])).

(** [caseData.notes.filter(note => note.active !== false)] on the elements
    of an array. *)
Fixpoint filter_active (rt : Runtime) (notes : list Json) : M (list Json) :=
  match notes with
  | [] => ret []
  | note :: rest =>
      do active <- member rt note "active";
      do kept <- filter_active rt rest;
      ret (if is_not_false active then note :: kept else kept)
  end.

(** [.map(note => ({ id: note.id, ... }))] *)
Fixpoint map_notes (rt : Runtime) (notes : list Json) : M (list Json) :=
  match notes with
  | [] => ret []
  | note :: rest =>
      do fs <- pick rt note
                 [("id", "id"); ("uuid", "casenote_uuid"); ("subject", "subject");
                  ("body", "body"); ("note_type", "note_type");
                  ("date_posted", "date_posted");
                  ("date_created", "date_time_created");
                  ("created_by", "created_by"); ("last_updated", "last_update");
                  ("last_updated_by", "last_updated_by"); ("is_html", "is_html");
                  ("has_document_attached", "note_has_document_attached")];
      do mapped <- map_notes rt rest;
      ret (JObj fs :: mapped)
  end.

(** [notes.filter(...)]: only arrays have [filter]. *)
Definition filter_notes (rt : Runtime) (notes : Json) : M (list Json) :=
  match notes with
  | JArr items => filter_active rt items
  | _ => throw (TypeError rt "caseData.notes.filter is not a function")
  end.

(** Tool 2, lines 370-474. *)
Definition get_case_info (rt : Runtime) (arguments : option Fields) : M Response :=
  do args <- destructure rt arguments;
  let case_uuid := field args "case_uuid" in
  if negb (truthy case_uuid) then
    throw (new_Error (lit "case_uuid is required"))
  else
    do response <- lift (callLegalserverAPI rt
                           (lit "/api/v1/matters/" ++ ToString case_uuid)
                           [("results", JStr (lit "full"))]);
    do caseData <- member rt response "data";
    do basic <- pick rt caseData
                  [("case_number", "case_number"); ("case_id", "case_id");
                   ("case_title", "case_title");
                   ("case_disposition", "case_disposition");
                   ("case_status", "case_status");
                   ("client_name", "client_full_name");
                   ("client_email", "client_email_address")];
    do dates <- pick rt caseData
                  [("opened", "date_opened"); ("closed", "date_closed");
                   ("intake", "intake_date"); ("rejected", "date_rejected");
                   ("days_open", "days_open")];
    do location <- pick rt caseData
                     [("home_address", "client_address_home");
                      ("mailing_address", "client_address_mailing");
                      ("county_of_residence", "county_of_residence");
                      ("county_of_dispute", "county_of_dispute")];
    do legal_problem <- pick rt caseData
                          [("code", "legal_problem_code");
                           ("category", "legal_problem_category");
                           ("special_code", "special_legal_problem_code");
                           ("case_type", "case_type")];
    do details <- pick rt caseData
                    [("intake_office", "intake_office");
                     ("intake_program", "intake_program");
                     ("close_reason", "close_reason")];
    do notes <- member rt caseData "notes";
    do listed <- (if truthy notes then
                    do kept <- filter_notes rt notes;
                    map_notes rt kept
                  else ret []);
    do total <- (if nullish notes then ret JUndefined else member rt notes "length");
    do active <- (if nullish notes then ret JUndefined
                  else
                    do kept <- filter_notes rt notes;
                    ret (JNum (Z.of_nat (length kept))));
    do profile <- member rt caseData "case_profile_url";
    ret (respond
      ([("success", JBool true); ("case_uuid", case_uuid)] ++ basic
       ++ [("dates", JObj dates); ("location", JObj location);
           ("legal_problem", JObj legal_problem)]
       ++ details
       ++ [("notes", JArr listed);
           ("notes_summary",
            JObj [("total_notes", js_or total (JNum 0));
                  ("active_notes", js_or active (JNum 0))]);
           ("case_profile_url", profile)])).

(** [x.toFixed(2)]: the sign, then for a magnitude of 10^21 or more what
    ToString gives, else the nearest number of hundredths (a tie going up)
    printed with two decimals. *)
Definition toFixed2 (rt : Runtime) (x : Q) : jsstring :=
  let n := Qfloor (Qabs x * inject_Z 100 + (1 # 2)) in
  let cents := n mod 100 in
  (if Qlt_le_dec x 0 then lit "-" else [])
  ++ (if Qle_bool (inject_Z (10 ^ 21)) (Qabs x) then exponent_toString rt (Qabs x)
      else number_toString (n / 100) ++ lit "."
           ++ number_toString (cents / 10) ++ number_toString (cents mod 10)).

(** [sizeBytes ? Math.round(sizeBytes / 4) : null] *)
Definition size_tokens (rt : Runtime) (sizeBytes : Json) : Json :=
  if truthy sizeBytes then
    match sizeBytes with
    | JNum n => JNum (Math_round (inject_Z n / inject_Z 4))
    | other => coerced_round_quarter rt other
    end
  else JNull.

(** [sizeBytes ? `${(sizeBytes / 1024).toFixed(2)} KB` : null] *)
Definition size_label (rt : Runtime) (sizeBytes : Json) : Json :=
  if truthy sizeBytes then
    JStr (match sizeBytes with
          | JNum n => toFixed2 rt (inject_Z n / inject_Z 1024)
          | other => coerced_kilobytes rt other
          end ++ lit " KB")
  else JNull.

(** [documents.map(doc => { ... })] *)
Fixpoint map_documents (rt : Runtime) (documents : list Json) : M (list Json) :=
  match documents with
  | [] => ret []
  | doc :: rest =>
      do disk_file_size <- member rt doc "disk_file_size";
      do file_size <- member rt doc "file_size";
      let sizeBytes := js_or (js_or disk_file_size file_size) JNull in
      do ids <- pick rt doc [("guid", "guid"); ("internal_id", "internal_id")];
      do meta <- pick rt doc
                   [("name", "name"); ("title", "title"); ("mime_type", "mime_type")];
      do tail <- pick rt doc
                   [("date_created", "date_create"); ("date_updated", "date_update");
                    ("virus_scanned", "virus_scanned"); ("virus_free", "virus_free");
                    ("folder_id", "folder_id")];
      do mapped <- map_documents rt rest;
      ret (JObj (ids ++ meta
                 ++ [("size_bytes", sizeBytes);
                     ("estimated_tokens", size_tokens rt sizeBytes);
                     ("file_size", size_label rt sizeBytes)]
                 ++ tail) :: mapped)
  end.

(** Tool 3, lines 479-554. *)
Definition list_case_documents (rt : Runtime) (arguments : option Fields)
    : M Response :=
  do args <- destructure rt arguments;
  let case_uuid := field args "case_uuid" in
  if negb (truthy case_uuid) then
    throw (new_Error (lit "case_uuid is required"))
  else
    do documentResponse <- lift (callLegalserverAPI rt
                                   (lit "/api/v1/matters/" ++ ToString case_uuid
                                    ++ lit "/documents") []);
    do data <- (if nullish documentResponse then ret JUndefined
                else member rt documentResponse "data");
    let documents := if nullish data then documentResponse else data in
    match documents with
    | JArr (doc :: rest) =>
        do mapped <- map_documents rt (doc :: rest);
        ret (respond
          [("success", JBool true);
           ("case_uuid", case_uuid);
           ("total_documents", JNum (Z.of_nat (length (doc :: rest))));
           ("documents", JArr mapped);
           ("note", JStr (lit "Use the guid field with get_document to retrieve document content"))])
    | _ =>
        ret (respond
          [("success", JBool false);
           ("error", JStr (lit "No documents were found for this case."));
           ("suggestion", JStr (lit "Verify the case UUID or ensure documents have been uploaded."))])
    end.

(* ===================================================================== *)
(** * The dispatcher: the [CallToolRequestSchema] handler *)
(* ===================================================================== *)

(** Lines 863-879: the envelope the outer [catch] builds. *)
Definition error_envelope (name : jsstring) (error : Exn) : Response :=
  {| payload :=
       JObj [("error", JBool true);
             ("tool", JStr name);
             ("message", JStr (message error));
             ("suggestion", JStr (lit "Check the parameters and try again. Ensure the case exists and you have proper permissions."))];
     isError := true |}.

(** The tool bodies inside the outer [try], lines 303-861. *)
Definition tool_body (rt : Runtime) (request : Request) : M Response :=
  if JS.eqb (name request) (lit "search_case_by_number") then
    search_case_by_number rt (arguments request)
  else if JS.eqb (name request) (lit "get_case_info") then
    get_case_info rt (arguments request)
  else if JS.eqb (name request) (lit "list_case_documents") then
    list_case_documents rt (arguments request)
  else if JS.eqb (name request) (lit "get_document") then
    get_document rt (arguments request)
  else
    throw (new_Error (lit "Unknown tool: " ++ name request)).

(** The request handler, lines 300-880. *)
Definition call_tool (rt : Runtime) (request : Request) : M Response :=
  try_catch (tool_body rt request)
    (fun error => ret (error_envelope (name request) error)).

(* ===================================================================== *)
(** * The dispatch table of the specification *)
(* ===================================================================== *)

(** The five outcomes of the format dispatch. *)
Inductive Strategy : Type :=
| ImageUnsupported
| DecodeUtf8
| PdfExtraction
| WordExtraction
| FormatUnsupported.




(** What each outcome of the table does with the payload. *)
Definition run_strategy (rt : Runtime) (strategy : Strategy) (identifier : Json)
    (mimeType : jsstring) (documentData : Download) : M (Response + jsstring) :=
  match strategy with
  | ImageUnsupported => ret (inl (image_failure identifier mimeType documentData))
  | DecodeUtf8 => ret (inr (utf8_toString rt (content documentData)))
  | PdfExtraction =>
      do fullText <- extract_pdf rt (content documentData);
      ret (inr fullText)
  | WordExtraction =>
      do fullText <- extract_word rt (content documentData);
      ret (inr fullText)
  | FormatUnsupported =>
      ret (inl (unsupported_failure identifier mimeType documentData))
  end.

(* ===================================================================== *)
(** * A concrete runtime for examples *)
(* ===================================================================== *)

Module Example.

(** [toLowerCase] on Basic Latin text. *)
Definition ascii_toLowerCase (s : jsstring) : jsstring :=
  (fun c => if ((65 <=? c) && (c <=? 90))%N then (c + 32)%N else c) <$> s.

(** Decoding of bytes below 128, which UTF-8 maps to themselves. *)
Definition ascii_decode (bs : list Byte.byte) : jsstring :=
  (fun b => Byte.to_N b) <$> bs.

(** A runtime whose download is [d], whose pdf-parse yields the text
    [pdf_text], and which knows the file name of one content-disposition
    header. *)
Definition runtime (d : Download) (pdf_text : jsstring) : Runtime :=
  {| toLowerCase := ascii_toLowerCase;
     TypeError_message := lit;
     callLegalserverAPI := fun _ _ => Return (JObj [("data", JArr [])]);
     callLegalserverAPI_binary := fun _ _ => Return d;
     disposition_filename := fun header =>
       if JS.eqb header (lit "attachment; filename=REPORT.PDF")
       then Some (lit "REPORT.PDF") else None;
     decodeURIComponent := fun s => Return s;
     utf8_toString := ascii_decode;
     require_pdf_parse := Return PdfFunction;
     pdf_getText := fun _ => Return (JObj [("text", JStr pdf_text)]);
     mammoth_extractRawText := fun _ => Return [];
     coerced_round_quarter := fun _ => JNull;
     coerced_kilobytes := fun _ => [];
     exponent_toString := fun _ => [] |}.

(** A download with a declared MIME type and no content-disposition. *)
Definition download (body mime : string) : Download :=
  {| content := list_byte_of_string body;
     mimeType := Some (lit mime);
     contentDisposition := None |}.

(** A download that names its file and declares a generic MIME type. *)
Definition named_download (body : string) : Download :=
  {| content := list_byte_of_string body;
     mimeType := Some (lit "application/octet-stream");
     contentDisposition := Some (lit "attachment; filename=REPORT.PDF") |}.

(** A plain-text download of [n] letters A, and the text of [n] letters A. *)
Definition letters_download (n : Z) : Download :=
  {| content := repeat Byte.x41 (Z.to_nat n);
     mimeType := Some (lit "text/plain");
     contentDisposition := None |}.

Definition letters (n : Z) : jsstring := repeat 65%N (Z.to_nat n).

Definition fresh : ModuleState := {| PDFParseClass := PdfNull |}.

Definition get_document_request (args : Fields) : Request :=
  {| name := lit "get_document"; arguments := Some args |}.

Definition blank_line : string := String (ascii_of_nat 10) (String (ascii_of_nat 10) EmptyString).

End Example.

(* ===================================================================== *)
(** * Vocabulary of the statements *)
(* ===================================================================== *)

(** A text that holds a code unit other than white space. *)
Definition has_text (fullText : jsstring) : Prop :=
  Exists (fun c => is_space c = false) fullText.


(** What the inner [catch] makes of the engine's result. *)
Definition caught (identifier : Json) (mimeType : jsstring)
    (r : Result Response) : Result Response :=
  match r with
  | Return resp => Return resp
  | Throw e => Return (extraction_failure identifier mimeType e)
  | Diverge => Diverge
  end.

(** The four failures of the engine that carry no [suggestion]. *)
Inductive bare_failure : Response -> Prop :=
| bare_no_text identifier mode :
    bare_failure (no_text_failure identifier mode)
| bare_chunk_range identifier idx totalLength chunks :
    bare_failure (chunk_range_failure identifier idx totalLength chunks)
| bare_query_required identifier :
    bare_failure (query_required_failure identifier)
| bare_unknown_mode identifier mode :
    bare_failure (unknown_mode_failure identifier mode).

(** What the search loops keep true of their state: [accumulated] is every
    match followed by a blank line, and it fits the budget. *)
Definition search_invariant (maxChars : Z) (st : SearchState) : Prop :=
  snd st = concat ((fun p => p ++ [LF; LF]) <$> fst st)
  /\ len (snd st) <= maxChars.

(** The shape of what a tool body returns: a success, or a failure that
    carries [success: false] and [error], and [suggestion] too unless it is
    one of the engine's four bare failures. *)
Definition tool_outcome (resp : Response) : Prop :=
  isError resp = false
  /\ (shown (payload resp) "success" = JBool true
      \/ (shown (payload resp) "success" = JBool false
          /\ carries (payload resp) "error"
          /\ (carries (payload resp) "suggestion" \/ bare_failure resp))).



(* ===================================================================== *)
(** * The search accumulation of the specification *)
(* ===================================================================== *)

(** The context loop in the specification's words: the flag tells that a
    paragraph did not fit, which ends the whole accumulation. *)
Fixpoint specified_context (maxChars : Z) (context : list jsstring)
    (st : SearchState) : SearchState * bool :=
  match context with
  | [] => (st, false)
  | p :: rest =>
      let '(matches, accumulated) := st in
      if maxChars <? len accumulated + len p + 2 then (st, true)
      else specified_context maxChars rest
             (matches ++ [p], accumulated ++ p ++ [LF; LF])
  end.

(** The scan in the specification's words: it stops as soon as appending
    the next paragraph would exceed the budget. *)
Fixpoint specified_scan (rt : Runtime) (q : jsstring) (maxChars : Z)
    (paragraphs : list jsstring) (todo i : nat) (st : SearchState)
    : SearchState :=
  match todo with
  | O => st
  | S todo' =>
      if includes (toLowerCase rt (paragraphs !!! i)) q then
        let '(st', overflow) :=
          specified_context maxChars (context_of paragraphs i) st in
        if overflow then st'
        else specified_scan rt q maxChars paragraphs todo' (S i) st'
      else specified_scan rt q maxChars paragraphs todo' (S i) st
  end.

Definition specified_matches (rt : Runtime) (q : jsstring) (maxChars : Z)
    (fullText : jsstring) : list jsstring :=
  let paragraphs := split_paragraphs fullText in
  fst (specified_scan rt q maxChars paragraphs (length paragraphs) 0 ([], [])).

(* ===================================================================== *)
(** * [callLegalserverAPI], lines 119-181 *)
(* ===================================================================== *)

(** Sequencing of two steps that need no module state. *)
Definition and_then {A B : Type} (r : Result A) (k : A -> Result B) : Result B :=
  match r with
  | Return a => k a
  | Throw e => Throw e
  | Diverge => Diverge
  end.

Module Http.

(** How a body stream ends after its last chunk: [read()] reports [done],
    rejects, or never settles. *)
Inductive StreamEnd : Type :=
| StreamDone
| StreamFails (e : Exn)
| StreamHangs.

(** The ways a fetch implementation exposes the body, in the order the
    source probes them. *)
Inductive Body : Type :=
| WithArrayBuffer (r : Result (list Byte.byte))  (* [response.arrayBuffer()] *)
| WithBuffer (r : Result (list Byte.byte))       (* [response.buffer()] *)
| WithReader (pending : list (list Byte.byte)) (ending : StreamEnd)
                                                 (* [response.body.getReader()] *)
| WithText (r : Result jsstring).                (* [response.text()] *)

(** The response of [fetch]. *)
Record HttpResponse : Type := {
  ok : bool;
  status : Z;
  statusText : jsstring;
  headers_get : string -> option jsstring;
  body : Body;
  json : Result Json
}.

(** The network and the configuration the function closes over. *)
Record Network : Type := {
  LEGALSERVER_BEARER_TOKEN : jsstring;
  (** [new URL(endpoint, LEGALSERVER_BASE_URL)], the query parameters
      appended, [toString()] *)
  url_toString : jsstring -> Fields -> Result jsstring;
  (** [fetch(url, { method: 'GET', headers })] *)
  fetch : jsstring -> Fields -> Result HttpResponse;
  (** [Buffer.from(text, 'utf-8')] *)
  Buffer_from_utf8 : jsstring -> list Byte.byte
}.

(** [while (true) { const { done, value } = await reader.read();
     if (done) break; chunks.push(Buffer.from(value)); }] followed by
    [Buffer.concat(chunks)]. *)
Fixpoint read_stream (pending : list (list Byte.byte)) (ending : StreamEnd)
    (chunks : list (list Byte.byte)) : Result (list Byte.byte) :=
  match pending with
  | value :: rest => read_stream rest ending (chunks ++ [value])
  | [] =>
      match ending with
      | StreamDone => Return (concat chunks)
      | StreamFails e => Throw e
      | StreamHangs => Diverge
      end
  end.

(** Lines 149-170: the download stream, however it is exposed. *)
Definition read_body (net : Network) (b : Body) : Result (list Byte.byte) :=
  match b with
  | WithArrayBuffer r => r
  | WithBuffer r => r
  | WithReader pending ending => read_stream pending ending []
  | WithText r => and_then r (fun text => Return (Buffer_from_utf8 net text))
  end.

(** What the function returns: the download record with [returnBinary],
    the parsed JSON without. *)
Definition ApiValue (returnBinary : bool) : Type :=
  if returnBinary then Download else Json.

(** [callLegalserverAPI(endpoint, queryParams, returnBinary)] *)
Definition callLegalserverAPI (net : Network) (endpoint : jsstring)
    (queryParams : Fields) (returnBinary : bool) : Result (ApiValue returnBinary) :=
  and_then (url_toString net endpoint queryParams) (fun url =>
  and_then (fetch net url
              [("Authorization", JStr (lit "Bearer " ++ LEGALSERVER_BEARER_TOKEN net));
               ("Accept", JStr (if returnBinary then lit "*/*"
                                else lit "application/json"))])
    (fun response =>
  if negb (ok response) then
    Throw (new_Error (lit "LegalServer API error: "
                      ++ number_toString (status response) ++ lit " "
                      ++ statusText response))
  else
    match returnBinary return Result (ApiValue returnBinary) with
    | true =>
        and_then (read_body net (body response)) (fun buffer =>
        Return {| content := buffer;
                  mimeType := headers_get response "content-type";
                  contentDisposition := headers_get response "content-disposition" |})
    | false => json response
    end)).

End Http.

(** The runtime whose two upstream calls are [callLegalserverAPI] over a
    network; everything else is taken from [rt]. *)
Definition over_network (net : Http.Network) (rt : Runtime) : Runtime :=
  {| toLowerCase := toLowerCase rt;
     TypeError_message := TypeError_message rt;
     callLegalserverAPI := fun endpoint queryParams =>
       Http.callLegalserverAPI net endpoint queryParams false;
     callLegalserverAPI_binary := fun endpoint queryParams =>
       Http.callLegalserverAPI net endpoint queryParams true;
     disposition_filename := disposition_filename rt;
     decodeURIComponent := decodeURIComponent rt;
     utf8_toString := utf8_toString rt;
     require_pdf_parse := require_pdf_parse rt;
     pdf_getText := pdf_getText rt;
     mammoth_extractRawText := mammoth_extractRawText rt;
     coerced_round_quarter := coerced_round_quarter rt;
     coerced_kilobytes := coerced_kilobytes rt;
     exponent_toString := exponent_toString rt |}.

(* ===================================================================== *)
(** * Configuration at start-up, lines 30-55 *)
(* ===================================================================== *)

Module Startup.

Definition SLASH : codeunit := 47%N.

Fixpoint drop_slashes (s : jsstring) : jsstring :=
  match s with
  | c :: s' => if codeunit_eqb c SLASH then drop_slashes s' else s
  | [] => []
  end.

(** [s.replace(/\/+$/, '/')]: the run of slashes that ends the string, if
    there is one, becomes a single slash. *)
Definition replace_trailing_slashes (s : jsstring) : jsstring :=
  match reverse s with
  | c :: r =>
      if codeunit_eqb c SLASH then reverse (drop_slashes r) ++ [SLASH] else s
  | [] => s
  end.

(** How the configuration section ends: [process.exit(1)], or the two
    constants the handlers use. *)
Inductive Outcome : Type :=
| Exit (code : Z)
| Configured (LEGALSERVER_BEARER_TOKEN LEGALSERVER_BASE_URL : jsstring).

(** Lines 30-55, with [new_URL raw] standing for
    [new URL(rawBaseUrl).toString()]; an environment variable is a string
    or absent. *)
Definition configure (new_URL : jsstring -> Result jsstring)
    (rawBaseUrl token : option jsstring) : Outcome :=
  match token with
  | None | Some [] => Exit 1
  | Some bearer =>
      match rawBaseUrl with
      | None | Some [] => Exit 1
      | Some raw =>
          match new_URL raw with
          | Return href => Configured bearer (replace_trailing_slashes href)
          | Throw _ | Diverge => Exit 1
          end
      end
  end.

End Startup.

(* ===================================================================== *)
(** * Vocabulary of the further statements *)
(* ===================================================================== *)

(** The [text] an answer carries. *)
Definition answer_text (r : Result Response) : option jsstring :=
  match r with
  | Return resp =>
      match shown (payload resp) "text" with
      | JStr t => Some t
      | _ => None
      end
  | _ => None
  end.

(** The [approx_chunks] an answer carries. *)
Definition answer_chunks (r : Result Response) : option nat :=
  match r with
  | Return resp =>
      match shown (payload resp) "approx_chunks" with
      | JNum n => Some (Z.to_nat n)
      | _ => None
      end
  | _ => None
  end.

(** The arguments of a preview and of a chunk request under a budget. *)
Definition preview_request (maxChars : Z) : Fields :=
  [("mode", JStr (lit "preview")); ("max_chars", JNum maxChars)].

Definition chunk_request (maxChars index : Z) : Fields :=
  [("mode", JStr (lit "chunk")); ("max_chars", JNum maxChars);
   ("chunk_index", JNum index)].

(** A caller paging through a document: a preview tells the number of
    chunks, then chunk 0, 1, ... are asked for and their texts put together. *)
Definition read_by_pages (rt : Runtime) (identifier : Json) (maxChars : Z)
    (fullText : jsstring) : option jsstring :=
  match answer_chunks (access_engine rt identifier (preview_request maxChars) fullText) with
  | Some count =>
      (fun pages => concat pages) <$>
        mapM (fun k => answer_text
                (access_engine rt identifier
                   (chunk_request maxChars (Z.of_nat k)) fullText))
             (seq 0 count)
  | None => None
  end.

(** What one request may do to the module state: nothing, or fill an
    empty [PDFParseClass] with what [require] yields. *)
Definition state_step (rt : Runtime) (s s' : ModuleState) : Prop :=
  s' = s
  \/ (slot_truthy (PDFParseClass s) = false
      /\ require_pdf_parse rt = Return (PDFParseClass s')).

(** A step that relates the state it starts in to the state it ends in. *)
Definition moves (R : ModuleState -> ModuleState -> Prop) {A : Type} (c : M A)
    : Prop :=
  forall s : ModuleState, R s (snd (c s)).

Definition full_request (maxChars : Z) : Fields :=
  [("mode", JStr (lit "full")); ("max_chars", JNum maxChars)].

(** A snippet that search may return for query [q]: a paragraph of the
    document that contains the query or lies next to one that does. *)
Definition near_match (rt : Runtime) (q : jsstring) (paragraphs : list jsstring)
    (m : jsstring) : Prop :=
  exists (i j : nat) (hit : jsstring),
    paragraphs !! i = Some m
    /\ paragraphs !! j = Some hit
    /\ includes (toLowerCase rt hit) q = true
    /\ (i <= j + 1)%nat /\ (j <= i + 1)%nat.

(** Further runtimes for examples. *)
Module Example2.

(** A runtime whose pdf-parse exports [export], whose extractors and
    [decodeURIComponent] throw [e], and whose header pattern captures the
    whole header; the rest is as in [Example.runtime]. *)
Definition failing (d : Download) (export : PdfSlot) (e : Exn) : Runtime :=
  {| toLowerCase := Example.ascii_toLowerCase;
     TypeError_message := lit;
     callLegalserverAPI := fun _ _ => Return (JObj [("data", JArr [])]);
     callLegalserverAPI_binary := fun _ _ => Return d;
     disposition_filename := fun header => Some header;
     decodeURIComponent := fun _ => Throw e;
     utf8_toString := Example.ascii_decode;
     require_pdf_parse := Return export;
     pdf_getText := fun _ => Throw e;
     mammoth_extractRawText := fun _ => Throw e;
     coerced_round_quarter := fun _ => JNull;
     coerced_kilobytes := fun _ => [];
     exponent_toString := fun _ => [] |}.

(** A runtime whose JSON upstream answers [response]. *)
Definition upstream (response : Json) : Runtime :=
  {| toLowerCase := Example.ascii_toLowerCase;
     TypeError_message := lit;
     callLegalserverAPI := fun _ _ => Return response;
     callLegalserverAPI_binary := fun _ _ => Diverge;
     disposition_filename := fun _ => None;
     decodeURIComponent := fun s => Return s;
     utf8_toString := Example.ascii_decode;
     require_pdf_parse := Return PdfFunction;
     pdf_getText := fun _ => Return JNull;
     mammoth_extractRawText := fun _ => Return [];
     coerced_round_quarter := fun _ => JNull;
     coerced_kilobytes := fun _ => [];
     exponent_toString := fun _ => [] |}.

Definition request (tool : string) (args : Fields) : Request :=
  {| name := lit tool; arguments := Some args |}.

End Example2.

(** A JSON object. *)
Definition is_object (v : Json) : bool :=
  match v with JObj _ => true | _ => false end.

(** [note.active !== false] as a test on a note. *)
Definition active (note : Json) : bool := is_not_false (shown note "active").

(** [doc.disk_file_size || doc.file_size || null] *)
Definition size_of (doc : Json) : Json :=
  js_or (js_or (shown doc "disk_file_size") (shown doc "file_size")) JNull.

Module Example3.

(** Three notes: one active, one retired, one that does not say. *)
Definition notes : list Json :=
  [JObj [("id", JNum 1); ("subject", JStr (lit "intake")); ("active", JBool true)];
   JObj [("id", JNum 2); ("subject", JStr (lit "withdrawn")); ("active", JBool false)];
   JObj [("id", JNum 3); ("subject", JStr (lit "hearing"))]].

Definition case_data : Fields :=
  [("case_number", JStr (lit "24-0539721")); ("notes", JArr notes)].

Definition case_response : Fields := [("data", JObj case_data)].

(** A document list with a size on disk, a declared size only, and none. *)
Definition documents : list Json :=
  [JObj [("guid", JStr (lit "g-1")); ("disk_file_size", JNum 2048);
         ("file_size", JNum 9)];
   JObj [("guid", JStr (lit "g-2")); ("disk_file_size", JNum 0);
         ("file_size", JNum 10)];
   JObj [("guid", JStr (lit "g-3"))]].

End Example3.

Module Example4.

(** An upstream that answers every request with status 404. *)
Definition not_found : Http.HttpResponse :=
  {| Http.ok := false;
     Http.status := 404;
     Http.statusText := lit "Not Found";
     Http.headers_get := fun _ => None;
     Http.body := Http.WithText (Return []);
     Http.json := Return JNull |}.

(** A download that arrives as a stream of two chunks. *)
Definition streamed : Http.HttpResponse :=
  {| Http.ok := true;
     Http.status := 200;
     Http.statusText := lit "OK";
     Http.headers_get := fun h =>
       if String.eqb h "content-type" then Some (lit "text/plain") else None;
     Http.body := Http.WithReader
                    [list_byte_of_string "hello "; list_byte_of_string "world"]
                    Http.StreamDone;
     Http.json := Return JNull |}.

Definition network (response : Http.HttpResponse) : Http.Network :=
  {| Http.LEGALSERVER_BEARER_TOKEN := lit "secret";
     Http.url_toString := fun endpoint _ => Return (lit "https://example.org" ++ endpoint);
     Http.fetch := fun _ _ => Return response;
     Http.Buffer_from_utf8 := fun _ => [] |}.

End Example4.

(** [documentData.mimeType] is truthy: the response had a non-empty
    [content-type]. *)
Definition declared (documentData : Download) : bool :=
  match mimeType documentData with
  | Some (_ :: _) => true
  | _ => false
  end.

(** What the extension of a lower-cased name selects when the download
    declares no type. *)
Definition strategy_of_extension (lower : jsstring) : Strategy :=
  if endsWith lower (lit ".pdf") then PdfExtraction
  else if endsWith lower (lit ".docx") || endsWith lower (lit ".doc") then
    WordExtraction
  else if endsWith lower (lit ".txt") then DecodeUtf8
  else FormatUnsupported.

(* ===================================================================== *)
(** * The ListTools handler, lines 209-290 *)
(* ===================================================================== *)

(** One entry of [properties]; the descriptions are left out. *)
Record PropertySchema : Type := {
  property : string;
  type : string;
  enum : option (list jsstring)
}.

(** One entry of [tools]; the descriptions are left out. *)
Record ToolSchema : Type := {
  tool_name : jsstring;
  properties : list PropertySchema;
  required : list string
}.

Definition string_property (k : string) : PropertySchema :=
  {| property := k; type := "string"; enum := None |}.

Definition integer_property (k : string) : PropertySchema :=
  {| property := k; type := "integer"; enum := None |}.

(** The [tools] array the handler returns. *)
Definition list_tools : list ToolSchema :=
  [ {| tool_name := lit "search_case_by_number";
       properties := [string_property "case_number"];
       required := ["case_number"] |};
    {| tool_name := lit "get_case_info";
       properties := [string_property "case_uuid"];
       required := ["case_uuid"] |};
    {| tool_name := lit "list_case_documents";
       properties := [string_property "case_uuid"];
       required := ["case_uuid"] |};
    {| tool_name := lit "get_document";
       properties :=
         [string_property "document_id";
          string_property "document_uuid";
          {| property := "mode"; type := "string";
             enum := Some [lit "preview"; lit "chunk"; lit "search"; lit "full"] |};
          integer_property "chunk_index";
          integer_property "max_chars";
          string_property "search_query"];
       required := [] |} ].



(** A size of [n] bytes in kilobytes: the nearest number of hundredths of a
    kilobyte, a tie going up, printed with two decimals. *)
Definition kilobytes_label (n : Z) : jsstring :=
  let hundredths := (100 * n + 512) / 1024 in
  number_toString (hundredths / 100) ++ lit "."
  ++ number_toString (hundredths mod 100 / 10)
  ++ number_toString (hundredths mod 100 mod 10) ++ lit " KB".

(* ===================================================================== *)
(** * Properties of the string operations *)
(* ===================================================================== *)

Lemma len_nonneg (s : jsstring) : 0 <= len s.
Proof. unfold len. lia. Qed.

Lemma len_app (s t : jsstring) : len (s ++ t) = len s + len t.
Proof. unfold len. rewrite length_app. lia. Qed.

(** Inside the text, [slice] is [take] after [drop]. *)
Lemma slice_window (s : jsstring) (i w : Z) :
  0 <= i -> 0 <= w ->
  slice s i (i + w) = take (Z.to_nat w) (drop (Z.to_nat i) s).
Proof.
  intros Hi Hw. unfold slice, clamp_index.
  destruct (Z.ltb_spec i 0) as [?|_]; [lia|].
  destruct (Z.ltb_spec (i + w) 0) as [?|_]; [lia|].
  pose proof (len_nonneg s) as Hs. unfold len in *.
  destruct (Z.le_gt_cases i (Z.of_nat (length s))) as [Hin|Hout].
  - rewrite (Z.min_l i) by lia.
    destruct (Z.le_gt_cases (i + w) (Z.of_nat (length s))) as [Hfit|Hcut].
    + rewrite Z.min_l by lia. f_equal. lia.
    + rewrite Z.min_r by lia.
      rewrite !take_ge; [reflexivity | rewrite length_drop; lia ..].
  - rewrite !drop_ge by lia. by rewrite !take_nil.
Qed.

Lemma len_slice_window (s : jsstring) (i w : Z) :
  0 <= i -> 0 <= w ->
  len (slice s i (i + w)) = Z.min w (Z.max 0 (len s - i)).
Proof.
  intros Hi Hw. rewrite slice_window by lia.
  unfold len. rewrite length_take, length_drop. lia.
Qed.

Lemma trimStart_nil_iff (s : jsstring) :
  trimStart s = [] <-> Forall (fun c => is_space c = true) s.
Proof.
  induction s as [|c s IH]; cbn [trimStart].
  - split; [constructor | reflexivity].
  - destruct (is_space c) eqn:Hc.
    + rewrite IH. split; [by constructor | by inversion 1].
    + split; [discriminate | inversion 1; congruence].
Qed.

(** The guard of the engine fires exactly on the texts that hold nothing
    but white space. *)
Lemma blank_iff (s : jsstring) :
  blank s = true <-> Forall (fun c => is_space c = true) s.
Proof.
  unfold blank, trim. split.
  - intros H. apply trimStart_nil_iff.
    destruct s as [|c s]; [reflexivity|]. cbn [empty orb] in H.
    destruct (reverse (trimStart (reverse (trimStart (c :: s))))) as [|x r] eqn:Hr;
      [|discriminate].
    apply (f_equal reverse) in Hr. rewrite reverse_involutive in Hr. cbn in Hr.
    apply trimStart_nil_iff in Hr.
    apply trimStart_nil_iff.
    assert (Hall : Forall (fun c => is_space c = true) (trimStart (c :: s))).
    { rewrite <- (reverse_involutive (trimStart (c :: s))). by apply Forall_reverse. }
    clear -Hall. induction (c :: s) as [|a l IH]; [constructor|].
    cbn [trimStart] in Hall. destruct (is_space a) eqn:Ha.
    + constructor; [done | by apply IH].
    + inversion Hall; congruence.
  - intros H. apply trimStart_nil_iff in H. rewrite H. cbn.
    by rewrite orb_true_r.
Qed.

Lemma blank_false_iff (s : jsstring) :
  blank s = false <-> Exists (fun c => is_space c = false) s.
Proof.
  split.
  - intros Hb.
    assert (Hn : ~ Forall (fun c => is_space c = true) s)
      by (rewrite <- blank_iff; congruence).
    apply not_Forall_Exists in Hn; [|intros c; apply _].
    eapply Exists_impl; [exact Hn|].
    intros c Hc. by apply not_true_is_false.
  - intros Hex. destruct (blank s) eqn:Hb; [|reflexivity].
    apply blank_iff in Hb. rewrite Exists_exists in Hex.
    destruct Hex as (c & Hin & Hc). rewrite Forall_forall in Hb.
    specialize (Hb c Hin). congruence.
Qed.

Lemma includes_app_l (a s p : jsstring) :
  includes s p = true -> includes (a ++ s) p = true.
Proof.
  intros H. induction a as [|c a IH]; [exact H|].
  cbn [app includes]. rewrite IH. apply orb_true_r.
Qed.

Lemma codeunit_eqb_refl (c : codeunit) : codeunit_eqb c c = true.
Proof. apply N.eqb_refl. Qed.

Lemma startsWith_app (p s : jsstring) : startsWith (p ++ s) p = true.
Proof.
  induction p as [|c p IH]; [by destruct s|].
  cbn. by rewrite codeunit_eqb_refl, IH.
Qed.

(** A string built around [p] includes [p]. *)
Lemma includes_middle (a p b : jsstring) : includes (a ++ p ++ b) p = true.
Proof.
  apply includes_app_l. destruct (p ++ b) eqn:E; cbn [includes];
    rewrite <- E, startsWith_app; reflexivity.
Qed.

(* ===================================================================== *)
(** * [chunkText] *)
(* ===================================================================== *)

Section ChunkText.

Variable text : jsstring.
Variable maxChars : Z.
Hypothesis budget_positive : 0 < maxChars.

(** The loop started at offset [i] with enough fuel ends, and what it
    appends to [chunks] is the partition of the text from [i] on. *)
Lemma chunkText_loop_spec (fuel : nat) :
  forall (i : Z) (chunks : list jsstring),
    0 <= i ->
    Z.max 0 (len text - i) < Z.of_nat fuel ->
    exists rest : list jsstring,
      chunkText_loop fuel text maxChars i chunks = Some (chunks ++ rest)
      /\ concat rest = drop (Z.to_nat i) text
      /\ (len text <= i -> rest = [])
      /\ (forall (k : nat) (c : jsstring),
            rest !! k = Some c ->
            c = slice text (i + Z.of_nat k * maxChars)
                  (i + Z.of_nat k * maxChars + maxChars)
            /\ i + Z.of_nat k * maxChars < len text).
Proof using budget_positive.
  induction fuel as [|fuel IH]; intros i chunks Hi Hfuel; [lia|].
  cbn [chunkText_loop].
  destruct (Z.ltb_spec i (len text)) as [Hin|Hout].
  - destruct (IH (i + maxChars) (chunks ++ [slice text i (i + maxChars)]))
      as (rest & Hrun & Hcat & Hnil & Hat); [lia | lia |].
    exists (slice text i (i + maxChars) :: rest).
    split; [by rewrite Hrun, <- app_assoc|].
    split.
    { cbn [concat]. rewrite Hcat, slice_window by lia.
      replace (Z.to_nat (i + maxChars))
        with (Z.to_nat i + Z.to_nat maxChars)%nat by lia.
      rewrite <- drop_drop. apply take_drop. }
    split; [lia|].
    intros [|k] c Hk; cbn in Hk.
    + injection Hk as <-. split; [f_equal; lia | lia].
    + destruct (Hat k c Hk) as [-> Hlt].
      split; [f_equal; lia | lia].
  - exists []. rewrite app_nil_r.
    split; [reflexivity|].
    split; [by rewrite drop_ge by (unfold len in *; lia)|].
    split; [reflexivity|].
    intros k c Hk. by rewrite lookup_nil in Hk.
Qed.

(** [chunkText] returns, and chunk [k] is the window of the text that
    starts at [k * maxChars]. *)
Lemma chunkText_windows :
  exists chunks : list jsstring,
    chunkText text maxChars = Some chunks
    /\ concat chunks = text
    /\ (forall (k : nat) (c : jsstring),
          chunks !! k = Some c ->
          c = slice text (Z.of_nat k * maxChars)
                (Z.of_nat k * maxChars + maxChars)
          /\ Z.of_nat k * maxChars < len text).
Proof using budget_positive.
  unfold chunkText.
  destruct (chunkText_loop_spec (S (length text)) 0 [])
    as (chunks & Hrun & Hcat & _ & Hat); [lia | unfold len; lia |].
  exists chunks. cbn [app] in Hrun. rewrite drop_0 in Hcat.
  split; [exact Hrun|]. split; [exact Hcat|].
  intros k c Hk. destruct (Hat k c Hk) as [Hc Hlt].
  rewrite !Z.add_0_l in Hc, Hlt. by split.
Qed.

End ChunkText.

(** Without a positive budget the loop never leaves a text it has not
    finished: no amount of fuel makes it return. *)
Lemma chunkText_loop_stuck (text : jsstring) (maxChars : Z) (fuel : nat) :
  maxChars <= 0 ->
  forall (i : Z) (chunks : list jsstring),
    i < len text -> chunkText_loop fuel text maxChars i chunks = None.
Proof.
  intros Hbudget. induction fuel as [|fuel IH]; intros i chunks Hi; [reflexivity|].
  cbn [chunkText_loop]. destruct (Z.ltb_spec i (len text)); [|lia].
  apply IH. lia.
Qed.

(** C1.  With a positive integer budget [chunkText] returns, and its chunks
    are the consecutive windows of the text: their concatenation is the text,
    chunk [k] is the window that starts at [k * B] and is [B] long (so the
    chunks neither overlap nor skip anything), no chunk is empty or longer
    than the budget, and every chunk but the last has exactly the budget's
    length. *)
Theorem chunkText_partition (T : jsstring) (B : Z) :
  0 < B ->
  exists chunks : list jsstring,
    chunkText T B = Some chunks
    /\ concat chunks = T
    /\ (forall (k : nat) (c : jsstring),
          chunks !! k = Some c ->
          c = slice T (Z.of_nat k * B) (Z.of_nat k * B + B)
          /\ 0 < len c <= B)
    /\ (forall (k : nat) (c : jsstring),
          chunks !! k = Some c -> (S k < length chunks)%nat -> len c = B).
Proof.
  intros HB.
  destruct (chunkText_windows T B HB) as (chunks & Hrun & Hcat & Hwin).
  exists chunks. split; [exact Hrun|]. split; [exact Hcat|].
  split.
  - intros k c Hk. destruct (Hwin k c Hk) as [Hc Hlt]. split; [exact Hc|].
    rewrite Hc, len_slice_window by lia. lia.
  - intros k c Hk Hnext.
    destruct (lookup_lt_is_Some_2 chunks (S k) Hnext) as [c' Hk'].
    destruct (Hwin k c Hk) as [Hc _]. destruct (Hwin (S k) c' Hk') as [_ Hlt].
    rewrite Hc, len_slice_window by lia. lia.
Qed.

(** C1 at a seven-character text and budget three. *)
Lemma chunkText_partition_witness :
  exists chunks : list jsstring,
    chunkText (lit "abcdefg") 3 = Some chunks
    /\ concat chunks = lit "abcdefg"
    /\ (forall (k : nat) (c : jsstring),
          chunks !! k = Some c ->
          c = slice (lit "abcdefg") (Z.of_nat k * 3) (Z.of_nat k * 3 + 3)
          /\ 0 < len c <= 3)
    /\ (forall (k : nat) (c : jsstring),
          chunks !! k = Some c -> (S k < length chunks)%nat -> len c = 3).
Proof. apply (chunkText_partition (lit "abcdefg") 3). lia. Defined.

(* ===================================================================== *)
(** * The engine: defaults, guards and modes *)
(* ===================================================================== *)

Lemma effective_maxChars_positive (args : Fields) : 0 < effective_maxChars args.
Proof.
  unfold effective_maxChars. destruct (field args "max_chars"); try lia.
  destruct (Z.ltb_spec 0 n); lia.
Qed.

(** [Math.round(n / 4)] in integer arithmetic. *)
Lemma estimated_tokens_quarter (n : Z) : estimated_tokens n = (n + 2) / 4.
Proof.
  unfold estimated_tokens, Math_round, Qfloor, Qplus, Qdiv, Qmult, Qinv, inject_Z.
  cbn. change (Z.pos (1 * 4 * 2)) with (4 * 2). change (Z.pos (1 * 4)) with 4.
  replace (n * 1 * 2 + 1 * 4) with ((n + 2) * 2) by lia.
  rewrite Z.div_mul_cancel_r by lia. reflexivity.
Qed.

Lemma mode_of_field (args : Fields) (c : codeunit) (m : jsstring) :
  field args "mode" = JStr (c :: m) -> effective_mode args = JStr (c :: m).
Proof. intros H. unfold effective_mode, js_or. by rewrite H. Qed.

(** The engine on a text that passes the guard: the chunks exist. *)
Lemma engine_chunks (args : Fields) (T : jsstring) :
  exists chunks, chunkText T (effective_maxChars args) = Some chunks.
Proof.
  destruct (chunkText_windows T _ (effective_maxChars_positive args))
    as (chunks & H & _). by exists chunks.
Qed.

(** Once the text is extracted, the inner [try] answers what the engine
    answers, and the module state is the one extraction left. *)
Lemma get_document_content_extracted (rt : Runtime) (args : Fields)
    (identifier : Json) (mimeType : jsstring) (d : Download)
    (s s' : ModuleState) (T : jsstring) :
  extract_text rt identifier mimeType d s = (Return (inr T), s') ->
  get_document_content rt args identifier mimeType d s
  = (caught identifier mimeType (access_engine rt identifier args T), s').
Proof.
  intros H. unfold get_document_content, try_catch, bind. rewrite H.
  unfold lift, caught. by destruct (access_engine rt identifier args T).
Qed.


(** The engine returns or throws; its one loop with fuel always ends. *)
Lemma access_engine_terminates (rt : Runtime) (identifier : Json)
    (args : Fields) (T : jsstring) :
  access_engine rt identifier args T <> Diverge.
Proof.
  unfold access_engine. destruct (blank T); [discriminate|].
  destruct (engine_chunks args T) as [chunks ->].
  repeat match goal with
         | |- (if ?b then _ else _) <> _ => destruct b
         end; try discriminate.
  unfold search_query_of. destruct (js_or _ _); try discriminate.
  destruct (empty _); discriminate.
Qed.




(* ===================================================================== *)
(** * Full mode *)
(* ===================================================================== *)

(** The text full mode returns is the prefix of [min(totalLength, maxChars)]
    code units. *)
Lemma full_text_prefix (T : jsstring) (B : Z) :
  0 < B ->
  (if B <? len T then slice T 0 B else T)
  = take (Z.to_nat (Z.min (len T) B)) T.
Proof.
  intros HB. unfold len. destruct (Z.ltb_spec B (Z.of_nat (length T))) as [Hcut|Hall].
  - change B with (0 + B) at 1. rewrite slice_window by lia.
    rewrite Z.min_r by lia. reflexivity.
  - rewrite Z.min_l by lia. rewrite take_ge by lia. reflexivity.
Qed.




(* ===================================================================== *)
(** * Chunk mode *)
(* ===================================================================== *)

(** C4, as the handler has it: behind the blank-text guard, and for the
    integer budgets and integer indexes the schema declares.  For a text
    that holds something other than white space, in mode [chunk], with
    [chunks] the chunks of the text under the effective budget: an integer
    index outside [0 .. chunkCount - 1] is answered by the range failure,
    whose message spells the range out as [(0-<chunkCount - 1>)]; an integer
    index inside is answered by a success that carries that chunk verbatim
    together with the total length, the estimated tokens and the chunk
    count. *)
Theorem chunk_mode_addressing (rt : Runtime) (identifier : Json)
    (args : Fields) (T : jsstring) :
  field args "mode" = JStr (lit "chunk") ->
  has_text T ->
  exists chunks : list jsstring,
    chunkText T (effective_maxChars args) = Some chunks
    /\ (effective_chunk_index args < 0
        \/ Z.of_nat (length chunks) <= effective_chunk_index args ->
        access_engine rt identifier args T
        = Return (chunk_range_failure identifier (effective_chunk_index args)
                    (len T) chunks)
        /\ exists msg : jsstring,
             shown (payload (chunk_range_failure identifier
                               (effective_chunk_index args) (len T) chunks))
               "error" = JStr msg
             /\ includes msg
                  (lit "(0-" ++ number_toString (Z.of_nat (length chunks) - 1)
                   ++ lit ")") = true)
    /\ (forall c : jsstring,
          0 <= effective_chunk_index args ->
          chunks !! Z.to_nat (effective_chunk_index args) = Some c ->
          access_engine rt identifier args T
          = Return (respond
              [("success", JBool true);
               ("document_identifier", identifier);
               ("mode", JStr (lit "chunk"));
               ("total_length", JNum (len T));
               ("estimated_tokens", JNum (estimated_tokens (len T)));
               ("approx_chunks", JNum (Z.of_nat (length chunks)));
               ("chunk_index", JNum (effective_chunk_index args));
               ("text", JStr c)])).
Proof.
  intros Hmode Htext. apply blank_false_iff in Htext.
  destruct (engine_chunks args T) as [chunks Hchunks].
  pose proof (mode_of_field args _ _ Hmode) as Heff.
  exists chunks. split; [exact Hchunks|]. split.
  - intros Hout. split.
    + unfold access_engine. rewrite Htext, Hchunks, Heff.
      cbn [is_string JS.eqb lit list_ascii_of_string fmap list_fmap
           N_of_ascii N_of_digits codeunit_eqb N.eqb Pos.eqb andb].
      destruct (Z.ltb_spec (effective_chunk_index args) 0);
        destruct (Z.leb_spec (Z.of_nat (length chunks)) (effective_chunk_index args));
        try reflexivity; lia.
    + eexists. split; [reflexivity|].
      set (n := number_toString (Z.of_nat (length chunks) - 1)).
      set (i := number_toString (effective_chunk_index args)).
      replace (lit "chunk_index " ++ i ++ lit " out of range (0-" ++ n ++ lit ")")
        with ((lit "chunk_index " ++ i ++ lit " out of range ")
              ++ (lit "(0-" ++ n ++ lit ")") ++ []).
      { apply includes_middle. }
      { rewrite app_nil_r, <- !app_assoc. reflexivity. }
  - intros c Hlow Hc.
    pose proof (lookup_lt_Some _ _ _ Hc) as Hlt.
    unfold access_engine. rewrite Htext, Hchunks, Heff.
    cbn [is_string JS.eqb lit list_ascii_of_string fmap list_fmap
         N_of_ascii N_of_digits codeunit_eqb N.eqb Pos.eqb andb].
    destruct (Z.ltb_spec (effective_chunk_index args) 0); [lia|].
    destruct (Z.leb_spec (Z.of_nat (length chunks)) (effective_chunk_index args));
      [lia|].
    cbn [orb]. unfold chunk_success, chunk_at.
    destruct (Z.ltb_spec (effective_chunk_index args) 0); [lia|].
    by rewrite Hc.
Qed.

(** C4 on the text [hello world] cut into chunks of four, asked for chunk
    five: the answer is the range failure of a three-chunk document. *)
Lemma chunk_mode_addressing_witness :
  access_engine (Example.runtime (Example.download "hello world" "text/plain") [])
    (JStr (lit "7"))
    [("mode", JStr (lit "chunk")); ("max_chars", JNum 4); ("chunk_index", JNum 5)]
    (lit "hello world")
  = Return (chunk_range_failure (JStr (lit "7")) 5 11
              [lit "hell"; lit "o wo"; lit "rld"]).
Proof.
  destruct (chunk_mode_addressing
              (Example.runtime (Example.download "hello world" "text/plain") [])
              (JStr (lit "7"))
              [("mode", JStr (lit "chunk")); ("max_chars", JNum 4);
               ("chunk_index", JNum 5)]
              (lit "hello world")) as (chunks & Hchunks & Hout & _);
    [reflexivity | by left |].
  vm_compute in Hchunks. injection Hchunks as <-.
  destruct Hout as [Hrun _]; [right; by vm_compute | exact Hrun].
Defined.

(** The range message of a three-chunk document reads [0-2]. *)
Example chunk_range_message :
  shown (payload (chunk_range_failure (JStr (lit "7")) 5 11
                    [lit "hell"; lit "o wo"; lit "rld"])) "error"
  = JStr (lit "chunk_index 5 out of range (0-2)").
Proof. reflexivity. Qed.

(** The claim C4 as stated fails on a text of three spaces, which makes one
    chunk: index 0 lies inside the range and index 5 outside, and both are
    answered by the no-text failure, whose message names no range. *)
Lemma chunk_mode_blank_text_fails :
  chunkText (lit "   ") 8000 = Some [lit "   "]
  /\ call_tool (Example.runtime (Example.download "   " "text/plain") [])
       (Example.get_document_request
          [("document_id", JStr (lit "7")); ("mode", JStr (lit "chunk"));
           ("chunk_index", JNum 0)])
       Example.fresh
     = (Return (no_text_failure (JStr (lit "7")) (JStr (lit "chunk"))),
        Example.fresh)
  /\ call_tool (Example.runtime (Example.download "   " "text/plain") [])
       (Example.get_document_request
          [("document_id", JStr (lit "7")); ("mode", JStr (lit "chunk"));
           ("chunk_index", JNum 5)])
       Example.fresh
     = (Return (no_text_failure (JStr (lit "7")) (JStr (lit "chunk"))),
        Example.fresh)
  /\ shown (payload (no_text_failure (JStr (lit "7")) (JStr (lit "chunk"))))
       "error"
     = JStr (lit "No text content could be extracted from this document.")
  /\ includes (lit "No text content could be extracted from this document.")
       (lit "0-0") = false.
Proof. repeat split; reflexivity. Qed.

(* ===================================================================== *)
(** * The effective budget *)
(* ===================================================================== *)




(* ===================================================================== *)
(** * Format dispatch *)
(* ===================================================================== *)

(** The PDF test on an identifier that is no string: it is reached when the
    MIME type is not an image, not text and not exactly [application/pdf],
    and [identifier.toLowerCase()] throws there. *)
Lemma nonstring_identifier_throws (rt : Runtime) (identifier : Json)
    (mimeType : jsstring) (d : Download) (s : ModuleState) :
  (forall name : jsstring, identifier <> JStr name) ->
  startsWith mimeType (lit "image/") = false ->
  startsWith mimeType (lit "text/") || includes mimeType (lit "plain") = false ->
  JS.eqb mimeType (lit "application/pdf") = false ->
  extract_text rt identifier mimeType d s
  = (Throw (TypeError rt "identifier.toLowerCase is not a function"), s).
Proof.
  intros Hid Himage Htext Hpdf. unfold extract_text, is_pdf, bind, lift.
  rewrite Himage, Htext, Hpdf.
  destruct identifier; try reflexivity. by destruct (Hid s0).
Qed.

(** The inner [catch] answers that throw with the extraction failure. *)
Lemma format_throw (rt : Runtime) (args : Fields) (identifier : Json)
    (mimeType : jsstring) (d : Download) (s : ModuleState) :
  (forall name : jsstring, identifier <> JStr name) ->
  startsWith mimeType (lit "image/") = false ->
  startsWith mimeType (lit "text/") || includes mimeType (lit "plain") = false ->
  JS.eqb mimeType (lit "application/pdf") = false ->
  extract_text rt identifier mimeType d s
  = (Throw (TypeError rt "identifier.toLowerCase is not a function"), s)
  /\ get_document_content rt args identifier mimeType d s
     = (Return (extraction_failure identifier mimeType
                  (TypeError rt "identifier.toLowerCase is not a function")), s).
Proof.
  intros Hid Himage Htext Hpdf.
  pose proof (nonstring_identifier_throws rt identifier mimeType d s
                Hid Himage Htext Hpdf) as Hthrow.
  split; [exact Hthrow|].
  unfold get_document_content, try_catch, bind. by rewrite Hthrow.
Qed.


(** A numeric [document_id] without a file name: a Word document is not
    handed to the word-processor extractor, the call ends in the
    extraction failure. *)
Example numeric_identifier_dispatch :
  call_tool (Example.runtime (Example.download "doc" "application/msword") [])
    (Example.get_document_request [("document_id", JNum 4711)]) Example.fresh
  = (Return (extraction_failure (JNum 4711) (lit "application/msword")
               (new_Error (lit "identifier.toLowerCase is not a function"))),
     Example.fresh).
Proof. reflexivity. Qed.


(* ===================================================================== *)
(** * Determinism of the engine *)
(* ===================================================================== *)

Lemma codeunits_eq (s t : jsstring) : JS.eqb s t = true -> s = t.
Proof.
  revert t. induction s as [|a s IH]; intros [|b t]; cbn; try done.
  intros [Hab Hst]%andb_true_iff.
  apply N.eqb_eq in Hab. by rewrite Hab, (IH t Hst).
Qed.

Lemma is_string_literal (v : Json) (s : jsstring) :
  is_string v s = true -> v = JStr s.
Proof.
  destruct v; try discriminate. cbn. by intros ->%codeunits_eq.
Qed.

Section SameLanguage.

(** Two environments that share the language-level functions the engine
    calls; they may differ in everything else. *)
Variables rt1 rt2 : Runtime.
Hypothesis same_toLowerCase : forall x, toLowerCase rt1 x = toLowerCase rt2 x.
Hypothesis same_TypeError :
  forall site, TypeError_message rt1 site = TypeError_message rt2 site.

Lemma search_scan_same (q : jsstring) (maxChars : Z) (paragraphs : list jsstring)
    (todo : nat) :
  forall (i : nat) (st : SearchState),
    search_scan rt1 q maxChars paragraphs todo i st
    = search_scan rt2 q maxChars paragraphs todo i st.
Proof using same_toLowerCase.
  induction todo as [|todo IH]; intros i st; [reflexivity|].
  cbn [search_scan]. rewrite same_toLowerCase.
  destruct (maxChars <=? _); [reflexivity | apply IH].
Qed.

Lemma access_engine_same (identifier : Json) (args : Fields) (T : jsstring) :
  access_engine rt1 identifier args T = access_engine rt2 identifier args T.
Proof using same_toLowerCase same_TypeError.
  unfold access_engine, search_query_of, search_matches, TypeError.
  rewrite same_TypeError.
  destruct (blank T); [reflexivity|].
  destruct (chunkText T (effective_maxChars args)); [|reflexivity].
  repeat (match goal with |- context [if ?b then _ else _] => destruct b end;
          try reflexivity).
  destruct (js_or (field args "search_query") (JStr [])); try reflexivity.
  rewrite same_toLowerCase.
  destruct (empty _); [reflexivity|].
  by rewrite search_scan_same.
Qed.

End SameLanguage.

(** What of its arguments the engine looks at: the effective mode and
    budget, the chunk index in chunk mode, the query in search mode. *)
Lemma access_engine_arguments (rt : Runtime) (identifier : Json)
    (args1 args2 : Fields) (T : jsstring) :
  effective_mode args1 = effective_mode args2 ->
  effective_maxChars args1 = effective_maxChars args2 ->
  (effective_mode args1 = JStr (lit "chunk") ->
   effective_chunk_index args1 = effective_chunk_index args2) ->
  (effective_mode args1 = JStr (lit "search") ->
   field args1 "search_query" = field args2 "search_query") ->
  access_engine rt identifier args1 T = access_engine rt identifier args2 T.
Proof.
  intros Hmode Hbudget Hindex Hquery. unfold access_engine.
  rewrite <- Hmode, <- Hbudget.
  destruct (blank T); [reflexivity|].
  destruct (chunkText T (effective_maxChars args1)) as [chunks|]; [|reflexivity].
  destruct (is_string (effective_mode args1) (lit "full")
            && (MAX_FULL_TOKENS <? estimated_tokens (len T))); [reflexivity|].
  destruct (is_string (effective_mode args1) (lit "preview")); [reflexivity|].
  destruct (is_string (effective_mode args1) (lit "chunk")) eqn:Hchunk.
  { apply is_string_literal in Hchunk. by rewrite (Hindex Hchunk). }
  destruct (is_string (effective_mode args1) (lit "search")) eqn:Hsearch.
  { apply is_string_literal in Hsearch. unfold search_query_of.
    by rewrite (Hquery Hsearch). }
  reflexivity.
Qed.

(** C8.  The engine's answer is a function of the extracted text, the
    effective mode, the effective budget and the argument of the mode, and
    of nothing else.  Two invocations that agree on the mode and the budget,
    on the chunk index if the mode is [chunk] and on the query if it is
    [search], answer the same on the same text, whatever else their
    argument objects hold, whatever module state each starts in, whatever
    was downloaded, and whatever the fetch and the extractors of their
    environments do; so does [get_document] once extraction has produced
    the text, in particular when the second call starts in the state the
    first one left; and the engine leaves the module state as extraction
    left it. *)
Theorem engine_deterministic (rt1 rt2 : Runtime) (args1 args2 : Fields)
    (identifier : Json) (T : jsstring) :
  (forall x, toLowerCase rt1 x = toLowerCase rt2 x) ->
  (forall site, TypeError_message rt1 site = TypeError_message rt2 site) ->
  effective_mode args1 = effective_mode args2 ->
  effective_maxChars args1 = effective_maxChars args2 ->
  (effective_mode args1 = JStr (lit "chunk") ->
   effective_chunk_index args1 = effective_chunk_index args2) ->
  (effective_mode args1 = JStr (lit "search") ->
   field args1 "search_query" = field args2 "search_query") ->
  access_engine rt1 identifier args1 T = access_engine rt2 identifier args2 T
  /\ (forall (mimeType : jsstring) (d1 d2 : Download)
             (s1 s2 s1' s2' : ModuleState),
        extract_text rt1 identifier mimeType d1 s1 = (Return (inr T), s1') ->
        extract_text rt2 identifier mimeType d2 s2 = (Return (inr T), s2') ->
        fst (get_document_content rt1 args1 identifier mimeType d1 s1)
        = fst (get_document_content rt2 args2 identifier mimeType d2 s2)
        /\ snd (get_document_content rt1 args1 identifier mimeType d1 s1) = s1'
        /\ snd (get_document_content rt2 args2 identifier mimeType d2 s2) = s2')
  /\ (forall (mimeType : jsstring) (d : Download) (s s' s'' : ModuleState),
        extract_text rt1 identifier mimeType d s = (Return (inr T), s') ->
        extract_text rt1 identifier mimeType d s' = (Return (inr T), s'') ->
        get_document_content rt1 args1 identifier mimeType d s'
        = (fst (get_document_content rt1 args1 identifier mimeType d s), s'')).
Proof.
  intros Hlower Hmsg Hmode Hbudget Hindex Hquery.
  assert (Hsame : access_engine rt1 identifier args1 T
                  = access_engine rt2 identifier args2 T).
  { rewrite (access_engine_same rt1 rt2 Hlower Hmsg).
    by apply access_engine_arguments. }
  split; [exact Hsame|]. split.
  - intros mimeType d1 d2 s1 s2 s1' s2' H1 H2.
    rewrite (get_document_content_extracted _ _ _ _ _ _ _ _ H1).
    rewrite (get_document_content_extracted _ _ _ _ _ _ _ _ H2).
    cbn [fst snd]. by rewrite Hsame.
  - intros mimeType d s s' s'' H1 H2.
    rewrite (get_document_content_extracted _ _ _ _ _ _ _ _ H1).
    by rewrite (get_document_content_extracted _ _ _ _ _ _ _ _ H2).
Qed.

(** C8 on two chunk requests that differ in the order of their properties,
    in a query and in a property the engine does not know, sent to two
    environments. *)
Lemma engine_deterministic_witness :
  access_engine
    (Example.runtime (Example.download "first body" "application/pdf") (lit "pdf text"))
    (JStr (lit "7"))
    [("mode", JStr (lit "chunk")); ("max_chars", JNum 3); ("chunk_index", JNum 1);
     ("search_query", JStr (lit "pdf"))]
    (lit "pdf text")
  = access_engine
      (Example.runtime (Example.download "second body" "application/pdf") (lit "other"))
      (JStr (lit "7"))
      [("verbose", JBool true); ("chunk_index", JNum 1); ("max_chars", JNum 3);
       ("mode", JStr (lit "chunk"))]
      (lit "pdf text").
Proof.
  apply (engine_deterministic
           (Example.runtime (Example.download "first body" "application/pdf") (lit "pdf text"))
           (Example.runtime (Example.download "second body" "application/pdf") (lit "other"))
           [("mode", JStr (lit "chunk")); ("max_chars", JNum 3); ("chunk_index", JNum 1);
            ("search_query", JStr (lit "pdf"))]
           [("verbose", JBool true); ("chunk_index", JNum 1); ("max_chars", JNum 3);
            ("mode", JStr (lit "chunk"))]
           (JStr (lit "7")) (lit "pdf text"));
    try reflexivity; discriminate.
Defined.

(* ===================================================================== *)
(** * Search mode *)
(* ===================================================================== *)

Lemma search_context_invariant (maxChars : Z) (context : list jsstring) :
  forall st : SearchState,
    search_invariant maxChars st ->
    search_invariant maxChars (search_context maxChars context st).
Proof.
  induction context as [|p context IH]; intros [matches accumulated] Hinv;
    [exact Hinv|].
  cbn [search_context].
  destruct (Z.ltb_spec maxChars (len accumulated + len p + 2)) as [Hover|Hfits];
    [exact Hinv|].
  apply IH. unfold search_invariant in *.
  destruct Hinv as [Hacc Hlen]. cbn [fst snd] in *. split.
  - rewrite fmap_app, concat_app, <- Hacc. cbn. by rewrite app_nil_r.
  - rewrite !len_app. change (len [LF; LF]) with 2. lia.
Qed.

Lemma search_scan_invariant (rt : Runtime) (q : jsstring) (maxChars : Z)
    (paragraphs : list jsstring) (todo : nat) :
  forall (i : nat) (st : SearchState),
    search_invariant maxChars st ->
    search_invariant maxChars (search_scan rt q maxChars paragraphs todo i st).
Proof.
  induction todo as [|todo IH]; intros i st Hinv; [exact Hinv|].
  cbn [search_scan].
  set (st' := if includes _ q then _ else st).
  assert (Hinv' : search_invariant maxChars st').
  { subst st'. destruct (includes _ q); [|exact Hinv].
    by apply search_context_invariant. }
  destruct (maxChars <=? len (snd st')); [exact Hinv' | by apply IH].
Qed.

(** Joining with a separator is two code units shorter than following
    every part by it. *)
Lemma len_join_blank_line (parts : list jsstring) :
  parts <> [] ->
  len (join [LF; LF] parts) + 2
  = len (concat ((fun p => p ++ [LF; LF]) <$> parts)).
Proof.
  induction parts as [|p [|p' rest] IH]; intros Hne; [done | |].
  - cbn. rewrite app_nil_r, len_app. reflexivity.
  - specialize (IH ltac:(discriminate)).
    change (join [LF; LF] (p :: p' :: rest))
      with (p ++ [LF; LF] ++ join [LF; LF] (p' :: rest)).
    change (concat ((fun p => p ++ [LF; LF]) <$> p :: p' :: rest))
      with ((p ++ [LF; LF])
            ++ concat ((fun p => p ++ [LF; LF]) <$> p' :: rest)).
    rewrite !len_app in *. lia.
Qed.

(** C10.  Under a positive budget the snippet text of search mode, the
    matches joined by blank lines, is strictly shorter than the budget; so
    the [text] of every successful search answer of the engine is shorter
    than the effective budget of the call. *)
Theorem search_within_budget (rt : Runtime) (q : jsstring) (maxChars : Z)
    (T : jsstring) :
  0 < maxChars ->
  len (join [LF; LF] (search_matches rt q maxChars T)) < maxChars
  /\ (forall (identifier : Json) (args : Fields) (resp : Response),
        effective_maxChars args = maxChars ->
        field args "mode" = JStr (lit "search") ->
        access_engine rt identifier args T = Return resp ->
        shown (payload resp) "success" = JBool true ->
        exists t : jsstring,
          shown (payload resp) "text" = JStr t /\ len t < maxChars).
Proof.
  intros Hpos.
  assert (Hbound : forall q', len (join [LF; LF] (search_matches rt q' maxChars T))
                              < maxChars).
  { intros q'. unfold search_matches.
    destruct (search_scan_invariant rt q' maxChars (split_paragraphs T)
                (length (split_paragraphs T)) 0 ([], []))
      as [Hacc Hlen]; [split; [reflexivity | change (0 <= maxChars); lia]|].
    destruct (fst (search_scan rt q' maxChars (split_paragraphs T)
                     (length (split_paragraphs T)) 0 ([], [])))
      as [|m matches] eqn:Hm; [exact Hpos|].
    pose proof (len_join_blank_line (m :: matches) ltac:(discriminate)) as Hjoin.
    rewrite <- Hacc in Hjoin. lia. }
  split; [apply Hbound|].
  intros identifier args resp Hbudget Hmode Hrun Hsuccess.
  pose proof (mode_of_field args _ _ Hmode) as Heff.
  unfold access_engine in Hrun. rewrite Heff, Hbudget in Hrun.
  destruct (blank T); [injection Hrun as <-; discriminate|].
  destruct (chunkText T maxChars); [|discriminate].
  cbn [is_string JS.eqb lit list_ascii_of_string fmap list_fmap
       N_of_ascii N_of_digits codeunit_eqb N.eqb Pos.eqb andb] in Hrun.
  destruct (search_query_of rt args) as [q'| |]; [|discriminate ..].
  destruct (empty q'); injection Hrun as <-; [discriminate|].
  eexists. split; [reflexivity | apply Hbound].
Qed.

(** C10 on three paragraphs and a budget of fourteen. *)
Lemma search_within_budget_witness :
  len (join [LF; LF]
         (search_matches (Example.runtime (Example.download "x" "text/plain") [])
            (lit "b") 14
            (lit ("alpha" ++ Example.blank_line ++ "beta" ++ Example.blank_line ++ "gamma"))))
  < 14.
Proof.
  apply (search_within_budget
           (Example.runtime (Example.download "x" "text/plain") [])
           (lit "b") 14
           (lit ("alpha" ++ Example.blank_line ++ "beta" ++ Example.blank_line ++ "gamma"))).
  lia.
Defined.

(** What that search returns: the paragraph before the match and the match;
    the paragraph after it no longer fits. *)
Example search_three_paragraphs :
  search_matches (Example.runtime (Example.download "x" "text/plain") [])
    (lit "b") 14
    (lit ("alpha" ++ Example.blank_line ++ "beta" ++ Example.blank_line ++ "gamma"))
  = [lit "alpha"; lit "beta"].
Proof. reflexivity. Qed.

(** Every matching paragraph brings its predecessor, itself and its
    successor, in document order, while the budget lasts. *)
Example search_context_order :
  search_matches (Example.runtime (Example.download "x" "text/plain") [])
    (lit "b") 8000
    (lit ("alpha" ++ Example.blank_line ++ "beta" ++ Example.blank_line ++ "gamma"
          ++ Example.blank_line ++ "delta"))
  = [lit "alpha"; lit "beta"; lit "gamma"].
Proof. reflexivity. Qed.

(** ** The scan against the accumulation the specification describes *)

Lemma search_context_extends (maxChars : Z) (context : list jsstring) :
  forall st : SearchState,
    fst st `prefix_of` fst (search_context maxChars context st).
Proof.
  induction context as [|p context IH]; intros [matches accumulated];
    [reflexivity|].
  cbn [search_context]. destruct (maxChars <? _); [reflexivity|].
  etrans; [|apply IH]. by apply prefix_app_r.
Qed.

Lemma search_scan_extends (rt : Runtime) (q : jsstring) (maxChars : Z)
    (paragraphs : list jsstring) (todo : nat) :
  forall (i : nat) (st : SearchState),
    fst st `prefix_of` fst (search_scan rt q maxChars paragraphs todo i st).
Proof.
  induction todo as [|todo IH]; intros i st; [reflexivity|].
  cbn [search_scan].
  set (st' := if includes _ q then _ else st).
  assert (Hst' : fst st `prefix_of` fst st').
  { subst st'. destruct (includes _ q); [apply search_context_extends | reflexivity]. }
  destruct (maxChars <=? len (snd st')); [exact Hst'|].
  etrans; [exact Hst' | apply IH].
Qed.

(** Both context loops append the same paragraphs. *)
Lemma specified_context_state (maxChars : Z) (context : list jsstring) :
  forall st : SearchState,
    fst (specified_context maxChars context st) = search_context maxChars context st.
Proof.
  induction context as [|p context IH]; intros [matches accumulated];
    [reflexivity|].
  cbn [specified_context search_context].
  destruct (maxChars <? _); [reflexivity | apply IH].
Qed.

(** Once the budget is used up nothing fits any more. *)
Lemma specified_context_full (maxChars : Z) (context : list jsstring)
    (st : SearchState) :
  maxChars <= len (snd st) ->
  fst (specified_context maxChars context st) = st.
Proof.
  intros Hfull. destruct context as [|p context], st as [matches accumulated];
    [reflexivity|].
  cbn [specified_context]. cbn [snd] in Hfull.
  pose proof (len_nonneg p).
  destruct (Z.ltb_spec maxChars (len accumulated + len p + 2)); [reflexivity | lia].
Qed.

Lemma specified_scan_full (rt : Runtime) (q : jsstring) (maxChars : Z)
    (paragraphs : list jsstring) (todo : nat) :
  forall (i : nat) (st : SearchState),
    maxChars <= len (snd st) ->
    specified_scan rt q maxChars paragraphs todo i st = st.
Proof.
  induction todo as [|todo IH]; intros i st Hfull; [reflexivity|].
  cbn [specified_scan]. destruct (includes _ q); [|by apply IH].
  pose proof (specified_context_full maxChars (context_of paragraphs i) st Hfull)
    as Hsame.
  destruct (specified_context maxChars (context_of paragraphs i) st)
    as [st' overflow]. cbn [fst] in Hsame. subst st'.
  destruct overflow; [reflexivity | by apply IH].
Qed.

(** What the specification describes is a prefix of what the handler
    returns: the handler never evicts or reorders a match, it only goes on
    where the specification stops. *)
Lemma specified_scan_prefix (rt : Runtime) (q : jsstring) (maxChars : Z)
    (paragraphs : list jsstring) (todo : nat) :
  forall (i : nat) (st : SearchState),
    fst (specified_scan rt q maxChars paragraphs todo i st)
    `prefix_of` fst (search_scan rt q maxChars paragraphs todo i st).
Proof.
  induction todo as [|todo IH]; intros i st; [reflexivity|].
  cbn [specified_scan search_scan].
  destruct (includes _ q).
  - pose proof (specified_context_state maxChars (context_of paragraphs i) st)
      as Hsame.
    destruct (specified_context maxChars (context_of paragraphs i) st)
      as [st' overflow]. cbn [fst] in Hsame. rewrite <- Hsame.
    destruct overflow.
    + destruct (maxChars <=? len (snd st')); [reflexivity|].
      apply search_scan_extends.
    + destruct (Z.leb_spec maxChars (len (snd st'))) as [Hfull|_]; [|apply IH].
      by rewrite specified_scan_full.
  - destruct (Z.leb_spec maxChars (len (snd st))) as [Hfull|_]; [|apply IH].
    by rewrite specified_scan_full.
Qed.

Lemma specified_matches_prefix (rt : Runtime) (q : jsstring) (maxChars : Z)
    (T : jsstring) :
  specified_matches rt q maxChars T `prefix_of` search_matches rt q maxChars T.
Proof. apply specified_scan_prefix. Qed.

(** C5 at its failing input.  The budget is ten; the first paragraph
    matches and is twenty-one code units long, so appending it would exceed
    the budget, and the accumulation the claim describes ends there with
    nothing.  The handler's scan does not stop: the third paragraph matches
    too, and it and its predecessor are appended. *)
Lemma search_continues_after_overflow :
  split_paragraphs
    (lit ("long paragraph with x" ++ Example.blank_line ++ "s"
          ++ Example.blank_line ++ "x"))
  = [lit "long paragraph with x"; lit "s"; lit "x"]
  /\ 10 < len [] + len (lit "long paragraph with x") + 2
  /\ specified_matches (Example.runtime (Example.download "x" "text/plain") [])
       (lit "x") 10
       (lit ("long paragraph with x" ++ Example.blank_line ++ "s"
             ++ Example.blank_line ++ "x"))
     = []
  /\ search_matches (Example.runtime (Example.download "x" "text/plain") [])
       (lit "x") 10
       (lit ("long paragraph with x" ++ Example.blank_line ++ "s"
             ++ Example.blank_line ++ "x"))
     = [lit "s"; lit "x"].
Proof.
  split; [reflexivity|]. split; [by vm_compute|]. split; reflexivity.
Qed.

(* ===================================================================== *)
(** * Failure payloads and the dispatcher *)
(* ===================================================================== *)

Lemma bind_Return {A B : Type} (c : M A) (k : A -> M B) (s s' : ModuleState)
    (b : B) :
  bind c k s = (Return b, s') ->
  exists (a : A) (s1 : ModuleState), c s = (Return a, s1) /\ k a s1 = (Return b, s').
Proof.
  unfold bind. destruct (c s) as [[a| |] s1]; intros H; try discriminate.
  by exists a, s1.
Qed.

(** Peel the binds of a returning computation, down to its last step. *)
Ltac peel H :=
  repeat (apply bind_Return in H;
          let a := fresh "a" in let s := fresh "s" in let Hc := fresh "Hc" in
          destruct H as (a & s & Hc & H); try clear Hc).

Lemma success_outcome (fs : Fields) :
  field fs "success" = JBool true -> tool_outcome (respond fs).
Proof. intros H. split; [reflexivity | by left]. Qed.

Lemma failure_outcome (fs : Fields) :
  field fs "success" = JBool false ->
  field fs "error" <> JUndefined ->
  field fs "suggestion" <> JUndefined ->
  tool_outcome (respond fs).
Proof. intros H1 H2 H3. split; [reflexivity | right; auto]. Qed.

Lemma bare_outcome (resp : Response) :
  bare_failure resp -> tool_outcome resp.
Proof.
  intros H. split; [by destruct H|]. right.
  destruct H; (split; [reflexivity | split; [discriminate | by right; constructor]]).
Qed.

(** The four bare failures carry no [suggestion]. *)
Lemma bare_failure_no_suggestion (resp : Response) :
  bare_failure resp -> ~ carries (payload resp) "suggestion".
Proof. intros H Hc. destruct H; by apply Hc. Qed.

Lemma access_engine_outcome (rt : Runtime) (identifier : Json) (args : Fields)
    (T : jsstring) (resp : Response) :
  access_engine rt identifier args T = Return resp -> tool_outcome resp.
Proof.
  unfold access_engine. intros H.
  destruct (blank T); [injection H as <-; apply bare_outcome; constructor|].
  destruct (chunkText T (effective_maxChars args)); [|discriminate].
  repeat match type of H with
         | (if ?b then _ else _) = _ => destruct b
         | Return _ = Return _ => injection H as <-
         end;
    try (apply bare_outcome; constructor);
    try (by apply success_outcome);
    try (by apply failure_outcome).
  destruct (search_query_of rt args) as [q| |]; try discriminate.
  destruct (empty q); injection H as <-;
    [apply bare_outcome; constructor | by apply success_outcome].
Qed.

Lemma extract_text_early (rt : Runtime) (identifier : Json) (mimeType : jsstring)
    (d : Download) (s s' : ModuleState) (early : Response) :
  extract_text rt identifier mimeType d s = (Return (inl early), s') ->
  tool_outcome early.
Proof.
  unfold extract_text. intros H.
  destruct (startsWith mimeType (lit "image/"));
    [injection H as <- _; by apply failure_outcome|].
  destruct (_ || _); [discriminate|].
  apply bind_Return in H. destruct H as (pdf & s1 & _ & H).
  destruct pdf.
  - apply bind_Return in H. destruct H as (? & ? & _ & H). discriminate.
  - destruct (_ || _).
    + apply bind_Return in H. destruct H as (? & ? & _ & H). discriminate.
    + injection H as <- _. by apply failure_outcome.
Qed.

Lemma get_document_content_outcome (rt : Runtime) (args : Fields)
    (identifier : Json) (mimeType : jsstring) (d : Download)
    (s s' : ModuleState) (resp : Response) :
  get_document_content rt args identifier mimeType d s = (Return resp, s') ->
  tool_outcome resp.
Proof.
  unfold get_document_content, try_catch. intros H.
  destruct (bind _ _ s) as [[r|e|] s1] eqn:Hbody; try discriminate.
  - injection H as <- _.
    apply bind_Return in Hbody. destruct Hbody as ([early|T] & s2 & Hex & Hk).
    + injection Hk as <- _. by eapply extract_text_early.
    + unfold lift in Hk. injection Hk as Hk _. by eapply access_engine_outcome.
  - injection H as <- _. by apply failure_outcome.
Qed.

Lemma get_document_outcome (rt : Runtime) (arguments : option Fields)
    (s s' : ModuleState) (resp : Response) :
  get_document rt arguments s = (Return resp, s') -> tool_outcome resp.
Proof.
  unfold get_document. intros H.
  apply bind_Return in H. destruct H as (args & s1 & _ & H).
  destruct (_ && _); [discriminate|].
  unfold get_document_body in H. peel H.
  by eapply get_document_content_outcome.
Qed.

Lemma search_case_by_number_outcome (rt : Runtime) (arguments : option Fields)
    (s s' : ModuleState) (resp : Response) :
  search_case_by_number rt arguments s = (Return resp, s') -> tool_outcome resp.
Proof.
  unfold search_case_by_number. intros H.
  apply bind_Return in H. destruct H as (args & s1 & _ & H).
  destruct (negb _); [discriminate|].
  do 3 (apply bind_Return in H; destruct H as (? & ? & _ & H)).
  destruct (_ || _).
  - injection H as <- _. by apply failure_outcome.
  - peel H. injection H as <- _. by apply success_outcome.
Qed.

Lemma get_case_info_outcome (rt : Runtime) (arguments : option Fields)
    (s s' : ModuleState) (resp : Response) :
  get_case_info rt arguments s = (Return resp, s') -> tool_outcome resp.
Proof.
  unfold get_case_info. intros H.
  apply bind_Return in H. destruct H as (args & s1 & _ & H).
  destruct (negb _); [discriminate|].
  peel H. injection H as <- _. by apply success_outcome.
Qed.

Lemma list_case_documents_outcome (rt : Runtime) (arguments : option Fields)
    (s s' : ModuleState) (resp : Response) :
  list_case_documents rt arguments s = (Return resp, s') -> tool_outcome resp.
Proof.
  unfold list_case_documents. intros H.
  apply bind_Return in H. destruct H as (args & s1 & _ & H).
  destruct (negb _); [discriminate|].
  do 2 (apply bind_Return in H; destruct H as (? & ? & _ & H)).
  match type of H with
  | (match ?v with _ => _ end) _ = _ => destruct v as [| | | | |[|doc rest]|]
  end;
    try (injection H as <- _; by apply failure_outcome).
  peel H. injection H as <- _. by apply success_outcome.
Qed.

Lemma tool_body_outcome (rt : Runtime) (request : Request)
    (s s' : ModuleState) (resp : Response) :
  tool_body rt request s = (Return resp, s') -> tool_outcome resp.
Proof.
  unfold tool_body. intros H.
  repeat match type of H with
         | (if ?b then _ else _) _ = _ => destruct b
         end;
    eauto using search_case_by_number_outcome, get_case_info_outcome,
      list_case_documents_outcome, get_document_outcome.
  discriminate.
Qed.

(** C7, as the handler has it.  Whatever the dispatcher answers is either
    what a tool body returned or the envelope of what it threw, never a
    thrown exception.  A returned failure carries [success: false] and
    [error]; it carries [suggestion] as well unless it is one of the four
    bare failures of the engine (no text, chunk index out of range, missing
    search query, unknown mode), which carry none.  A thrown exception is
    answered by [{ error: true, tool, message, suggestion }] with [isError]
    set. *)
Theorem dispatcher_outcomes (rt : Runtime) (request : Request) (s : ModuleState) :
  (forall (e : Exn) (s' : ModuleState), call_tool rt request s <> (Throw e, s'))
  /\ (forall (resp : Response) (s' : ModuleState),
        call_tool rt request s = (Return resp, s') ->
        (tool_body rt request s = (Return resp, s') /\ tool_outcome resp)
        \/ (exists e : Exn,
              tool_body rt request s = (Throw e, s')
              /\ resp = error_envelope (name request) e))
  /\ (forall (e : Exn) (s' : ModuleState),
        tool_body rt request s = (Throw e, s') ->
        call_tool rt request s = (Return (error_envelope (name request) e), s')
        /\ isError (error_envelope (name request) e) = true
        /\ shown (payload (error_envelope (name request) e)) "error" = JBool true
        /\ shown (payload (error_envelope (name request) e)) "tool"
           = JStr (name request)
        /\ shown (payload (error_envelope (name request) e)) "message"
           = JStr (message e)
        /\ carries (payload (error_envelope (name request) e)) "suggestion")
  /\ (forall resp : Response,
        bare_failure resp -> ~ carries (payload resp) "suggestion").
Proof.
  unfold call_tool, try_catch.
  split; [|split; [|split]].
  - intros e s'. by destruct (tool_body rt request s) as [[r|e'|] s1].
  - intros resp s' H.
    destruct (tool_body rt request s) as [[r|e'|] s1] eqn:Hbody; try discriminate.
    + injection H as <- <-. left. split; [reflexivity|].
      by eapply tool_body_outcome.
    + injection H as <- <-. right. by exists e'.
  - intros e s' ->. repeat split; discriminate.
  - apply bare_failure_no_suggestion.
Qed.

(** The claim C7 as stated fails on a document of three spaces: the
    handler answers a preview request with the no-text failure, which has
    [success: false] and an [error] but no [suggestion]; and on a chunk
    index out of range, whose failure has none either. *)
Lemma failure_without_suggestion :
  call_tool (Example.runtime (Example.download "   " "text/plain") [])
    (Example.get_document_request [("document_id", JStr (lit "7"))])
    Example.fresh
  = (Return (no_text_failure (JStr (lit "7")) (JStr (lit "preview"))),
     Example.fresh)
  /\ shown (payload (no_text_failure (JStr (lit "7")) (JStr (lit "preview"))))
       "success" = JBool false
  /\ ~ carries (payload (no_text_failure (JStr (lit "7")) (JStr (lit "preview"))))
         "suggestion"
  /\ call_tool (Example.runtime (Example.download "hello world" "text/plain") [])
       (Example.get_document_request
          [("document_id", JStr (lit "7")); ("mode", JStr (lit "chunk"));
           ("max_chars", JNum 4); ("chunk_index", JNum 5)])
       Example.fresh
     = (Return (chunk_range_failure (JStr (lit "7")) 5 11
                  [lit "hell"; lit "o wo"; lit "rld"]),
        Example.fresh)
  /\ ~ carries (payload (chunk_range_failure (JStr (lit "7")) 5 11
                          [lit "hell"; lit "o wo"; lit "rld"])) "suggestion".
Proof.
  split; [reflexivity|]. split; [reflexivity|].
  split; [intros H; by apply H|]. split; [reflexivity|].
  intros H; by apply H.
Qed.

(* ===================================================================== *)
(** * The scenarios of the specification, run through the handler *)
(* ===================================================================== *)

(** Twenty thousand letters A as [text/plain] under the default budget:
    the preview is chunk 0 of 3, eight thousand letters long. *)
Example scenario_preview :
  call_tool (Example.runtime (Example.letters_download 20000) [])
    (Example.get_document_request
       [("document_id", JStr (lit "7")); ("max_chars", JNum 8000)])
    Example.fresh
  = (Return (preview_success (JStr (lit "7")) 20000 5000
               [Example.letters 8000; Example.letters 8000; Example.letters 4000]),
     Example.fresh).
Proof. vm_compute. reflexivity. Qed.

(** The same text, chunk 2: the last chunk, four thousand letters long. *)
Example scenario_last_chunk :
  shown (payload
    (match fst (call_tool (Example.runtime (Example.letters_download 20000) [])
                  (Example.get_document_request
                     [("document_id", JStr (lit "7")); ("mode", JStr (lit "chunk"));
                      ("chunk_index", JNum 2)])
                  Example.fresh) with
     | Return resp => resp
     | _ => respond []
     end)) "text"
  = JStr (Example.letters 4000).
Proof. vm_compute. reflexivity. Qed.

(** The same text, chunk 5: out of range, and the message names 0-2. *)
Example scenario_chunk_out_of_range :
  shown (payload
    (match fst (call_tool (Example.runtime (Example.letters_download 20000) [])
                  (Example.get_document_request
                     [("document_id", JStr (lit "7")); ("mode", JStr (lit "chunk"));
                      ("chunk_index", JNum 5)])
                  Example.fresh) with
     | Return resp => resp
     | _ => respond []
     end)) "error"
  = JStr (lit "chunk_index 5 out of range (0-2)").
Proof. vm_compute. reflexivity. Qed.

(** An image is refused at once, with the OCR suggestion. *)
Example scenario_image :
  call_tool (Example.runtime (Example.download "JFIF" "image/jpeg") [])
    (Example.get_document_request [("document_id", JStr (lit "7"))])
    Example.fresh
  = (Return (image_failure (JStr (lit "7")) (lit "image/jpeg")
               (Example.download "JFIF" "image/jpeg")),
     Example.fresh).
Proof. reflexivity. Qed.

(** An empty search query is a parameter failure. *)
Example scenario_empty_query :
  call_tool (Example.runtime (Example.download "some text" "text/plain") [])
    (Example.get_document_request
       [("document_id", JStr (lit "7")); ("mode", JStr (lit "search"));
        ("search_query", JStr (lit "   "))])
    Example.fresh
  = (Return (query_required_failure (JStr (lit "7"))), Example.fresh).
Proof. reflexivity. Qed.

(** A tool that does not exist, and a call without identifier: the
    dispatcher answers with its envelope. *)
Example scenario_unknown_tool :
  call_tool (Example.runtime (Example.download "x" "text/plain") [])
    {| name := lit "delete_case"; arguments := None |} Example.fresh
  = (Return (error_envelope (lit "delete_case")
               (new_Error (lit "Unknown tool: delete_case"))),
     Example.fresh).
Proof. reflexivity. Qed.

Example scenario_missing_identifier :
  call_tool (Example.runtime (Example.download "x" "text/plain") [])
    (Example.get_document_request [("mode", JStr (lit "full"))]) Example.fresh
  = (Return (error_envelope (lit "get_document")
               (new_Error (lit "Either document_id or document_uuid is required"))),
     Example.fresh).
Proof. reflexivity. Qed.

(* ===================================================================== *)
(** * Further properties of [chunkText] and of paging through the engine *)
(* ===================================================================== *)

Section ChunkCount.

Variable text : jsstring.
Variable maxChars : Z.
Hypothesis budget_positive : 0 < maxChars.

Lemma ceiling_step (r : Z) :
  (Z.max 0 r + maxChars - 1) / maxChars = Z.max 0 ((r + maxChars - 1) / maxChars).
Proof using budget_positive.
  destruct (Z.le_gt_cases r 0) as [Hr|Hr].
  - rewrite (Z.max_l 0 r) by lia. rewrite Z.div_small by lia.
    assert ((r + maxChars - 1) / maxChars <= 0); [|lia].
    apply Z.lt_succ_r. apply Z.div_lt_upper_bound; lia.
  - rewrite (Z.max_r 0 r) by lia. rewrite Z.max_r; [reflexivity|].
    apply Z.div_pos; lia.
Qed.

(** The number of chunks the loop appends from offset [i] on. *)
Lemma chunkText_loop_count (fuel : nat) :
  forall (i : Z) (chunks : list jsstring),
    0 <= i ->
    Z.max 0 (len text - i) < Z.of_nat fuel ->
    exists rest : list jsstring,
      chunkText_loop fuel text maxChars i chunks = Some (chunks ++ rest)
      /\ Z.of_nat (length rest)
         = (Z.max 0 (len text - i) + maxChars - 1) / maxChars.
Proof using budget_positive.
  induction fuel as [|fuel IH]; intros i chunks Hi Hfuel; [lia|].
  cbn [chunkText_loop].
  destruct (Z.ltb_spec i (len text)) as [Hin|Hout].
  - destruct (IH (i + maxChars) (chunks ++ [slice text i (i + maxChars)]))
      as (rest & Hrun & Hcount); [lia | lia |].
    exists (slice text i (i + maxChars) :: rest).
    split; [by rewrite Hrun, <- app_assoc|].
    cbn [length]. rewrite Nat2Z.inj_succ, Hcount.
    rewrite ceiling_step.
    replace (len text - (i + maxChars) + maxChars - 1)
      with (len text - i - 1) by lia.
    rewrite (Z.max_r 0 (len text - i)) by lia.
    replace (len text - i + maxChars - 1)
      with (len text - i - 1 + 1 * maxChars) by lia.
    rewrite Z.div_add by lia.
    rewrite Z.max_r; [lia|]. apply Z.div_pos; lia.
  - exists []. rewrite app_nil_r. split; [reflexivity|].
    rewrite Z.max_l by lia. rewrite Z.div_small by lia. reflexivity.
Qed.

End ChunkCount.

(** X1.  Under a positive integer budget [chunkText] makes
    [ceil(length / budget)] chunks: none for the empty text, and never an
    empty chunk at the end. *)
Theorem chunkText_count (T : jsstring) (B : Z) :
  0 < B ->
  exists chunks : list jsstring,
    chunkText T B = Some chunks
    /\ Z.of_nat (length chunks) = (len T + B - 1) / B
    /\ (chunks = [] <-> T = []).
Proof.
  intros HB. unfold chunkText.
  destruct (chunkText_loop_count T B HB (S (length T)) 0 [])
    as (chunks & Hrun & Hcount); [lia | unfold len; lia |].
  exists chunks. cbn [app] in Hrun. split; [exact Hrun|].
  pose proof (len_nonneg T) as Hlen.
  rewrite Z.sub_0_r, Z.max_r in Hcount by lia.
  split; [exact Hcount|].
  split.
  - intros ->. cbn [length] in Hcount.
    destruct T as [|c T]; [reflexivity|]. exfalso.
    assert (1 <= (len (c :: T) + B - 1) / B); [|lia].
    apply Z.div_le_lower_bound; [lia|]. unfold len. cbn [length]. lia.
  - intros ->. change (len []) with 0 in Hcount.
    rewrite Z.div_small in Hcount by lia. by destruct chunks.
Qed.

(** X1 on eleven code units and a budget of four: three chunks. *)
Lemma chunkText_count_witness :
  exists chunks : list jsstring,
    chunkText (lit "hello world") 4 = Some chunks
    /\ Z.of_nat (length chunks) = (len (lit "hello world") + 4 - 1) / 4
    /\ (chunks = [] <-> lit "hello world" = []).
Proof. apply (chunkText_count (lit "hello world") 4). lia. Defined.

(** ** The engine on a text that passes the guard, mode by mode *)

Lemma budget_of_request (args : Fields) (B : Z) :
  field args "max_chars" = JNum B -> 0 < B -> effective_maxChars args = B.
Proof.
  intros Hf HB. unfold effective_maxChars. rewrite Hf.
  destruct (Z.ltb_spec 0 B); [reflexivity | lia].
Qed.

Lemma engine_preview (rt : Runtime) (identifier : Json) (args : Fields)
    (T : jsstring) (chunks : list jsstring) :
  blank T = false ->
  chunkText T (effective_maxChars args) = Some chunks ->
  effective_mode args = JStr (lit "preview") ->
  access_engine rt identifier args T
  = Return (preview_success identifier (len T) (estimated_tokens (len T)) chunks).
Proof.
  intros Hb Hc Hm. unfold access_engine. by rewrite Hb, Hc, Hm.
Qed.

Lemma engine_chunk (rt : Runtime) (identifier : Json) (args : Fields)
    (T : jsstring) (chunks : list jsstring) :
  blank T = false ->
  chunkText T (effective_maxChars args) = Some chunks ->
  effective_mode args = JStr (lit "chunk") ->
  0 <= effective_chunk_index args < Z.of_nat (length chunks) ->
  access_engine rt identifier args T
  = Return (chunk_success identifier (effective_chunk_index args) (len T)
              (estimated_tokens (len T)) chunks).
Proof.
  intros Hb Hc Hm Hidx. unfold access_engine. rewrite Hb, Hc, Hm.
  cbn [is_string JS.eqb lit list_ascii_of_string fmap list_fmap
       N_of_ascii N_of_digits codeunit_eqb N.eqb Pos.eqb andb].
  destruct (Z.ltb_spec (effective_chunk_index args) 0); [lia|].
  destruct (Z.leb_spec (Z.of_nat (length chunks)) (effective_chunk_index args));
    [lia | reflexivity].
Qed.

Lemma engine_full (rt : Runtime) (identifier : Json) (args : Fields)
    (T : jsstring) (chunks : list jsstring) :
  blank T = false ->
  chunkText T (effective_maxChars args) = Some chunks ->
  effective_mode args = JStr (lit "full") ->
  estimated_tokens (len T) <= MAX_FULL_TOKENS ->
  access_engine rt identifier args T
  = Return (full_success identifier (len T) (estimated_tokens (len T))
              (effective_maxChars args <? len T)
              (take (Z.to_nat (Z.min (len T) (effective_maxChars args))) T)).
Proof.
  intros Hb Hc Hm Hsmall. unfold access_engine. rewrite Hb, Hc, Hm.
  destruct (Z.ltb_spec MAX_FULL_TOKENS (estimated_tokens (len T))); [lia|].
  cbn [is_string JS.eqb lit list_ascii_of_string fmap list_fmap
       N_of_ascii N_of_digits codeunit_eqb N.eqb Pos.eqb andb].
  rewrite full_text_prefix by apply effective_maxChars_positive.
  reflexivity.
Qed.

Lemma chunk_at_lookup (chunks : list jsstring) (k : nat) (c : jsstring) :
  chunks !! k = Some c -> chunk_at chunks (Z.of_nat k) = JStr c.
Proof.
  intros H. unfold chunk_at. destruct (Z.ltb_spec (Z.of_nat k) 0); [lia|].
  by rewrite Nat2Z.id, H.
Qed.

Lemma answer_chunks_preview (identifier : Json) (n e : Z)
    (chunks : list jsstring) :
  answer_chunks (Return (preview_success identifier n e chunks))
  = Some (length chunks).
Proof. unfold answer_chunks. cbn. by rewrite Nat2Z.id. Qed.

Lemma answer_text_chunk (identifier : Json) (n e : Z) (chunks : list jsstring)
    (k : nat) (c : jsstring) :
  chunks !! k = Some c ->
  answer_text (Return (chunk_success identifier (Z.of_nat k) n e chunks)) = Some c.
Proof.
  intros H. unfold answer_text, chunk_success, respond, payload, shown.
  cbn [field String.eqb Ascii.eqb Bool.eqb]. by rewrite (chunk_at_lookup _ _ _ H).
Qed.

(** X2.  Paging gives the document back.  For a text that holds more than
    white space and a positive budget: asking for a preview, reading its
    [approx_chunks], asking for chunk 0, 1, ... up to that count and putting
    the texts of the answers together yields the extracted text exactly. *)
Theorem paging_round_trip (rt : Runtime) (identifier : Json) (B : Z)
    (T : jsstring) :
  has_text T -> 0 < B ->
  read_by_pages rt identifier B T = Some T.
Proof.
  intros Htext HB. apply blank_false_iff in Htext.
  destruct (chunkText_windows T B HB) as (chunks & Hrun & Hcat & _).
  unfold read_by_pages.
  assert (Hpb : effective_maxChars (preview_request B) = B)
    by (by apply budget_of_request).
  rewrite (engine_preview rt identifier (preview_request B) T chunks);
    [|done | by rewrite Hpb | reflexivity].
  rewrite answer_chunks_preview.
  assert (Hpages :
    mapM (fun k => answer_text
            (access_engine rt identifier (chunk_request B (Z.of_nat k)) T))
         (seq 0 (length chunks)) = Some chunks).
  { apply mapM_Some. apply Forall2_same_length_lookup_2; [by rewrite length_seq|].
    intros i k c Hk Hc. apply lookup_seq in Hk as [-> _]. cbn [Nat.add].
    assert (Hcb : effective_maxChars (chunk_request B (Z.of_nat i)) = B)
      by (by apply budget_of_request).
    pose proof (lookup_lt_Some _ _ _ Hc) as Hlt.
    rewrite (engine_chunk rt identifier (chunk_request B (Z.of_nat i)) T chunks);
      [|done | by rewrite Hcb | reflexivity
       | change (effective_chunk_index (chunk_request B (Z.of_nat i)))
           with (Z.of_nat i); lia].
    change (effective_chunk_index (chunk_request B (Z.of_nat i))) with (Z.of_nat i).
    by apply answer_text_chunk. }
  transitivity ((fun pages : list jsstring => concat pages) <$> Some chunks);
    [exact (f_equal _ Hpages) | cbn; by rewrite Hcat].
Qed.

(** X2 on [hello world] read in pages of four. *)
Lemma paging_round_trip_witness :
  read_by_pages (Example.runtime (Example.download "x" "text/plain") [])
    (JStr (lit "7")) 4 (lit "hello world")
  = Some (lit "hello world").
Proof.
  apply (paging_round_trip
           (Example.runtime (Example.download "x" "text/plain") [])
           (JStr (lit "7")) 4 (lit "hello world")); [by left | lia].
Defined.

(* ===================================================================== *)
(** * How the modes relate, and the bound on what they return *)
(* ===================================================================== *)

(** The facts about the chunks of a text, together. *)
Lemma chunkText_facts (T : jsstring) (B : Z) :
  0 < B ->
  exists chunks : list jsstring,
    chunkText T B = Some chunks
    /\ concat chunks = T
    /\ Z.of_nat (length chunks) = (len T + B - 1) / B
    /\ (forall (k : nat) (c : jsstring),
          chunks !! k = Some c ->
          c = take (Z.to_nat B) (drop (Z.to_nat (Z.of_nat k * B)) T)
          /\ len c <= B).
Proof.
  intros HB.
  destruct (chunkText_windows T B HB) as (chunks & Hrun & Hcat & Hwin).
  destruct (chunkText_loop_count T B HB (S (length T)) 0 [])
    as (chunks' & Hrun' & Hcount); [lia | unfold len; lia |].
  unfold chunkText in Hrun. rewrite Hrun in Hrun'. cbn [app] in Hrun'.
  injection Hrun' as <-.
  exists chunks. split; [exact Hrun|]. split; [exact Hcat|].
  pose proof (len_nonneg T).
  rewrite Z.sub_0_r, Z.max_r in Hcount by lia. split; [exact Hcount|].
  intros k c Hk. destruct (Hwin k c Hk) as [-> Hlt].
  rewrite slice_window by lia. split; [reflexivity|].
  unfold len. rewrite length_take. lia.
Qed.

Lemma first_chunk (T : jsstring) (B : Z) (chunks : list jsstring) :
  0 < B -> T <> [] ->
  chunkText T B = Some chunks ->
  chunks !! 0%nat = Some (take (Z.to_nat (Z.min (len T) B)) T).
Proof.
  intros HB HT Hrun.
  destruct (chunkText_facts T B HB) as (chunks' & Hrun' & Hcat & _ & Hwin).
  rewrite Hrun in Hrun'. injection Hrun' as <-.
  destruct chunks as [|c chunks]; [by cbn in Hcat|].
  destruct (Hwin 0%nat c eq_refl) as [-> _]. cbn [lookup list_lookup].
  f_equal. change (Z.to_nat (Z.of_nat 0 * B)) with 0%nat. rewrite drop_0.
  unfold len. destruct (Z.le_gt_cases (Z.of_nat (length T)) B).
  - rewrite Z.min_l by lia. rewrite !take_ge by lia. reflexivity.
  - rewrite Z.min_r by lia. reflexivity.
Qed.

Lemma blank_false_nonempty (T : jsstring) : blank T = false -> T <> [].
Proof. by intros H ->. Qed.

Lemma preview_text (identifier : Json) (n e : Z) (chunks : list jsstring)
    (c : jsstring) :
  chunks !! 0%nat = Some c ->
  shown (payload (preview_success identifier n e chunks)) "text" = JStr c.
Proof.
  intros H. change (shown (payload (preview_success identifier n e chunks)) "text")
    with (chunk_at chunks (Z.of_nat 0)).
  by apply chunk_at_lookup.
Qed.

(** X3.  A preview is chunk 0, and chunk 0 is what chunk mode answers when
    it is given no index.  For a text that holds more than white space, the
    preview answer and the answer to chunk 0 under the same budget carry the
    same text, total length, estimated tokens, chunk count and chunk index;
    a request that names no mode is answered as a preview; and a chunk
    request whose [chunk_index] is absent or is not a number is answered as
    the request for chunk 0. *)
Theorem preview_is_chunk_zero (rt : Runtime) (identifier : Json) (B : Z)
    (T : jsstring) :
  has_text T -> 0 < B ->
  exists p c : Response,
    access_engine rt identifier (preview_request B) T = Return p
    /\ access_engine rt identifier (chunk_request B 0) T = Return c
    /\ access_engine rt identifier [("max_chars", JNum B)] T = Return p
    /\ access_engine rt identifier
         [("mode", JStr (lit "chunk")); ("max_chars", JNum B)] T = Return c
    /\ (forall v : Json,
          (forall n : Z, v <> JNum n) ->
          access_engine rt identifier
            [("mode", JStr (lit "chunk")); ("max_chars", JNum B);
             ("chunk_index", v)] T = Return c)
    /\ Forall (fun k => shown (payload p) k = shown (payload c) k)
         ["text"; "total_length"; "estimated_tokens"; "approx_chunks";
          "chunk_index"]
    /\ exists t : jsstring, shown (payload p) "text" = JStr t.
Proof.
  intros Htext HB. apply blank_false_iff in Htext.
  destruct (chunkText_facts T B HB) as (chunks & Hrun & _).
  pose proof (first_chunk T B chunks HB (blank_false_nonempty T Htext) Hrun) as H0.
  assert (Hzero : forall args : Fields,
            effective_maxChars args = B ->
            effective_mode args = JStr (lit "chunk") ->
            effective_chunk_index args = 0 ->
            access_engine rt identifier args T
            = Return (chunk_success identifier 0 (len T)
                        (estimated_tokens (len T)) chunks)).
  { intros args Hbudget Hmode Hindex. rewrite <- Hindex.
    apply engine_chunk; [done | by rewrite Hbudget | done |].
    rewrite Hindex. destruct chunks; [discriminate H0 | cbn [length]; lia]. }
  eexists _, _. split; [|split; [|split; [|split; [|split; [|split]]]]].
  - apply (engine_preview rt identifier (preview_request B) T chunks);
      [done | by rewrite (budget_of_request (preview_request B) B) | reflexivity].
  - apply Hzero; [by apply budget_of_request | reflexivity..].
  - apply (engine_preview rt identifier [("max_chars", JNum B)] T chunks);
      [done | by rewrite (budget_of_request [("max_chars", JNum B)] B) | reflexivity].
  - apply Hzero; [by apply budget_of_request | reflexivity..].
  - intros v Hv. apply Hzero; [by apply budget_of_request | reflexivity|].
    unfold effective_chunk_index.
    change (field [("mode", JStr (lit "chunk")); ("max_chars", JNum B);
                   ("chunk_index", v)] "chunk_index") with v.
    destruct v; try reflexivity. by destruct (Hv n).
  - repeat constructor.
  - rewrite (preview_text _ _ _ _ _ H0). by eexists.
Qed.

(** X3 on [hello world] under a budget of four: a chunk request without an
    index and one whose index is the string [1] both get the first chunk. *)
Lemma preview_is_chunk_zero_witness :
  access_engine (Example.runtime (Example.download "x" "text/plain") [])
    (JStr (lit "7")) [("mode", JStr (lit "chunk")); ("max_chars", JNum 4)]
    (lit "hello world")
  = Return (chunk_success (JStr (lit "7")) 0 11 3 [lit "hell"; lit "o wo"; lit "rld"])
  /\ access_engine (Example.runtime (Example.download "x" "text/plain") [])
       (JStr (lit "7"))
       [("mode", JStr (lit "chunk")); ("max_chars", JNum 4);
        ("chunk_index", JStr (lit "1"))]
       (lit "hello world")
     = Return (chunk_success (JStr (lit "7")) 0 11 3
                 [lit "hell"; lit "o wo"; lit "rld"]).
Proof.
  destruct (preview_is_chunk_zero
              (Example.runtime (Example.download "x" "text/plain") [])
              (JStr (lit "7")) 4 (lit "hello world"))
    as (p & c & _ & Hzero & _ & Habsent & Hother & _); [by left | lia |].
  rewrite Habsent, (Hother (JStr (lit "1"))) by discriminate.
  split; rewrite <- Hzero; reflexivity.
Defined.

(** X4.  Full mode returns no more than a preview.  For a text that holds
    more than white space and passes the size guard, the text of the [full]
    answer is the text of the preview, chunk 0, and its [truncated] flag is
    set exactly when the document has more than one chunk. *)
Theorem full_is_first_chunk (rt : Runtime) (identifier : Json) (B : Z)
    (T : jsstring) :
  has_text T -> 0 < B ->
  estimated_tokens (len T) <= MAX_FULL_TOKENS ->
  exists (chunks : list jsstring) (f : Response),
    chunkText T B = Some chunks
    /\ access_engine rt identifier (full_request B) T = Return f
    /\ answer_text (Return f) = chunks !! 0%nat
    /\ answer_text (access_engine rt identifier (preview_request B) T)
       = chunks !! 0%nat
    /\ shown (payload f) "truncated" = JBool (1 <? Z.of_nat (length chunks)).
Proof.
  intros Htext HB Hsmall. apply blank_false_iff in Htext.
  destruct (chunkText_facts T B HB) as (chunks & Hrun & _ & Hcount & _).
  pose proof (first_chunk T B chunks HB (blank_false_nonempty T Htext) Hrun) as H0.
  assert (Hfb : effective_maxChars (full_request B) = B)
    by (by apply budget_of_request).
  exists chunks. eexists. split; [exact Hrun|]. split.
  { apply (engine_full rt identifier (full_request B) T chunks);
      [done | by rewrite Hfb | reflexivity | done]. }
  rewrite Hfb. split; [exact (eq_sym H0)|]. split.
  - rewrite (engine_preview rt identifier (preview_request B) T chunks);
      [|done | by rewrite (budget_of_request (preview_request B) B) | reflexivity].
    unfold answer_text. rewrite (preview_text _ _ _ _ _ H0). exact (eq_sym H0).
  - cbn. f_equal. rewrite Hcount. pose proof (len_nonneg T).
    destruct (Z.ltb_spec B (len T)) as [Hcut|Hall];
      destruct (Z.ltb_spec 1 ((len T + B - 1) / B)) as [Hmany|Hone];
      try reflexivity; exfalso.
    + assert (2 <= (len T + B - 1) / B); [|lia].
      apply Z.div_le_lower_bound; lia.
    + assert ((len T + B - 1) / B < 2); [|lia].
      apply Z.div_lt_upper_bound; lia.
Qed.

(** X4 on [hello world] under a budget of four. *)
Lemma full_is_first_chunk_witness :
  exists (chunks : list jsstring) (f : Response),
    chunkText (lit "hello world") 4 = Some chunks
    /\ access_engine (Example.runtime (Example.download "x" "text/plain") [])
         (JStr (lit "7")) (full_request 4) (lit "hello world") = Return f
    /\ answer_text (Return f) = chunks !! 0%nat
    /\ answer_text
         (access_engine (Example.runtime (Example.download "x" "text/plain") [])
            (JStr (lit "7")) (preview_request 4) (lit "hello world"))
       = chunks !! 0%nat
    /\ shown (payload f) "truncated" = JBool (1 <? Z.of_nat (length chunks)).
Proof.
  apply (full_is_first_chunk
           (Example.runtime (Example.download "x" "text/plain") [])
           (JStr (lit "7")) 4 (lit "hello world")); [by left | lia | by vm_compute].
Defined.

(** The joined snippets stay below a positive budget. *)
Lemma search_text_bound (rt : Runtime) (q : jsstring) (maxChars : Z)
    (T : jsstring) :
  0 < maxChars ->
  len (join [LF; LF] (search_matches rt q maxChars T)) < maxChars.
Proof.
  intros Hpos. unfold search_matches.
  destruct (search_scan_invariant rt q maxChars (split_paragraphs T)
              (length (split_paragraphs T)) 0 ([], []))
    as [Hacc Hlen]; [split; [reflexivity | change (0 <= maxChars); lia]|].
  destruct (fst (search_scan rt q maxChars (split_paragraphs T)
                   (length (split_paragraphs T)) 0 ([], [])))
    as [|m matches] eqn:Hm; [exact Hpos|].
  pose proof (len_join_blank_line (m :: matches) ltac:(discriminate)) as Hjoin.
  rewrite <- Hacc in Hjoin. lia.
Qed.

(** X5.  An integer budget bounds every success.  Numbers being integers,
    whatever the mode, a successful answer of the engine carries a [text],
    and that text is at most the effective budget long: [max_chars] if that
    is a positive integer, 8000 if it is anything else that is not a
    number. *)
Theorem success_text_bounded (rt : Runtime) (identifier : Json) (args : Fields)
    (T : jsstring) (resp : Response) :
  access_engine rt identifier args T = Return resp ->
  shown (payload resp) "success" = JBool true ->
  exists t : jsstring,
    shown (payload resp) "text" = JStr t /\ len t <= effective_maxChars args.
Proof.
  intros Hrun Hsuccess.
  pose proof (effective_maxChars_positive args) as HB.
  unfold access_engine in Hrun.
  destruct (blank T) eqn:Hblank; [injection Hrun as <-; discriminate|].
  destruct (chunkText_facts T _ HB) as (chunks & Hchunks & _ & _ & Hwin).
  pose proof (first_chunk T _ chunks HB (blank_false_nonempty T Hblank) Hchunks)
    as H0.
  rewrite Hchunks in Hrun.
  destruct (is_string (effective_mode args) (lit "full")
            && (MAX_FULL_TOKENS <? estimated_tokens (len T)));
    [injection Hrun as <-; discriminate|].
  destruct (is_string (effective_mode args) (lit "preview")).
  { injection Hrun as <-. rewrite (preview_text _ _ _ _ _ H0).
    eexists. split; [reflexivity|]. by apply (Hwin 0%nat). }
  destruct (is_string (effective_mode args) (lit "chunk")).
  { destruct (Z.ltb_spec (effective_chunk_index args) 0) as [?|Hlow];
      [injection Hrun as <-; discriminate|].
    destruct (Z.leb_spec (Z.of_nat (length chunks)) (effective_chunk_index args))
      as [?|Hhigh]; [injection Hrun as <-; discriminate|].
    injection Hrun as <-.
    destruct (lookup_lt_is_Some_2 chunks (Z.to_nat (effective_chunk_index args)))
      as [c Hc]; [lia|].
    change (shown (payload (chunk_success identifier (effective_chunk_index args)
                              (len T) (estimated_tokens (len T)) chunks)) "text")
      with (chunk_at chunks (effective_chunk_index args)).
    unfold chunk_at.
    destruct (Z.ltb_spec (effective_chunk_index args) 0); [lia|]. rewrite Hc.
    eexists. split; [reflexivity|]. by apply (Hwin _ _ Hc). }
  destruct (is_string (effective_mode args) (lit "search")).
  { destruct (search_query_of rt args) as [q| |]; [|discriminate ..].
    destruct (empty q); injection Hrun as <-; [discriminate|].
    eexists. split; [reflexivity|].
    pose proof (search_text_bound rt q _ T HB). lia. }
  destruct (is_string (effective_mode args) (lit "full"));
    injection Hrun as <-; [|discriminate].
  eexists. split; [reflexivity|].
  rewrite full_text_prefix by exact HB.
  unfold len. rewrite length_take. lia.
Qed.

(** X5 on a search whose budget cuts the context short. *)
Lemma success_text_bounded_witness :
  exists t : jsstring,
    shown (payload (search_success (JStr (lit "7")) (lit "b") 18 5
                      [lit "alpha"; lit "beta"])) "text" = JStr t
    /\ len t <= effective_maxChars
                  [("mode", JStr (lit "search")); ("search_query", JStr (lit "B"));
                   ("max_chars", JNum 14)].
Proof.
  apply (success_text_bounded
           (Example.runtime (Example.download "x" "text/plain") [])
           (JStr (lit "7"))
           [("mode", JStr (lit "search")); ("search_query", JStr (lit "B"));
            ("max_chars", JNum 14)]
           (lit ("alpha" ++ Example.blank_line ++ "beta" ++ Example.blank_line
                 ++ "gamma"))); reflexivity.
Defined.

(* ===================================================================== *)
(** * Further properties of search mode *)
(* ===================================================================== *)

Lemma search_context_keeps (P : jsstring -> Prop) (maxChars : Z)
    (context : list jsstring) :
  Forall P context ->
  forall st : SearchState,
    Forall P (fst st) -> Forall P (fst (search_context maxChars context st)).
Proof.
  induction 1 as [|p context Hp Hrest IH]; intros [matches accumulated] Hst;
    [exact Hst|].
  cbn [search_context]. destruct (maxChars <? _); [exact Hst|].
  apply IH. cbn [fst] in *. apply Forall_app. split; [exact Hst | by constructor].
Qed.

Lemma context_of_near (rt : Runtime) (q : jsstring) (paragraphs : list jsstring)
    (i : nat) :
  (i < length paragraphs)%nat ->
  includes (toLowerCase rt (paragraphs !!! i)) q = true ->
  Forall (near_match rt q paragraphs) (context_of paragraphs i).
Proof.
  intros Hi Hhit.
  pose proof (list_lookup_lookup_total_lt paragraphs i Hi) as Hat.
  unfold context_of. apply Forall_app. split; [|apply Forall_app; split].
  - destruct (Nat.ltb_spec 0 i); [|constructor].
    repeat constructor. exists (i - 1)%nat, i, (paragraphs !!! i).
    split; [apply list_lookup_lookup_total_lt; lia|]. repeat split; [done .. | lia | lia].
  - repeat constructor. exists i, i, (paragraphs !!! i).
    repeat split; [done .. | lia | lia].
  - destruct (Nat.ltb_spec i (length paragraphs - 1)); [|constructor].
    repeat constructor. exists (i + 1)%nat, i, (paragraphs !!! i).
    split; [apply list_lookup_lookup_total_lt; lia|]. repeat split; [done .. | lia | lia].
Qed.

Lemma search_scan_near (rt : Runtime) (q : jsstring) (maxChars : Z)
    (paragraphs : list jsstring) (todo : nat) :
  forall (i : nat) (st : SearchState),
    (i + todo <= length paragraphs)%nat ->
    Forall (near_match rt q paragraphs) (fst st) ->
    Forall (near_match rt q paragraphs)
      (fst (search_scan rt q maxChars paragraphs todo i st)).
Proof.
  induction todo as [|todo IH]; intros i st Hi Hst; [exact Hst|].
  cbn [search_scan].
  set (st' := if includes _ q then _ else st).
  assert (Hst' : Forall (near_match rt q paragraphs) (fst st')).
  { subst st'. destruct (includes _ q) eqn:Hhit; [|exact Hst].
    apply search_context_keeps; [|exact Hst].
    apply context_of_near; [lia | exact Hhit]. }
  destruct (maxChars <=? len (snd st')); [exact Hst'|].
  apply IH; [lia | exact Hst'].
Qed.

(** X6.  Search returns paragraphs of the document, and only ones at a
    match: every snippet is, verbatim, a paragraph that contains the query
    or the paragraph right before or right after one that does. *)
Theorem snippets_are_near_matches (rt : Runtime) (q : jsstring) (maxChars : Z)
    (T : jsstring) :
  Forall (near_match rt q (split_paragraphs T)) (search_matches rt q maxChars T).
Proof.
  unfold search_matches. apply search_scan_near; [lia | constructor].
Qed.

Lemma search_scan_idle (rt : Runtime) (q : jsstring) (maxChars : Z)
    (paragraphs : list jsstring) (todo : nat) :
  (forall p, p ∈ paragraphs -> includes (toLowerCase rt p) q = false) ->
  forall (i : nat) (st : SearchState),
    (i + todo <= length paragraphs)%nat ->
    search_scan rt q maxChars paragraphs todo i st = st.
Proof.
  intros Hnone. induction todo as [|todo IH]; intros i st Hi; [reflexivity|].
  cbn [search_scan].
  rewrite Hnone by (apply list_elem_of_lookup_total_2; lia).
  destruct (maxChars <=? len (snd st)); [reflexivity | apply IH; lia].
Qed.

(** X7.  A search that finds nothing succeeds with nothing.  When no
    paragraph of a text that holds more than white space contains the
    query, search mode answers with a success whose snippet count is zero
    and whose text is empty, not with a failure. *)
Theorem search_without_match (rt : Runtime) (identifier : Json) (args : Fields)
    (T raw : jsstring) :
  has_text T ->
  field args "mode" = JStr (lit "search") ->
  field args "search_query" = JStr raw ->
  toLowerCase rt (trim raw) <> [] ->
  (forall p, p ∈ split_paragraphs T ->
     includes (toLowerCase rt p) (toLowerCase rt (trim raw)) = false) ->
  access_engine rt identifier args T
  = Return (search_success identifier (toLowerCase rt (trim raw)) (len T)
              (estimated_tokens (len T)) [])
  /\ shown (payload (search_success identifier (toLowerCase rt (trim raw)) (len T)
                       (estimated_tokens (len T)) [])) "snippet_count" = JNum 0
  /\ shown (payload (search_success identifier (toLowerCase rt (trim raw)) (len T)
                       (estimated_tokens (len T)) [])) "text" = JStr [].
Proof.
  intros Htext Hmode Hquery Hq Hnone. apply blank_false_iff in Htext.
  split; [|split; reflexivity].
  destruct (engine_chunks args T) as [chunks Hchunks].
  pose proof (mode_of_field args _ _ Hmode) as Heff.
  unfold access_engine, search_query_of, js_or. rewrite Htext, Hchunks, Heff, Hquery.
  cbn [is_string JS.eqb lit list_ascii_of_string fmap list_fmap
       N_of_ascii N_of_digits codeunit_eqb N.eqb Pos.eqb andb].
  replace (if truthy (JStr raw) then JStr raw else JStr []) with (JStr raw)
    by (by destruct raw).
  destruct (toLowerCase rt (trim raw)) as [|c q] eqn:Hlow; [done|].
  cbn [empty]. do 2 f_equal.
  unfold search_matches. by rewrite search_scan_idle.
Qed.

(** X7 on a two-paragraph text searched for a word it does not hold. *)
Lemma search_without_match_witness :
  access_engine (Example.runtime (Example.download "x" "text/plain") [])
    (JStr (lit "7"))
    [("mode", JStr (lit "search")); ("search_query", JStr (lit " Zebra "))]
    (lit ("alpha" ++ Example.blank_line ++ "beta"))
  = Return (search_success (JStr (lit "7")) (lit "zebra") 11 3 []).
Proof.
  apply (search_without_match
           (Example.runtime (Example.download "x" "text/plain") [])
           (JStr (lit "7"))
           [("mode", JStr (lit "search")); ("search_query", JStr (lit " Zebra "))]
           (lit ("alpha" ++ Example.blank_line ++ "beta")) (lit " Zebra "));
    [by left | reflexivity | reflexivity | discriminate |].
  intros p Hp. vm_compute in Hp.
  apply elem_of_cons in Hp as [->|Hp]; [reflexivity|].
  apply elem_of_cons in Hp as [->|Hp]; [reflexivity|].
  by apply elem_of_nil in Hp.
Defined.



(* ===================================================================== *)
(** * The module state across requests *)
(* ===================================================================== *)

Section Moves.

Context (R : ModuleState -> ModuleState -> Prop).
Hypothesis R_refl : forall s, R s s.
Hypothesis R_trans : forall s1 s2 s3, R s1 s2 -> R s2 s3 -> R s1 s3.

Lemma moves_ret {A : Type} (a : A) : moves R (ret a).
Proof using R_refl. intros s. apply R_refl. Qed.

Lemma moves_throw {A : Type} (e : Exn) : moves R (@throw A e).
Proof using R_refl. intros s. apply R_refl. Qed.

Lemma moves_lift {A : Type} (r : Result A) : moves R (lift r).
Proof using R_refl. intros s. apply R_refl. Qed.

Lemma moves_bind {A B : Type} (c : M A) (k : A -> M B) :
  moves R c -> (forall a, moves R (k a)) -> moves R (bind c k).
Proof using R_refl R_trans.
  intros Hc Hk s. unfold bind. specialize (Hc s).
  destruct (c s) as [[a|e|] s1]; cbn [snd] in *; [|exact Hc ..].
  eapply R_trans; [exact Hc | apply Hk].
Qed.

Lemma moves_try_catch {A : Type} (c : M A) (h : Exn -> M A) :
  moves R c -> (forall e, moves R (h e)) -> moves R (try_catch c h).
Proof using R_refl R_trans.
  intros Hc Hh s. unfold try_catch. specialize (Hc s).
  destruct (c s) as [[a|e|] s1]; cbn [snd] in *; [exact Hc | | exact Hc].
  eapply R_trans; [exact Hc | apply Hh].
Qed.

End Moves.

(** Break a step into its binds, branches and leaves. *)
Ltac moves_steps :=
  repeat first
    [ solve [auto]
    | apply moves_ret; solve [auto]
    | apply moves_throw; solve [auto]
    | apply moves_lift; solve [auto]
    | apply moves_bind; [solve [auto] | solve [auto] | | intros ?]
    | apply moves_try_catch; [solve [auto] | solve [auto] | | intros ?]
    | match goal with
      | |- moves _ (if ?b then _ else _) => destruct b
      | |- moves _ (match ?x with _ => _ end) => destruct x
      end ].

Section Quiet.

Variable rt : Runtime.

Local Hint Resolve eq_refl : core.
Local Hint Extern 1 (forall s1 s2 s3, s1 = s2 -> s2 = s3 -> s1 = s3) =>
  (intros; congruence) : core.
Local Hint Extern 1 (forall s, s = s) => (intros; reflexivity) : core.

Lemma member_quiet (v : Json) (k : string) : moves eq (member rt v k).
Proof. unfold member. moves_steps. Qed.

Lemma first_element_quiet (v : Json) : moves eq (first_element rt v).
Proof. unfold first_element. moves_steps. Qed.

Lemma destructure_quiet (args : option Fields) : moves eq (destructure rt args).
Proof. unfold destructure. moves_steps. Qed.

Lemma pick_quiet (source : Json) (keys : list (string * string)) :
  moves eq (pick rt source keys).
Proof.
  induction keys as [|[to from] keys IH]; cbn [pick]; [moves_steps|].
  apply moves_bind; [auto | auto | apply member_quiet | intros v].
  apply moves_bind; [auto | auto | exact IH | intros fs]. moves_steps.
Qed.

Lemma filter_active_quiet (notes : list Json) : moves eq (filter_active rt notes).
Proof.
  induction notes as [|note notes IH]; cbn [filter_active]; [moves_steps|].
  apply moves_bind; [auto | auto | apply member_quiet | intros v].
  apply moves_bind; [auto | auto | exact IH | intros fs]. moves_steps.
Qed.

Lemma filter_notes_quiet (notes : Json) : moves eq (filter_notes rt notes).
Proof.
  unfold filter_notes. destruct notes; try (moves_steps; fail).
  apply filter_active_quiet.
Qed.

Lemma map_notes_quiet (notes : list Json) : moves eq (map_notes rt notes).
Proof.
  induction notes as [|note notes IH]; cbn [map_notes]; [moves_steps|].
  apply moves_bind; [auto | auto | apply pick_quiet | intros v].
  apply moves_bind; [auto | auto | exact IH | intros fs]. moves_steps.
Qed.

Lemma map_documents_quiet (documents : list Json) :
  moves eq (map_documents rt documents).
Proof.
  induction documents as [|doc documents IH]; cbn [map_documents]; [moves_steps|].
  repeat (apply moves_bind;
          [auto | auto | first [apply member_quiet | apply pick_quiet | exact IH]
           | intros ?]).
  moves_steps.
Qed.

Local Hint Resolve member_quiet first_element_quiet destructure_quiet pick_quiet
  filter_notes_quiet map_notes_quiet map_documents_quiet : core.

Ltac quiet_steps :=
  repeat first
    [ solve [auto]
    | apply moves_ret; solve [auto]
    | apply moves_throw; solve [auto]
    | apply moves_lift; solve [auto]
    | apply moves_bind; [solve [auto] | solve [auto] | | intros ?]
    | match goal with
      | |- moves _ (if ?b then _ else _) => destruct b
      | |- moves _ (match ?x with _ => _ end) => destruct x
      end ].

Lemma search_case_by_number_quiet (arguments : option Fields) :
  moves eq (search_case_by_number rt arguments).
Proof. unfold search_case_by_number. quiet_steps. Qed.

Lemma get_case_info_quiet (arguments : option Fields) :
  moves eq (get_case_info rt arguments).
Proof. unfold get_case_info. quiet_steps. Qed.

Lemma list_case_documents_quiet (arguments : option Fields) :
  moves eq (list_case_documents rt arguments).
Proof. unfold list_case_documents. quiet_steps. Qed.

End Quiet.

Section StateStep.

Variable rt : Runtime.

Lemma state_step_refl (s : ModuleState) : state_step rt s s.
Proof. by left. Qed.

Lemma state_step_trans (s1 s2 s3 : ModuleState) :
  state_step rt s1 s2 -> state_step rt s2 s3 -> state_step rt s1 s3.
Proof.
  intros [->|[Hempty Hload]] [->|[Hempty' Hload']].
  - by left.
  - by right.
  - by right.
  - right. split; [exact Hempty|]. rewrite Hload in Hload'.
    injection Hload' as <-. exact Hload.
Qed.

Lemma quiet_state_step {A : Type} (c : M A) :
  moves eq c -> moves (state_step rt) c.
Proof. intros H s. left. symmetry. apply H. Qed.

Lemma getPdfParseClass_step : moves (state_step rt) (getPdfParseClass rt).
Proof.
  intros s. unfold getPdfParseClass, bind, get_PDFParseClass, set_PDFParseClass,
    lift, ret, throw.
  destruct (slot_truthy (PDFParseClass s)) eqn:Hslot; [by left|].
  destruct (require_pdf_parse rt) as [loaded| |] eqn:Hload; [|by left ..].
  right. split; [exact Hslot|]. by destruct loaded.
Qed.

Lemma step_bind {A B : Type} (c : M A) (k : A -> M B) :
  moves (state_step rt) c -> (forall a, moves (state_step rt) (k a)) ->
  moves (state_step rt) (bind c k).
Proof. apply moves_bind; [apply state_step_refl | apply state_step_trans]. Qed.

Lemma step_try_catch {A : Type} (c : M A) (h : Exn -> M A) :
  moves (state_step rt) c -> (forall e, moves (state_step rt) (h e)) ->
  moves (state_step rt) (try_catch c h).
Proof. apply moves_try_catch; [apply state_step_refl | apply state_step_trans]. Qed.

Lemma step_quiet {A : Type} (c : M A) :
  (forall s, snd (c s) = s) -> moves (state_step rt) c.
Proof. intros H s. left. apply H. Qed.

Ltac step_steps :=
  repeat first
    [ apply getPdfParseClass_step
    | apply step_quiet; intros ?; reflexivity
    | apply step_bind; [|intros ?]
    | apply step_try_catch; [|intros ?]
    | match goal with
      | |- moves _ (if ?b then _ else _) => destruct b
      | |- moves _ (match ?x with _ => _ end) => destruct x
      end ].

Lemma extract_pdf_step (data : list Byte.byte) :
  moves (state_step rt) (extract_pdf rt data).
Proof. unfold extract_pdf. step_steps. Qed.

Lemma extract_text_step (identifier : Json) (mimeType : jsstring) (d : Download) :
  moves (state_step rt) (extract_text rt identifier mimeType d).
Proof.
  unfold extract_text, extract_word.
  repeat first
    [ apply extract_pdf_step
    | apply step_quiet; intros ?; reflexivity
    | apply step_bind; [|intros ?]
    | match goal with
      | |- moves _ (if ?b then _ else _) => destruct b
      end ].
Qed.

Lemma get_document_step (arguments : option Fields) :
  moves (state_step rt) (get_document rt arguments).
Proof.
  unfold get_document, get_document_body, get_document_content, destructure.
  repeat first
    [ apply extract_text_step
    | apply step_quiet; intros ?; reflexivity
    | apply step_bind; [|intros ?]
    | apply step_try_catch; [|intros ?]
    | match goal with
      | |- moves _ (if ?b then _ else _) => destruct b
      | |- moves _ (match ?x with _ => _ end) => destruct x
      end ].
Qed.

Lemma tool_body_step (request : Request) :
  moves (state_step rt) (tool_body rt request).
Proof.
  unfold tool_body.
  repeat match goal with
         | |- moves _ (if ?b then _ else _) => destruct b
         end;
    auto using quiet_state_step, search_case_by_number_quiet,
      get_case_info_quiet, list_case_documents_quiet, get_document_step.
  apply step_quiet. intros ?; reflexivity.
Qed.

End StateStep.

(** X9.  What a request can do to the module state.  A call leaves the
    module state as it found it, or fills an empty [PDFParseClass] with what
    [require('pdf-parse')] yields.  So once pdf-parse is cached, no call of
    any tool changes the state again, and the three pass-through tools and
    unknown tools never touch it. *)
Theorem module_state_step (rt : Runtime) (request : Request) (s : ModuleState) :
  state_step rt s (snd (call_tool rt request s))
  /\ (slot_truthy (PDFParseClass s) = true -> snd (call_tool rt request s) = s)
  /\ (JS.eqb (name request) (lit "get_document") = false ->
      snd (call_tool rt request s) = s).
Proof.
  assert (Hstep : state_step rt s (snd (call_tool rt request s))).
  { apply (moves_try_catch (state_step rt) (state_step_refl rt)
             (state_step_trans rt)); [apply tool_body_step|].
    intros e. apply moves_ret. apply state_step_refl. }
  split; [exact Hstep|]. split.
  - intros Hfull. destruct Hstep as [->|[Hempty _]]; [reflexivity | congruence].
  - intros Hother.
    assert (Hquiet : moves eq (call_tool rt request)); [|symmetry; apply Hquiet].
    apply moves_try_catch; [done | intros; congruence | | intros e; by apply moves_ret].
    unfold tool_body. rewrite Hother.
    repeat match goal with
           | |- moves _ (if ?b then _ else _) => destruct b
           end;
      auto using search_case_by_number_quiet, get_case_info_quiet,
        list_case_documents_quiet.
    by apply moves_throw.
Qed.

(* ===================================================================== *)
(** * Where errors end up *)
(* ===================================================================== *)

Lemma tool_body_named (rt : Runtime) (arguments : option Fields) :
  tool_body rt {| name := lit "search_case_by_number"; arguments := arguments |}
  = search_case_by_number rt arguments
  /\ tool_body rt {| name := lit "get_case_info"; arguments := arguments |}
     = get_case_info rt arguments
  /\ tool_body rt {| name := lit "list_case_documents"; arguments := arguments |}
     = list_case_documents rt arguments
  /\ tool_body rt {| name := lit "get_document"; arguments := arguments |}
     = get_document rt arguments.
Proof. repeat split; reflexivity. Qed.

Lemma extract_text_pdf (rt : Runtime) (identifier : Json) (d : Download) :
  extract_text rt identifier (lit "application/pdf") d
  = (do fullText <- extract_pdf rt (content d); ret (inr fullText)).
Proof. reflexivity. Qed.

(** X10.  A bad pdf-parse export is cached.  [getPdfParseClass] stores what
    it loaded before it checks that it is a function.  So when the export
    is a truthy value that is no function, the first PDF request fails with
    the loader's own message and leaves that value in [PDFParseClass]; every
    later PDF request skips the loader and fails with the [TypeError] of
    constructing a non-function instead. *)
Theorem bad_export_cached (rt : Runtime) (args : Fields) (identifier : Json)
    (d : Download) (s : ModuleState) :
  slot_truthy (PDFParseClass s) = false ->
  require_pdf_parse rt = Return (PdfOther true) ->
  get_document_content rt args identifier (lit "application/pdf") d s
  = (Return (extraction_failure identifier (lit "application/pdf")
               (new_Error (lit "Failed to extract PDF text: pdf-parse did not expose a PDFParse class/function as expected"))),
     {| PDFParseClass := PdfOther true |})
  /\ get_document_content rt args identifier (lit "application/pdf") d
       {| PDFParseClass := PdfOther true |}
     = (Return (extraction_failure identifier (lit "application/pdf")
                  (new_Error (lit "Failed to extract PDF text: "
                              ++ TypeError_message rt "PDFParse is not a constructor"))),
        {| PDFParseClass := PdfOther true |}).
Proof.
  intros Hempty Hload. split.
  - unfold get_document_content. rewrite extract_text_pdf.
    unfold extract_pdf, getPdfParseClass, try_catch, bind, get_PDFParseClass,
      set_PDFParseClass, lift, ret, throw.
    by rewrite Hempty, Hload.
  - reflexivity.
Qed.

(** X10 with an export that is an object. *)
Lemma bad_export_cached_witness :
  get_document_content
    (Example2.failing (Example.download "%PDF" "application/pdf") (PdfOther true)
       (new_Error (lit "boom")))
    [] (JStr (lit "7")) (lit "application/pdf")
    (Example.download "%PDF" "application/pdf")
    {| PDFParseClass := PdfOther true |}
  = (Return (extraction_failure (JStr (lit "7")) (lit "application/pdf")
               (new_Error (lit "Failed to extract PDF text: PDFParse is not a constructor"))),
     {| PDFParseClass := PdfOther true |}).
Proof.
  apply (bad_export_cached
           (Example2.failing (Example.download "%PDF" "application/pdf")
              (PdfOther true) (new_Error (lit "boom")))
           [] (JStr (lit "7")) (Example.download "%PDF" "application/pdf")
           Example.fresh); reflexivity.
Defined.



(** What a thrown [search_query] looks like from outside: a number as the
    query of a search on a plain-text document. *)
Example search_query_number :
  call_tool (Example.runtime (Example.download "some text" "text/plain") [])
    (Example.get_document_request
       [("document_id", JStr (lit "7")); ("mode", JStr (lit "search"));
        ("search_query", JNum 5)])
    Example.fresh
  = (Return (extraction_failure (JStr (lit "7")) (lit "text/plain")
               (new_Error (lit "(args.search_query || '').trim is not a function"))),
     Example.fresh).
Proof. reflexivity. Qed.

(** X12.  A file name that cannot be decoded escapes the inner [try].  The
    file name is taken from the content-disposition header before the inner
    [try] starts; when [decodeURIComponent] throws on it, the call is
    answered by the dispatcher's error envelope with [isError] set, not by a
    failure payload of [get_document]. *)
Theorem filename_decode_error_escapes (rt : Runtime) (args : Fields)
    (d : Download) (header capture : jsstring) (e : Exn) (s : ModuleState) :
  truthy (field args "document_id") || truthy (field args "document_uuid") = true ->
  (forall queryParams,
     callLegalserverAPI_binary rt (lit "/modules/document/download.php") queryParams
     = Return d) ->
  contentDisposition d = Some header ->
  header <> [] ->
  disposition_filename rt header = Some capture ->
  decodeURIComponent rt capture = Throw e ->
  call_tool rt {| name := lit "get_document"; arguments := Some args |} s
  = (Return (error_envelope (lit "get_document") e), s)
  /\ isError (error_envelope (lit "get_document") e) = true.
Proof.
  intros Hid Hfetch Hheader Hne Hcapture Hdecode. split; [|reflexivity].
  unfold call_tool, try_catch.
  rewrite (proj2 (proj2 (proj2 (tool_body_named rt (Some args))))).
  cbn [name]. unfold get_document, destructure, bind at 1, ret.
  replace (negb (truthy (field args "document_id"))
           && negb (truthy (field args "document_uuid"))) with false
    by (destruct (truthy (field args "document_id")),
                 (truthy (field args "document_uuid")); done).
  unfold bind at 1, lift. rewrite Hfetch.
  unfold get_document_body, bind at 1, lift, extractFilenameFromDisposition.
  rewrite Hheader. destruct header as [|c header]; [done|].
  by rewrite Hcapture, Hdecode.
Qed.

(** X12 with a header whose name does not decode. *)
Lemma filename_decode_error_escapes_witness :
  call_tool
    (Example2.failing (Example.named_download "x") PdfFunction
       (new_Error (lit "URI malformed")))
    {| name := lit "get_document";
       arguments := Some [("document_id", JStr (lit "7"))] |} Example.fresh
  = (Return (error_envelope (lit "get_document") (new_Error (lit "URI malformed"))),
     Example.fresh)
  /\ isError (error_envelope (lit "get_document") (new_Error (lit "URI malformed")))
     = true.
Proof.
  apply (filename_decode_error_escapes
           (Example2.failing (Example.named_download "x") PdfFunction
              (new_Error (lit "URI malformed")))
           [("document_id", JStr (lit "7"))] (Example.named_download "x")
           (lit "attachment; filename=REPORT.PDF")
           (lit "attachment; filename=REPORT.PDF")
           (new_Error (lit "URI malformed")) Example.fresh);
    try reflexivity; discriminate.
Defined.

(** X13.  A numeric [document_id] without a file name fails every
    download behind the PDF test, and fails earlier when the download
    declares no type.  With no file name in the headers the document is
    identified by the number.  If the response declares a MIME type that is
    not an image, not text and not exactly [application/pdf],
    [identifier.toLowerCase()] throws inside the inner [try] and the call is
    answered by the extraction failure, also for word-processor documents
    and for unsupported types.  If the response declares no type, the type
    is guessed from the identifier, [name.toLowerCase()] throws before the
    inner [try], and the call is answered by the dispatcher's error
    envelope. *)
Theorem nonstring_identifier_fails (rt : Runtime) (args : Fields)
    (d : Download) (filename : Json) (n : Z) (s : ModuleState) :
  field args "document_id" = JNum n -> n <> 0 ->
  (forall endpoint queryParams,
     callLegalserverAPI_binary rt endpoint queryParams = Return d) ->
  extractFilenameFromDisposition rt (contentDisposition d) = Return filename ->
  truthy filename = false ->
  (forall mime : jsstring,
     mimeType d = Some mime -> mime <> [] ->
     startsWith mime (lit "image/") = false ->
     startsWith mime (lit "text/") || includes mime (lit "plain") = false ->
     JS.eqb mime (lit "application/pdf") = false ->
     call_tool rt {| name := lit "get_document"; arguments := Some args |} s
     = (Return (extraction_failure (JNum n) mime
                  (TypeError rt "identifier.toLowerCase is not a function")), s))
  /\ (declared d = false ->
      call_tool rt {| name := lit "get_document"; arguments := Some args |} s
      = (Return (error_envelope (lit "get_document")
                   (TypeError rt "name.toLowerCase is not a function")), s)).
Proof.
  intros Hid Hn Hfetch Hname Hfalsy.
  destruct (tool_body_named rt (Some args)) as (_ & _ & _ & Htool).
  assert (Htruthy : truthy (JNum n) = true)
    by (cbn; by destruct (Z.eqb_spec n 0)).
  assert (Hbody : call_tool rt {| name := lit "get_document"; arguments := Some args |} s
                  = try_catch
                      (do mime <- lift (resolve_mimeType rt d filename (JNum n));
                       get_document_content rt args (JNum n) mime d)
                      (fun error => ret (error_envelope (lit "get_document") error)) s).
  { unfold call_tool. rewrite Htool.
    unfold try_catch, get_document, destructure, get_document_body, bind, lift.
    cbn [ret]. rewrite Hid, Htruthy. cbn [negb andb]. rewrite Hfetch, Hname.
    unfold js_or. by rewrite Hfalsy, Htruthy. }
  rewrite Hbody. split.
  - intros mime Hmime Hnonempty Himage Htext Hpdf.
    unfold resolve_mimeType. rewrite Hmime.
    destruct mime as [|c m]; [done|].
    unfold try_catch, bind, lift.
    destruct (format_throw rt args (JNum n) (c :: m) d s) as [Hthrow Hcaught];
      [discriminate | done..|].
    by rewrite Hcaught.
  - intros Hdecl. unfold resolve_mimeType, declared in *.
    unfold js_or. rewrite Hfalsy. unfold guessMimeTypeFromName.
    rewrite Htruthy. cbn [negb]. unfold try_catch, bind, lift.
    by destruct (mimeType d) as [[|c m]|].
Qed.

(** X13 on a Word document, and on a download without a type, asked for by
    a numeric id. *)
Lemma nonstring_identifier_fails_witness :
  call_tool (Example.runtime (Example.download "doc" "application/msword") [])
    (Example.get_document_request [("document_id", JNum 4711)]) Example.fresh
  = (Return (extraction_failure (JNum 4711) (lit "application/msword")
               (new_Error (lit "identifier.toLowerCase is not a function"))),
     Example.fresh)
  /\ call_tool
       (Example.runtime
          {| content := []; mimeType := None; contentDisposition := None |} [])
       (Example.get_document_request [("document_id", JNum 4711)]) Example.fresh
     = (Return (error_envelope (lit "get_document")
                  (new_Error (lit "name.toLowerCase is not a function"))),
        Example.fresh).
Proof.
  split.
  - destruct (nonstring_identifier_fails
                (Example.runtime (Example.download "doc" "application/msword") [])
                [("document_id", JNum 4711)]
                (Example.download "doc" "application/msword")
                JUndefined 4711 Example.fresh) as [Hdeclared _];
      [reflexivity | discriminate | reflexivity | reflexivity | reflexivity |].
    apply (Hdeclared (lit "application/msword")); try reflexivity. discriminate.
  - destruct (nonstring_identifier_fails
                (Example.runtime
                   {| content := []; mimeType := None; contentDisposition := None |} [])
                [("document_id", JNum 4711)]
                {| content := []; mimeType := None; contentDisposition := None |}
                JUndefined 4711 Example.fresh) as [_ Hundeclared];
      [reflexivity | discriminate | reflexivity | reflexivity | reflexivity |].
    by apply Hundeclared.
Defined.

(** X14.  A missing required parameter is rejected before anything is
    fetched.  For each tool, a call whose required parameter is absent or
    not truthy is answered by the error envelope with the tool's own
    message, in every environment and without a change of state; so is a
    call without an arguments object, with the [TypeError] of destructuring. *)
Theorem missing_parameter_rejected (rt : Runtime) (s : ModuleState)
    (args : Fields) :
  (truthy (field args "case_number") = false ->
   call_tool rt {| name := lit "search_case_by_number"; arguments := Some args |} s
   = (Return (error_envelope (lit "search_case_by_number")
                (new_Error (lit "case_number is required"))), s))
  /\ (truthy (field args "case_uuid") = false ->
      call_tool rt {| name := lit "get_case_info"; arguments := Some args |} s
      = (Return (error_envelope (lit "get_case_info")
                   (new_Error (lit "case_uuid is required"))), s)
      /\ call_tool rt {| name := lit "list_case_documents"; arguments := Some args |} s
         = (Return (error_envelope (lit "list_case_documents")
                      (new_Error (lit "case_uuid is required"))), s))
  /\ (truthy (field args "document_id") = false ->
      truthy (field args "document_uuid") = false ->
      call_tool rt {| name := lit "get_document"; arguments := Some args |} s
      = (Return (error_envelope (lit "get_document")
                   (new_Error (lit "Either document_id or document_uuid is required"))),
         s))
  /\ Forall (fun tool =>
       call_tool rt {| name := lit tool; arguments := None |} s
       = (Return (error_envelope (lit tool)
                    (TypeError rt "Cannot destructure 'args' as it is undefined.")),
          s))
       ["search_case_by_number"; "get_case_info"; "list_case_documents";
        "get_document"].
Proof.
  destruct (tool_body_named rt (Some args)) as (H1 & H2 & H3 & H4).
  split; [|split; [|split]].
  - intros H. unfold call_tool, try_catch. rewrite H1.
    unfold search_case_by_number, destructure, bind, ret, throw. by rewrite H.
  - intros H. split.
    + unfold call_tool, try_catch. rewrite H2.
      unfold get_case_info, destructure, bind, ret, throw. by rewrite H.
    + unfold call_tool, try_catch. rewrite H3.
      unfold list_case_documents, destructure, bind, ret, throw. by rewrite H.
  - intros Hid Huuid. unfold call_tool, try_catch. rewrite H4.
    unfold get_document, destructure, bind, ret, throw. by rewrite Hid, Huuid.
  - repeat constructor.
Qed.

(* ===================================================================== *)
(** * The pass-through tools on well-formed upstream data *)
(* ===================================================================== *)

Lemma pick_object (rt : Runtime) (fs : Fields) (keys : list (string * string))
    (s : ModuleState) :
  pick rt (JObj fs) keys s
  = (Return ((fun key => (key.1, field fs key.2)) <$> keys), s).
Proof.
  induction keys as [|[to from] keys IH]; [reflexivity|].
  cbn [pick]. unfold bind at 1. cbn [member ret]. unfold bind at 1.
  by rewrite IH.
Qed.

Lemma filter_active_objects (rt : Runtime) (items : list Json) (s : ModuleState) :
  Forall (fun n => is_object n = true) items ->
  filter_active rt items s = (Return (List.filter active items), s).
Proof.
  induction 1 as [|[| | | | | |fs] items Hobj _ IH]; try discriminate;
    [reflexivity|].
  cbn [filter_active List.filter]. unfold bind at 1. cbn [member ret].
  unfold bind at 1. rewrite IH. unfold active, shown.
  by destruct (is_not_false (field fs "active")).
Qed.

Lemma map_notes_objects (rt : Runtime) (items : list Json) (s : ModuleState) :
  Forall (fun n => is_object n = true) items ->
  exists listed : list Json,
    map_notes rt items s = (Return listed, s)
    /\ Forall2 (fun note entry =>
                  Forall (fun key => shown entry key.1 = shown note key.2)
                    [("id", "id"); ("uuid", "casenote_uuid");
                     ("subject", "subject"); ("body", "body");
                     ("date_posted", "date_posted")])
         items listed.
Proof.
  induction 1 as [|[| | | | | |fs] items Hobj _ (listed & Hrun & Hall)];
    try discriminate; [by exists []|].
  eexists (_ :: listed). split.
  - cbn [map_notes]. unfold bind at 1. rewrite pick_object. unfold bind at 1.
    rewrite Hrun. reflexivity.
  - constructor; [repeat constructor | exact Hall].
Qed.

Lemma filter_objects (P : Json -> bool) (items : list Json) :
  Forall (fun n => is_object n = true) items ->
  Forall (fun n => is_object n = true) (List.filter P items).
Proof.
  induction 1 as [|n items Hn _ IH]; [constructor|].
  cbn [List.filter]. destruct (P n); [by constructor | exact IH].
Qed.

(** X15.  The notes of a case and their summary agree.  When the case
    record holds an array of note objects, [get_case_info] lists exactly
    the notes whose [active] is not [false], in their upstream order and
    with their id, subject, body and posting date; [active_notes] is the
    length of that list and [total_notes] the number of upstream notes. *)
Theorem case_notes_consistent (rt : Runtime) (args response caseData : Fields)
    (items : list Json) (s : ModuleState) :
  truthy (field args "case_uuid") = true ->
  (forall endpoint queryParams,
     callLegalserverAPI rt endpoint queryParams = Return (JObj response)) ->
  field response "data" = JObj caseData ->
  field caseData "notes" = JArr items ->
  Forall (fun n => is_object n = true) items ->
  exists (resp : Response) (listed : list Json),
    call_tool rt {| name := lit "get_case_info"; arguments := Some args |} s
    = (Return resp, s)
    /\ shown (payload resp) "success" = JBool true
    /\ shown (payload resp) "notes" = JArr listed
    /\ Forall2 (fun note entry =>
                  Forall (fun key => shown entry key.1 = shown note key.2)
                    [("id", "id"); ("uuid", "casenote_uuid");
                     ("subject", "subject"); ("body", "body");
                     ("date_posted", "date_posted")])
         (List.filter active items) listed
    /\ shown (payload resp) "notes_summary"
       = JObj [("total_notes", JNum (Z.of_nat (length items)));
               ("active_notes", JNum (Z.of_nat (length listed)))].
Proof.
  intros Hid Hfetch Hdata Hnotes Hobj.
  destruct (map_notes_objects rt (List.filter active items) s
              (filter_objects active items Hobj)) as (listed & Hmap & Hall).
  pose proof (Forall2_length _ _ _ Hall) as Hlen.
  eexists _, listed.
  split; [|split; [|split; [|split; [exact Hall|]]]].
  - unfold call_tool, try_catch.
    rewrite (proj1 (proj2 (tool_body_named rt (Some args)))).
    unfold get_case_info, destructure. unfold bind at 1, ret. rewrite Hid.
    cbn [negb]. unfold bind at 1, lift. rewrite Hfetch.
    unfold bind at 1. cbn [member ret]. rewrite Hdata.
    repeat (unfold bind at 1; rewrite pick_object).
    unfold bind at 1. cbn [member ret]. rewrite Hnotes.
    cbn [truthy nullish filter_notes].
    unfold bind at 1, bind at 1. rewrite (filter_active_objects rt items s Hobj).
    rewrite Hmap.
    unfold bind at 1. cbn [member ret].
    unfold bind at 1, bind at 1. rewrite (filter_active_objects rt items s Hobj).
    cbn [ret]. unfold bind at 1. cbn [ret]. reflexivity.
  - reflexivity.
  - reflexivity.
  - cbn. rewrite <- Hlen. unfold js_or.
    destruct (length items) eqn:E1; destruct (length (List.filter active items)) eqn:E2;
      reflexivity.
Qed.

(** X15 on a case with an active, a retired and an unmarked note. *)
Lemma case_notes_consistent_witness :
  exists (resp : Response) (listed : list Json),
    call_tool (Example2.upstream (JObj Example3.case_response))
      {| name := lit "get_case_info";
         arguments := Some [("case_uuid", JStr (lit "u-1"))] |} Example.fresh
    = (Return resp, Example.fresh)
    /\ shown (payload resp) "success" = JBool true
    /\ shown (payload resp) "notes" = JArr listed
    /\ Forall2 (fun note entry =>
                  Forall (fun key => shown entry key.1 = shown note key.2)
                    [("id", "id"); ("uuid", "casenote_uuid");
                     ("subject", "subject"); ("body", "body");
                     ("date_posted", "date_posted")])
         (List.filter active Example3.notes) listed
    /\ shown (payload resp) "notes_summary"
       = JObj [("total_notes", JNum (Z.of_nat (length Example3.notes)));
               ("active_notes", JNum (Z.of_nat (length listed)))].
Proof.
  apply (case_notes_consistent (Example2.upstream (JObj Example3.case_response))
           [("case_uuid", JStr (lit "u-1"))] Example3.case_response
           Example3.case_data Example3.notes Example.fresh); try reflexivity.
  repeat constructor.
Defined.

(** The notes that example lists: the first and the third. *)
Example case_notes_listed :
  shown (payload
    (match fst (call_tool (Example2.upstream (JObj Example3.case_response))
                  {| name := lit "get_case_info";
                     arguments := Some [("case_uuid", JStr (lit "u-1"))] |}
                  Example.fresh) with
     | Return resp => resp
     | _ => respond []
     end)) "notes_summary"
  = JObj [("total_notes", JNum 3); ("active_notes", JNum 2)].
Proof. reflexivity. Qed.

Lemma map_documents_objects (rt : Runtime) (docs : list Json) (s : ModuleState) :
  Forall (fun doc => is_object doc = true) docs ->
  exists listed : list Json,
    map_documents rt docs s = (Return listed, s)
    /\ Forall2 (fun doc entry =>
                  Forall (fun key => shown entry key = shown doc key)
                    ["guid"; "internal_id"; "name"; "title"; "mime_type"]
                  /\ shown entry "size_bytes" = size_of doc
                  /\ shown entry "estimated_tokens" = size_tokens rt (size_of doc)
                  /\ shown entry "file_size" = size_label rt (size_of doc))
         docs listed.
Proof.
  induction 1 as [|[| | | | | |fs] docs Hobj _ (listed & Hrun & Hall)];
    try discriminate; [by exists []|].
  eexists (_ :: listed). split.
  - cbn [map_documents]. unfold bind at 1. cbn [member ret].
    unfold bind at 1. cbn [member ret].
    repeat (unfold bind at 1; rewrite pick_object).
    unfold bind at 1. rewrite Hrun. reflexivity.
  - constructor; [|exact Hall]. split; [repeat constructor|].
    repeat split.
Qed.

Lemma size_label_kilobytes (rt : Runtime) (n : Z) :
  0 < n < 1024 * 10 ^ 21 ->
  size_label rt (JNum n) = JStr (kilobytes_label n).
Proof.
  intros Hn. unfold size_label.
  replace (truthy (JNum n)) with true
    by (cbn; by destruct (Z.eqb_spec n 0); [lia|]).
  unfold toFixed2, kilobytes_label.
  destruct (Qlt_le_dec (inject_Z n / inject_Z 1024) 0) as [Hneg|_].
  { exfalso. revert Hneg. unfold Qlt, Qdiv, Qmult, Qinv, inject_Z. cbn. lia. }
  assert (Hsmall : Qle_bool (inject_Z (10 ^ 21))
                     (Qabs (inject_Z n / inject_Z 1024)) = false).
  { apply not_true_is_false. rewrite Qle_bool_iff.
    unfold Qle, Qabs, Qdiv, Qmult, Qinv, inject_Z. cbn. lia. }
  assert (Hfloor : Qfloor (Qabs (inject_Z n / inject_Z 1024) * inject_Z 100
                           + (1 # 2))
                   = (100 * n + 512) / 1024).
  { unfold Qfloor, Qplus, Qabs, Qdiv, Qmult, Qinv, inject_Z. cbn.
    change (Z.pos (1 * 1024 * 1 * 2)) with (1024 * 2).
    change (Z.pos (1 * 1024 * 1)) with 1024.
    replace (Z.abs (n * 1) * 100 * 2 + 1 * 1024) with ((100 * n + 512) * 2) by lia.
    by rewrite Z.div_mul_cancel_r by lia. }
  rewrite Hsmall, Hfloor. cbn [app]. by rewrite <- !app_assoc.
Qed.

(** X16.  The document list keeps count, order and sizes.  When upstream
    answers with a non-empty array of document objects, bare or under
    [data], [list_case_documents] lists one entry per document in upstream
    order; [total_documents] is their number; an entry's size is the size
    on disk if that is truthy, else the declared size if that is truthy,
    else [null]; for a size of [n] bytes the estimated tokens are
    [round(n / 4)], and the label is [n / 1024] rounded to hundredths with
    two decimals and the unit (for sizes below the 10^21 kilobytes from
    which JavaScript prints an exponent); for no size both are [null]. *)
Theorem documents_listing (rt : Runtime) (args : Fields) (response : Json)
    (docs : list Json) (s : ModuleState) :
  truthy (field args "case_uuid") = true ->
  (forall endpoint queryParams,
     callLegalserverAPI rt endpoint queryParams = Return response) ->
  response = JArr docs \/ (exists fs, response = JObj fs /\ field fs "data" = JArr docs) ->
  docs <> [] ->
  Forall (fun doc => is_object doc = true) docs ->
  exists (resp : Response) (listed : list Json),
    call_tool rt {| name := lit "list_case_documents"; arguments := Some args |} s
    = (Return resp, s)
    /\ shown (payload resp) "success" = JBool true
    /\ shown (payload resp) "total_documents" = JNum (Z.of_nat (length docs))
    /\ shown (payload resp) "documents" = JArr listed
    /\ Forall2 (fun doc entry =>
                  shown entry "guid" = shown doc "guid"
                  /\ shown entry "size_bytes" = size_of doc
                  /\ (forall n, size_of doc = JNum n ->
                        shown entry "estimated_tokens" = JNum (estimated_tokens n))
                  /\ (forall n, size_of doc = JNum n -> 0 < n < 1024 * 10 ^ 21 ->
                        shown entry "file_size" = JStr (kilobytes_label n))
                  /\ (size_of doc = JNull ->
                        shown entry "estimated_tokens" = JNull
                        /\ shown entry "file_size" = JNull))
         docs listed.
Proof.
  intros Hid Hfetch Hshape Hne Hobj.
  destruct (map_documents_objects rt docs s Hobj) as (listed & Hmap & Hall).
  destruct docs as [|doc rest]; [done|].
  eexists _, listed.
  split; [|split; [|split; [|split]]].
  - unfold call_tool, try_catch.
    rewrite (proj1 (proj2 (proj2 (tool_body_named rt (Some args))))).
    unfold list_case_documents, destructure, bind, lift. cbn [ret].
    rewrite Hid, Hfetch. cbn [negb].
    destruct Hshape as [->|(fs & -> & Hdata)];
      cbn [nullish member ret String.eqb Ascii.eqb Bool.eqb];
      [|rewrite Hdata; cbn [nullish]]; by rewrite Hmap.
  - reflexivity.
  - reflexivity.
  - reflexivity.
  - eapply Forall2_impl; [exact Hall|].
    intros document entry (Hkeys & Hsize & Htokens & Hlabel).
    split; [by inversion Hkeys|]. split; [exact Hsize|]. split; [|split].
    + intros n Hn. rewrite Htokens, Hn. unfold size_tokens.
      destruct (truthy (JNum n)) eqn:Htruthy; [reflexivity|].
      exfalso. unfold size_of, js_or in Hn.
      repeat match type of Hn with
             | (if truthy ?v then _ else _) = _ =>
                 let E := fresh in destruct (truthy v) eqn:E
             end; try discriminate; congruence.
    + intros n Hn Hrange. by rewrite Hlabel, Hn, size_label_kilobytes.
    + intros Hnull. by rewrite Htokens, Hlabel, Hnull.
Qed.

(** X16 on three documents under [data]. *)
Lemma documents_listing_witness :
  exists (resp : Response) (listed : list Json),
    call_tool (Example2.upstream (JObj [("data", JArr Example3.documents)]))
      {| name := lit "list_case_documents";
         arguments := Some [("case_uuid", JStr (lit "u-1"))] |} Example.fresh
    = (Return resp, Example.fresh)
    /\ shown (payload resp) "success" = JBool true
    /\ shown (payload resp) "total_documents"
       = JNum (Z.of_nat (length Example3.documents))
    /\ shown (payload resp) "documents" = JArr listed
    /\ Forall2 (fun doc entry =>
                  shown entry "guid" = shown doc "guid"
                  /\ shown entry "size_bytes" = size_of doc
                  /\ (forall n, size_of doc = JNum n ->
                        shown entry "estimated_tokens" = JNum (estimated_tokens n))
                  /\ (forall n, size_of doc = JNum n -> 0 < n < 1024 * 10 ^ 21 ->
                        shown entry "file_size" = JStr (kilobytes_label n))
                  /\ (size_of doc = JNull ->
                        shown entry "estimated_tokens" = JNull
                        /\ shown entry "file_size" = JNull))
         Example3.documents listed.
Proof.
  apply (documents_listing
           (Example2.upstream (JObj [("data", JArr Example3.documents)]))
           [("case_uuid", JStr (lit "u-1"))]
           (JObj [("data", JArr Example3.documents)]) Example3.documents
           Example.fresh); try reflexivity.
  - right. by eexists.
  - discriminate.
  - repeat constructor.
Defined.

Example kilobytes_label_rounds :
  kilobytes_label 1536 = lit "1.50 KB" /\ kilobytes_label 5 = lit "0.00 KB"
  /\ kilobytes_label 1029 = lit "1.00 KB" /\ kilobytes_label 1030 = lit "1.01 KB".
Proof. repeat split; reflexivity. Qed.

(** The sizes that example lists: 2048 bytes on disk; a size on disk of
    zero, so the declared ten bytes; no size at all. *)
Example documents_sizes :
  match fst (call_tool (Example2.upstream (JArr Example3.documents))
               {| name := lit "list_case_documents";
                  arguments := Some [("case_uuid", JStr (lit "u-1"))] |}
               Example.fresh) with
  | Return resp =>
      match shown (payload resp) "documents" with
      | JArr listed =>
          (fun entry => (shown entry "size_bytes", shown entry "estimated_tokens",
                         shown entry "file_size")) <$> listed
      | _ => []
      end
  | _ => []
  end
  = [(JNum 2048, JNum 512, JStr (lit "2.00 KB"));
     (JNum 10, JNum 3, JStr (lit "0.01 KB"));
     (JNull, JNull, JNull)].
Proof. reflexivity. Qed.

(** X17.  Nothing found is a failure payload, not an error.  When the
    upstream answer is an object whose [data] is not truthy or is an empty
    array, [search_case_by_number] answers with the failure that names the
    case number, and [list_case_documents] with the no-documents failure;
    both carry [success: false] and a [suggestion], neither sets [isError],
    and the state is untouched. *)
Theorem nothing_found (rt : Runtime) (args response : Fields) (s : ModuleState) :
  (forall endpoint queryParams,
     callLegalserverAPI rt endpoint queryParams = Return (JObj response)) ->
  truthy (field response "data") = false \/ field response "data" = JArr [] ->
  (truthy (field args "case_number") = true ->
   call_tool rt {| name := lit "search_case_by_number"; arguments := Some args |} s
   = (Return (respond
        [("success", JBool false);
         ("error", JStr (lit "No case found with case number: "
                         ++ ToString (field args "case_number")));
         ("suggestion", JStr (lit "Please verify the case number and try again."))]),
      s))
  /\ (truthy (field args "case_uuid") = true ->
      call_tool rt {| name := lit "list_case_documents"; arguments := Some args |} s
      = (Return (respond
           [("success", JBool false);
            ("error", JStr (lit "No documents were found for this case."));
            ("suggestion", JStr (lit "Verify the case UUID or ensure documents have been uploaded."))]),
         s)).
Proof.
  intros Hfetch Hdata. split; intros Hid.
  - unfold call_tool, try_catch.
    rewrite (proj1 (tool_body_named rt (Some args))).
    unfold search_case_by_number, destructure, bind, lift. cbn [ret].
    rewrite Hid, Hfetch. cbn [negb member ret].
    destruct Hdata as [Hfalsy| ->]; [by rewrite Hfalsy | reflexivity].
  - unfold call_tool, try_catch.
    rewrite (proj1 (proj2 (proj2 (tool_body_named rt (Some args))))).
    unfold list_case_documents, destructure, bind, lift. cbn [ret].
    rewrite Hid, Hfetch. cbn [negb nullish member ret].
    destruct Hdata as [Hfalsy| ->]; [|reflexivity].
    destruct (field response "data") as [| | | | |items|fs]; try reflexivity;
      discriminate.
Qed.

(** X17 on an answer with an empty [data] array. *)
Lemma nothing_found_witness :
  call_tool (Example2.upstream (JObj [("data", JArr [])]))
    {| name := lit "search_case_by_number";
       arguments := Some [("case_number", JStr (lit "24-0539721"))] |} Example.fresh
  = (Return (respond
       [("success", JBool false);
        ("error", JStr (lit "No case found with case number: 24-0539721"));
        ("suggestion", JStr (lit "Please verify the case number and try again."))]),
     Example.fresh).
Proof.
  destruct (nothing_found (Example2.upstream (JObj [("data", JArr [])]))
              [("case_number", JStr (lit "24-0539721"))] [("data", JArr [])]
              Example.fresh) as [Hcase _]; [reflexivity | by right |].
  apply Hcase. reflexivity.
Defined.

(* ===================================================================== *)
(** * [callLegalserverAPI] and the start-up configuration *)
(* ===================================================================== *)

(** X18.  An upstream error status reaches the caller with its code and
    reason.  When the response is not [ok], [callLegalserverAPI] throws
    [LegalServer API error: <status> <statusText>] without reading the
    body, for JSON and for binary requests alike; and every tool that gets
    as far as its upstream call answers with the dispatcher's envelope that
    carries exactly this message. *)
Theorem http_error_surfaces (net : Http.Network) (rt : Runtime)
    (response : Http.HttpResponse) (args : Fields) (s : ModuleState) :
  (forall endpoint queryParams,
     exists url, Http.url_toString net endpoint queryParams = Return url) ->
  (forall url headers, Http.fetch net url headers = Return response) ->
  Http.ok response = false ->
  let failure :=
    new_Error (lit "LegalServer API error: "
               ++ number_toString (Http.status response) ++ lit " "
               ++ Http.statusText response) in
  (forall endpoint queryParams returnBinary,
     Http.callLegalserverAPI net endpoint queryParams returnBinary = Throw failure)
  /\ (truthy (field args "case_number") = true ->
      call_tool (over_network net rt)
        {| name := lit "search_case_by_number"; arguments := Some args |} s
      = (Return (error_envelope (lit "search_case_by_number") failure), s))
  /\ (truthy (field args "case_uuid") = true ->
      call_tool (over_network net rt)
        {| name := lit "get_case_info"; arguments := Some args |} s
      = (Return (error_envelope (lit "get_case_info") failure), s)
      /\ call_tool (over_network net rt)
           {| name := lit "list_case_documents"; arguments := Some args |} s
         = (Return (error_envelope (lit "list_case_documents") failure), s))
  /\ (truthy (field args "document_id") || truthy (field args "document_uuid") = true ->
      call_tool (over_network net rt)
        {| name := lit "get_document"; arguments := Some args |} s
      = (Return (error_envelope (lit "get_document") failure), s)).
Proof.
  intros Hurl Hfetch Hok failure.
  assert (Hcall : forall endpoint queryParams returnBinary,
            Http.callLegalserverAPI net endpoint queryParams returnBinary
            = Throw failure).
  { intros endpoint queryParams returnBinary. unfold Http.callLegalserverAPI.
    destruct (Hurl endpoint queryParams) as [url ->]. cbn [and_then].
    rewrite Hfetch. cbn [and_then]. by rewrite Hok. }
  destruct (tool_body_named (over_network net rt) (Some args))
    as (H1 & H2 & H3 & H4).
  split; [exact Hcall|]. split; [|split].
  - intros Hid. unfold call_tool, try_catch. rewrite H1.
    unfold search_case_by_number, destructure, bind, lift. cbn [ret].
    rewrite Hid. cbn [negb callLegalserverAPI over_network]. by rewrite Hcall.
  - intros Hid. split.
    + unfold call_tool, try_catch. rewrite H2.
      unfold get_case_info, destructure, bind, lift. cbn [ret].
      rewrite Hid. cbn [negb callLegalserverAPI over_network]. by rewrite Hcall.
    + unfold call_tool, try_catch. rewrite H3.
      unfold list_case_documents, destructure, bind, lift. cbn [ret].
      rewrite Hid. cbn [negb callLegalserverAPI over_network]. by rewrite Hcall.
  - intros Hid. unfold call_tool, try_catch. rewrite H4.
    unfold get_document, destructure, bind, lift. cbn [ret].
    replace (negb (truthy (field args "document_id"))
             && negb (truthy (field args "document_uuid"))) with false
      by (destruct (truthy (field args "document_id")),
                   (truthy (field args "document_uuid")); done).
    cbn [callLegalserverAPI_binary over_network]. by rewrite Hcall.
Qed.

(** X18 on an upstream that answers 404 to a document request. *)
Lemma http_error_surfaces_witness :
  call_tool (over_network (Example4.network Example4.not_found)
               (Example.runtime (Example.download "x" "text/plain") []))
    {| name := lit "get_document";
       arguments := Some [("document_uuid", JStr (lit "u-1"))] |} Example.fresh
  = (Return (error_envelope (lit "get_document")
               (new_Error (lit "LegalServer API error: 404 Not Found"))),
     Example.fresh).
Proof.
  destruct (http_error_surfaces (Example4.network Example4.not_found)
              (Example.runtime (Example.download "x" "text/plain") [])
              Example4.not_found [("document_uuid", JStr (lit "u-1"))]
              Example.fresh) as (_ & _ & _ & Hdoc);
    [intros; by eexists | reflexivity | reflexivity |].
  apply Hdoc. reflexivity.
Defined.

Lemma read_stream_chunks (pending chunks : list (list Byte.byte))
    (ending : Http.StreamEnd) :
  Http.read_stream pending ending chunks
  = match ending with
    | Http.StreamDone => Return (concat (chunks ++ pending))
    | Http.StreamFails e => Throw e
    | Http.StreamHangs => Diverge
    end.
Proof.
  revert chunks. induction pending as [|value pending IH]; intros chunks.
  - cbn. by rewrite app_nil_r.
  - cbn [Http.read_stream]. rewrite IH, <- app_assoc. reflexivity.
Qed.

(** X19.  A streamed download is put together in order, or not at all.
    When the response is [ok] and exposes its body only as a reader, the
    download's content is the chunks of the stream in the order read, and
    its MIME type and content-disposition are the response's headers; when
    a read rejects, the call throws that error and returns no partial
    content. *)
Theorem streamed_download (net : Http.Network) (endpoint url : jsstring)
    (queryParams : Fields) (response : Http.HttpResponse)
    (pending : list (list Byte.byte)) (ending : Http.StreamEnd) :
  Http.url_toString net endpoint queryParams = Return url ->
  (forall headers, Http.fetch net url headers = Return response) ->
  Http.ok response = true ->
  Http.body response = Http.WithReader pending ending ->
  Http.callLegalserverAPI net endpoint queryParams true
  = match ending with
    | Http.StreamDone =>
        Return {| content := concat pending;
                  mimeType := Http.headers_get response "content-type";
                  contentDisposition :=
                    Http.headers_get response "content-disposition" |}
    | Http.StreamFails e => Throw e
    | Http.StreamHangs => Diverge
    end.
Proof.
  intros Hurl Hfetch Hok Hbody. unfold Http.callLegalserverAPI.
  rewrite Hurl. cbn [and_then]. rewrite Hfetch. cbn [and_then].
  rewrite Hok. cbn [negb]. unfold Http.read_body. rewrite Hbody.
  rewrite read_stream_chunks. by destruct ending.
Qed.

(** X19 on a stream of two chunks. *)
Lemma streamed_download_witness :
  Http.callLegalserverAPI (Example4.network Example4.streamed)
    (lit "/modules/document/download.php") [("id", JStr (lit "7"))] true
  = Return {| content := list_byte_of_string "hello world";
              mimeType := Some (lit "text/plain");
              contentDisposition := None |}.
Proof.
  apply (streamed_download (Example4.network Example4.streamed)
           (lit "/modules/document/download.php")
           (lit "https://example.org/modules/document/download.php")
           [("id", JStr (lit "7"))] Example4.streamed
           [list_byte_of_string "hello "; list_byte_of_string "world"]
           Http.StreamDone); reflexivity.
Defined.

(** ** The base URL *)

Lemma drop_slashes_head (s : jsstring) (c : codeunit) (r : jsstring) :
  Startup.drop_slashes s = c :: r -> codeunit_eqb c Startup.SLASH = false.
Proof.
  induction s as [|a s IH]; [discriminate|].
  cbn [Startup.drop_slashes]. destruct (codeunit_eqb a Startup.SLASH) eqn:Ha;
    [exact IH|].
  intros H. injection H as <- _. exact Ha.
Qed.

Lemma drop_slashes_fixed (s : jsstring) :
  Startup.drop_slashes (Startup.drop_slashes s) = Startup.drop_slashes s.
Proof.
  destruct (Startup.drop_slashes s) as [|c r] eqn:E; [reflexivity|].
  cbn [Startup.drop_slashes]. by rewrite (drop_slashes_head s c r E).
Qed.

Lemma replace_trailing_slashes_reverse (s : jsstring) :
  reverse (Startup.replace_trailing_slashes s)
  = match reverse s with
    | c :: r =>
        if codeunit_eqb c Startup.SLASH
        then Startup.SLASH :: Startup.drop_slashes r
        else c :: r
    | [] => []
    end.
Proof.
  unfold Startup.replace_trailing_slashes.
  destruct (reverse s) as [|c r] eqn:E; [exact E|].
  destruct (codeunit_eqb c Startup.SLASH); [|exact E].
  by rewrite reverse_app, reverse_involutive.
Qed.

(** X20.  What start-up leaves in the configuration.  The configuration is
    accepted only with a non-empty token and a non-empty base URL that
    parses; the base URL it keeps never ends in two slashes, and
    normalising it again changes nothing. *)
Theorem configured_base_url (new_URL : jsstring -> Result jsstring)
    (rawBaseUrl token : option jsstring) (bearer base : jsstring) :
  Startup.configure new_URL rawBaseUrl token = Startup.Configured bearer base ->
  token = Some bearer /\ bearer <> []
  /\ (exists raw href, rawBaseUrl = Some raw /\ raw <> []
                       /\ new_URL raw = Return href
                       /\ base = Startup.replace_trailing_slashes href)
  /\ endsWith base (lit "//") = false
  /\ Startup.replace_trailing_slashes base = base.
Proof.
  unfold Startup.configure. intros H.
  destruct token as [[|t bearer']|]; try discriminate.
  destruct rawBaseUrl as [[|r raw]|]; try discriminate.
  destruct (new_URL (r :: raw)) as [href| |] eqn:Hurl; try discriminate.
  injection H as <- <-.
  split; [reflexivity|]. split; [discriminate|].
  split; [exists (r :: raw), href; repeat split; [discriminate | exact Hurl]|].
  pose proof (replace_trailing_slashes_reverse href) as Hrev.
  split.
  - unfold endsWith. rewrite Hrev.
    destruct (reverse href) as [|c rest]; [reflexivity|].
    destruct (codeunit_eqb c Startup.SLASH) eqn:Hc.
    + destruct (Startup.drop_slashes rest) as [|c' rest'] eqn:E; [reflexivity|].
      apply drop_slashes_head in E. unfold codeunit_eqb, Startup.SLASH in *.
      change (reverse (lit "//")) with [47%N; 47%N]. cbn [startsWith].
      unfold codeunit_eqb. by rewrite E, andb_false_r.
    + change (reverse (lit "//")) with [47%N; 47%N]. cbn [startsWith].
      unfold codeunit_eqb, Startup.SLASH in *. by rewrite Hc.
  - unfold Startup.replace_trailing_slashes at 1. rewrite Hrev.
    destruct (reverse href) as [|c rest] eqn:Ehref.
    + unfold Startup.replace_trailing_slashes. by rewrite Ehref.
    + destruct (codeunit_eqb c Startup.SLASH) eqn:Hc.
      * change (codeunit_eqb Startup.SLASH Startup.SLASH) with true.
        rewrite drop_slashes_fixed.
        unfold Startup.replace_trailing_slashes. by rewrite Ehref, Hc.
      * by rewrite Hc.
Qed.

(** X20 on a base URL typed with three slashes at the end. *)
Lemma configured_base_url_witness :
  endsWith (lit "https://ls.example.org/") (lit "//") = false.
Proof.
  apply (configured_base_url (fun raw => Return raw)
           (Some (lit "https://ls.example.org///")) (Some (lit "secret"))
           (lit "secret") (lit "https://ls.example.org/")).
  reflexivity.
Defined.

(* ===================================================================== *)
(** * Downloads that declare no type *)
(* ===================================================================== *)

Lemma identifier_names_itself (filename document_id document_uuid identifier : Json) :
  js_or (js_or filename document_id) document_uuid = identifier ->
  js_or filename identifier = identifier.
Proof.
  unfold js_or. destruct (truthy filename) eqn:Hf; [|reflexivity].
  by rewrite Hf.
Qed.

Lemma extract_text_binary (rt : Runtime) (n mime : jsstring) (d : Download) :
  startsWith mime (lit "image/") = false ->
  startsWith mime (lit "text/") || includes mime (lit "plain") = false ->
  JS.eqb mime (lit "application/pdf") = false ->
  includes mime (lit "pdf") = false ->
  extract_text rt (JStr n) mime d
  = run_strategy rt
      (if endsWith (toLowerCase rt n) (lit ".pdf") then PdfExtraction
       else if includes mime (lit "word") || includes mime (lit "officedocument")
            then WordExtraction
            else FormatUnsupported)
      (JStr n) mime d.
Proof.
  intros Himage Htext Heq Hpdf. unfold extract_text, is_pdf.
  rewrite Himage, Htext, Heq, Hpdf, orb_false_r. unfold bind at 1, lift.
  destruct (endsWith (toLowerCase rt n) (lit ".pdf")); [reflexivity|].
  by destruct (includes mime (lit "word") || includes mime (lit "officedocument")).
Qed.

Lemma extract_text_plain (rt : Runtime) (identifier : Json) (d : Download) :
  extract_text rt identifier (lit "text/plain") d
  = ret (inr (utf8_toString rt (content d))).
Proof. reflexivity. Qed.

(** X21.  Without a declared type the extension alone decides.  When the
    response has no [content-type], the handler guesses the type from the
    name it identifies the document by, and the guess composed with the
    format dispatch gives: [.pdf] the PDF extractor, [.docx] and [.doc] the
    word-processor extractor, [.txt] UTF-8 decoding, and everything else,
    [.rtf] included, the unsupported-format failure, under
    [application/rtf] for [.rtf] and [application/octet-stream] for the
    rest.  The image branch cannot be reached this way. *)
Theorem undeclared_type_by_extension (rt : Runtime) (args : Fields)
    (d : Download) (filename : Json) (n : jsstring) (s : ModuleState) :
  declared d = false ->
  extractFilenameFromDisposition rt (contentDisposition d) = Return filename ->
  js_or (js_or filename (field args "document_id")) (field args "document_uuid")
  = JStr n ->
  n <> [] ->
  let strategy := strategy_of_extension (toLowerCase rt n) in
  exists mime : jsstring,
    get_document_body rt args d s
    = get_document_content rt args (JStr n) mime d s
    /\ extract_text rt (JStr n) mime d = run_strategy rt strategy (JStr n) mime d
    /\ strategy <> ImageUnsupported
    /\ (strategy = FormatUnsupported ->
        mime = (if endsWith (toLowerCase rt n) (lit ".rtf")
                then lit "application/rtf"
                else lit "application/octet-stream")).
Proof.
  intros Hdecl Hname Hident Hn strategy.
  assert (Hbody : forall mime,
            guessMimeTypeFromName rt (JStr n) = Return (JStr mime) ->
            mime <> [] ->
            get_document_body rt args d s
            = get_document_content rt args (JStr n) mime d s).
  { intros mime Hguess Hmime. unfold get_document_body, bind, lift.
    rewrite Hname, Hident. unfold resolve_mimeType.
    rewrite (identifier_names_itself _ _ _ _ Hident), Hguess.
    unfold declared in Hdecl.
    destruct (mimeType d) as [[|c m]|]; try discriminate;
      by destruct mime. }
  assert (Hnone : guessMimeTypeFromName rt (JStr n) = Return JUndefined ->
            get_document_body rt args d s
            = get_document_content rt args (JStr n)
                (lit "application/octet-stream") d s).
  { intros Hguess. unfold get_document_body, bind, lift.
    rewrite Hname, Hident. unfold resolve_mimeType.
    rewrite (identifier_names_itself _ _ _ _ Hident), Hguess.
    unfold declared in Hdecl.
    by destruct (mimeType d) as [[|c m]|]. }
  pose proof (fun mime H1 H2 H3 H4 =>
                extract_text_binary rt n mime d H1 H2 H3 H4) as Hbinary.
  unfold guessMimeTypeFromName in Hbody, Hnone.
  replace (negb (truthy (JStr n))) with false in Hbody, Hnone
    by (by destruct n).
  subst strategy. unfold strategy_of_extension.
  destruct (endsWith (toLowerCase rt n) (lit ".pdf")) eqn:Hpdf.
  { exists (lit "application/pdf").
    split; [by apply Hbody|]. split; [apply extract_text_pdf|]. done. }
  destruct (endsWith (toLowerCase rt n) (lit ".docx")) eqn:Hx.
  { eexists. split; [by apply Hbody|]. split; [|done].
    by rewrite Hbinary by reflexivity. }
  destruct (endsWith (toLowerCase rt n) (lit ".doc")) eqn:Hw.
  { eexists. split; [by apply Hbody|]. split; [|done].
    by rewrite Hbinary by reflexivity. }
  cbn [orb].
  destruct (endsWith (toLowerCase rt n) (lit ".txt")) eqn:Ht.
  { eexists. split; [by apply Hbody|]. split; [apply extract_text_plain|]. done. }
  destruct (endsWith (toLowerCase rt n) (lit ".rtf")) eqn:Hr.
  { eexists. split; [by apply Hbody|]. split; [|done].
    by rewrite Hbinary by reflexivity. }
  exists (lit "application/octet-stream").
  split; [by apply Hnone|]. split; [|done].
  by rewrite Hbinary by reflexivity.
Qed.

(** X21 on a rich-text file that arrives without a [content-type]. *)
Lemma undeclared_type_by_extension_witness :
  exists mime : jsstring,
    get_document_body (Example.runtime (Example.download "x" "text/plain") [])
      [("document_id", JStr (lit "notes.rtf"))]
      {| content := []; mimeType := None; contentDisposition := None |}
      Example.fresh
    = get_document_content (Example.runtime (Example.download "x" "text/plain") [])
        [("document_id", JStr (lit "notes.rtf"))] (JStr (lit "notes.rtf")) mime
        {| content := []; mimeType := None; contentDisposition := None |}
        Example.fresh
    /\ mime = lit "application/rtf".
Proof.
  destruct (undeclared_type_by_extension
              (Example.runtime (Example.download "x" "text/plain") [])
              [("document_id", JStr (lit "notes.rtf"))]
              {| content := []; mimeType := None; contentDisposition := None |}
              JUndefined (lit "notes.rtf") Example.fresh)
    as (mime & Hbody & _ & _ & Hmime);
    [reflexivity | reflexivity | reflexivity | discriminate |].
  exists mime. split; [exact Hbody|]. by apply Hmime.
Defined.

(* ===================================================================== *)
(** * What the engine's answers show, and the advertised schema *)
(* ===================================================================== *)

(** X22.  What an answer of the engine shows when the numbers among the
    arguments are integers.  It echoes the document identifier and the
    effective mode.  A success shows a string under [text], the length of
    the whole text under [total_length] and a quarter of it, rounded, under
    [estimated_tokens]; a failure shows a string under [error] and nothing
    under [text]. *)
Theorem engine_answer_shape (rt : Runtime) (identifier : Json) (args : Fields)
    (T : jsstring) (resp : Response) :
  access_engine rt identifier args T = Return resp ->
  shown (payload resp) "document_identifier" = identifier
  /\ shown (payload resp) "mode" = effective_mode args
  /\ ((shown (payload resp) "success" = JBool true
       /\ (exists t, shown (payload resp) "text" = JStr t)
       /\ shown (payload resp) "total_length" = JNum (len T)
       /\ shown (payload resp) "estimated_tokens" = JNum (estimated_tokens (len T)))
      \/ (shown (payload resp) "success" = JBool false
          /\ (exists e, shown (payload resp) "error" = JStr e)
          /\ shown (payload resp) "text" = JUndefined)).
Proof.
  unfold access_engine.
  destruct (blank T) eqn:Hblank.
  { intros [= <-]. repeat split. right. repeat split. by eexists. }
  destruct (chunkText T (effective_maxChars args)) as [chunks|] eqn:Hrun;
    [|discriminate].
  pose proof (first_chunk T _ chunks (effective_maxChars_positive args)
                (blank_false_nonempty T Hblank) Hrun) as Hfirst.
  destruct (is_string (effective_mode args) (lit "full")
            && (MAX_FULL_TOKENS <? estimated_tokens (len T))) eqn:Hlarge.
  { apply andb_true_iff in Hlarge as [Hmode%is_string_literal _].
    intros [= <-]. split; [reflexivity|]. split; [by rewrite Hmode|].
    right. repeat split. by eexists. }
  clear Hlarge.
  destruct (is_string (effective_mode args) (lit "preview")) eqn:Hpreview.
  { apply is_string_literal in Hpreview. intros [= <-].
    split; [reflexivity|]. split; [by rewrite Hpreview|].
    left. split; [reflexivity|]. split; [|by split].
    eexists. exact (chunk_at_lookup chunks 0 _ Hfirst). }
  clear Hpreview.
  destruct (is_string (effective_mode args) (lit "chunk")) eqn:Hchunk.
  { apply is_string_literal in Hchunk.
    destruct (Z.ltb_spec (effective_chunk_index args) 0) as [|Hlow].
    { intros [= <-]. split; [reflexivity|]. split; [by rewrite Hchunk|].
      right. repeat split. by eexists. }
    destruct (Z.leb_spec (Z.of_nat (length chunks)) (effective_chunk_index args))
      as [|Hhigh].
    { intros [= <-]. split; [reflexivity|]. split; [by rewrite Hchunk|].
      right. repeat split. by eexists. }
    intros [= <-]. split; [reflexivity|]. split; [by rewrite Hchunk|].
    left. split; [reflexivity|]. split; [|by split].
    destruct (lookup_lt_is_Some_2 chunks (Z.to_nat (effective_chunk_index args)))
      as [c Hc]; [lia|].
    exists c. rewrite <- (Z2Nat.id (effective_chunk_index args)) by lia.
    exact (chunk_at_lookup chunks _ c Hc). }
  clear Hchunk.
  destruct (is_string (effective_mode args) (lit "search")) eqn:Hsearch.
  { apply is_string_literal in Hsearch.
    destruct (search_query_of rt args) as [q| |]; try discriminate.
    destruct (empty q).
    { intros [= <-]. split; [reflexivity|]. split; [by rewrite Hsearch|].
      right. repeat split. by eexists. }
    intros [= <-]. split; [reflexivity|]. split; [by rewrite Hsearch|].
    left. split; [reflexivity|]. split; [by eexists|by split]. }
  clear Hsearch.
  destruct (is_string (effective_mode args) (lit "full")) eqn:Hfull.
  { apply is_string_literal in Hfull.
    intros [= <-]. split; [reflexivity|]. split; [by rewrite Hfull|].
    left. split; [reflexivity|]. split; [by eexists|by split]. }
  intros [= <-]. repeat split. right. repeat split. by eexists.
Qed.

(** X22 on a chunk request past the end of a short text. *)
Lemma engine_answer_shape_witness :
  shown (payload (chunk_range_failure (JStr (lit "7")) 3 5 [lit "hello"])) "text"
  = JUndefined.
Proof.
  destruct (engine_answer_shape
              (Example.runtime (Example.download "hello" "text/plain") [])
              (JStr (lit "7"))
              [("mode", JStr (lit "chunk")); ("chunk_index", JNum 3)]
              (lit "hello")
              (chunk_range_failure (JStr (lit "7")) 3 5 [lit "hello"]))
    as (_ & _ & [(Hsuccess & _) | (_ & _ & Htext)]);
    [reflexivity | discriminate Hsuccess | exact Htext].
Defined.

Lemma eqb_neq (s t : jsstring) : s <> t -> JS.eqb s t = false.
Proof.
  intros H. destruct (JS.eqb s t) eqn:E; [|reflexivity].
  by apply codeunits_eq in E.
Qed.

(** X23.  The advertised tools are the handled ones, and what the schema
    requires is enforced.  A request whose name is not in the [tools] list
    of the ListTools handler is answered by the error envelope with
    [Unknown tool: <name>], whatever its arguments, and without a change of
    state; and for every listed tool and every property its schema marks
    required, a call in which that property is absent or not truthy is
    rejected with [<property> is required]. *)
Theorem advertised_tools_handled (rt : Runtime) (s : ModuleState) :
  (forall request : Request,
     name request ∉ tool_name <$> list_tools ->
     call_tool rt request s
     = (Return (error_envelope (name request)
                  (new_Error (lit "Unknown tool: " ++ name request))), s))
  /\ (forall (tool : ToolSchema) (k : string) (args : Fields),
        tool ∈ list_tools -> k ∈ required tool ->
        truthy (field args k) = false ->
        call_tool rt {| name := tool_name tool; arguments := Some args |} s
        = (Return (error_envelope (tool_name tool)
                     (new_Error (lit k ++ lit " is required"))), s)).
Proof.
  split.
  - intros [called arguments] Hname. cbn [name] in *.
    unfold call_tool, try_catch, tool_body. cbn [name].
    assert (Hother : forall tool,
              lit tool ∈ tool_name <$> list_tools -> JS.eqb called (lit tool) = false).
    { intros tool Htool. apply eqb_neq. by intros ->. }
    rewrite !Hother
      by (unfold list_tools; cbn [fmap list_fmap tool_name];
          repeat first [apply list_elem_of_here | apply list_elem_of_further]).
    reflexivity.
  - intros tool k args Htool Hk Hfalsy.
    destruct (tool_body_named rt (Some args)) as (H1 & H2 & H3 & _).
    unfold list_tools in Htool.
    repeat (apply elem_of_cons in Htool as [-> | Htool]);
      [..|by apply elem_of_nil in Htool];
      cbn [required tool_name] in *;
      repeat (apply elem_of_cons in Hk as [-> | Hk]);
      try (by apply elem_of_nil in Hk);
      unfold call_tool, try_catch; cbn [name].
    + rewrite H1. unfold search_case_by_number, destructure, bind, ret, throw.
      by rewrite Hfalsy.
    + rewrite H2. unfold get_case_info, destructure, bind, ret, throw.
      by rewrite Hfalsy.
    + rewrite H3. unfold list_case_documents, destructure, bind, ret, throw.
      by rewrite Hfalsy.
Qed.



